(** * spacy_conll: the CoNLL-U formatter component, embedded in Rocq

    A shallow embedding of [spacy_conll/formatter.py].  The file has
    three layers:

    - the Python built-ins the formatter relies on ([Py]: [str.lower],
      [str.strip], [str.join], [str.split], [str] on integers, [float]
      on strings; [OD]: dictionaries in insertion order; [Repr]);
    - the two collaborators the formatter talks to: spaCy's extension
      attributes ([Underscore]: [X._.set], [X._.get],
      [X.set_extension]) on [Doc], [Span] and [Token], and the three
      pandas calls it makes ([Pd]);
    - the class [ConllFormatter] itself, method by method.

    A method that can raise returns a [result]; [X._] is a finite map
    from attribute names to values that every object carries, and the
    methods return the object with its attributes updated.

    Python strings are modelled by [string]; a character is read as the
    code point of the same number, so the model covers the strings whose
    code points are below 256. *)

From Stdlib Require Import ZArith NArith Lia List Ascii String DecimalString.
From stdpp Require Import gmap strings list fin_maps.

Local Open Scope string_scope.
Local Open Scope list_scope.
Set Warnings "-register-all".

(* ===================================================================== *)
(** ** Exceptions and fallible computations *)
(* ===================================================================== *)

(** The exception classes that can occur; [KeyError] carries its message. *)
Inductive exn : Type :=
| KeyError (msg : string)
| IndexError
| TypeError
| ValueError
| AttributeError.

(** A call either returns a value or raises. *)
Inductive result (A : Type) : Type :=
| Ok (a : A)
| Raise (e : exn).
Arguments Ok {A} a.
Arguments Raise {A} e.

Definition bind {A B} (r : result A) (k : A -> result B) : result B :=
  match r with
  | Ok a => k a
  | Raise e => Raise e
  end.

Declare Scope py_scope.
Delimit Scope py_scope with py.
Notation "'let!' x ':=' c1 'in' c2" := (bind c1 (fun x => c2))
  (at level 10, x name, c1 at level 100, c2 at level 200) : py_scope.
Local Open Scope py_scope.

(** [[f(x) for x in xs]] where [f] may raise: left to right, stopping at
    the first exception. *)
Fixpoint mapM {A B} (f : A -> result B) (xs : list A) : result (list B) :=
  match xs with
  | [] => Ok []
  | x :: rest =>
      let! y := f x in
      let! ys := mapM f rest in
      Ok (y :: ys)
  end.

(* ===================================================================== *)
(** ** Python built-ins *)
(* ===================================================================== *)

Module Py.

Definition ord (c : ascii) : N := N_of_ascii c.
Definition chr (n : N) : ascii := ascii_of_N n.

Definition between (lo hi n : N) : bool := ((lo <=? n) && (n <=? hi))%N.

(** [str.isspace] on one character: the code points below 256 with the
    Unicode White_Space property or bidirectional type WS, B or S. *)
Definition isspace (c : ascii) : bool :=
  let n := ord c in
  between 9 13 n || between 28 32 n || (n =? 133)%N || (n =? 160)%N.

(** [str.lower] on one character: A-Z and the Latin-1 capitals
    (all of 0xC0-0xDE but the multiplication sign 0xD7) move up by 32. *)
Definition lower_char (c : ascii) : ascii :=
  let n := ord c in
  if between 65 90 n || (between 192 222 n && negb (n =? 215)%N)
  then chr (n + 32) else c.

Fixpoint lower (s : string) : string :=
  match s with
  | EmptyString => EmptyString
  | String c r => String (lower_char c) (lower r)
  end.

Fixpoint lstrip_with (sp : ascii -> bool) (s : string) : string :=
  match s with
  | EmptyString => EmptyString
  | String c r => if sp c then lstrip_with sp r else s
  end.

Fixpoint rstrip_with (sp : ascii -> bool) (s : string) : string :=
  match s with
  | EmptyString => EmptyString
  | String c r =>
      match rstrip_with sp r with
      | EmptyString => if sp c then EmptyString else String c EmptyString
      | r' => String c r'
      end
  end.

(** [s.strip()]: whitespace removed at both ends. *)
Definition strip (s : string) : string :=
  rstrip_with isspace (lstrip_with isspace s).

(** [str(n)] for an integer. *)
Definition str_int (z : Z) : string := NilZero.string_of_int (Z.to_int z).

(** [sep.join(xs)] for a list of strings. *)
Fixpoint join (sep : string) (xs : list string) : string :=
  match xs with
  | [] => EmptyString
  | [x] => x
  | x :: rest => x ++ sep ++ join sep rest
  end.

(** [s.split(sep)] for a one-character separator. *)
Fixpoint split (sep : ascii) (s : string) : list string :=
  match s with
  | EmptyString => [EmptyString]
  | String c r =>
      if Ascii.eqb c sep then EmptyString :: split sep r
      else match split sep r with
           | [] => [String c EmptyString]
           | h :: t => String c h :: t
           end
  end.

(** [x in s] for a character. *)
Fixpoint contains (c : ascii) (s : string) : bool :=
  match s with
  | EmptyString => false
  | String d r => Ascii.eqb d c || contains c r
  end.

(** *** [float(s)] on a string: does it parse?

    CPython first rewrites a string that is not pure ASCII (non-ASCII
    whitespace becomes a blank, anything else that is not a decimal
    digit becomes [?] and ends the string), strips ASCII whitespace at
    both ends, checks and removes the underscores of PEP 515, and then
    accepts [[sign] (inf | infinity | nan)] or
    [[sign] (digits [. [digits]] | . digits) [(e|E) [sign] digits]],
    letters in either case, with nothing left over. *)

Definition is_digit (c : ascii) : bool := between 48 57 (ord c).

(** [Py_ISSPACE]: the six ASCII whitespace characters. *)
Definition c_isspace (c : ascii) : bool :=
  let n := ord c in between 9 13 n || (n =? 32)%N.

(** [Py_TOLOWER]: ASCII only. *)
Definition c_tolower (c : ascii) : ascii :=
  let n := ord c in if between 65 90 n then chr (n + 32) else c.

Fixpoint is_ascii (s : string) : bool :=
  match s with
  | EmptyString => true
  | String c r => (ord c <? 128)%N && is_ascii r
  end.

Fixpoint transform_non_ascii (s : string) : string :=
  match s with
  | EmptyString => EmptyString
  | String c r =>
      if (ord c <? 127)%N then String c (transform_non_ascii r)
      else if isspace c then String " " (transform_non_ascii r)
      else "?"
  end.

Definition transform_decimal_and_space (s : string) : string :=
  if is_ascii s then s else transform_non_ascii s.

(** The underscore pass: [None] when an underscore is not between two
    digits, otherwise the string without its underscores. *)
Fixpoint strip_underscores (prev : ascii) (s : string) : option string :=
  match s with
  | EmptyString => if Ascii.eqb prev "_" then None else Some EmptyString
  | String c r =>
      if Ascii.eqb c "_" then
        if is_digit prev then strip_underscores c r else None
      else if Ascii.eqb prev "_" && negb (is_digit c) then None
      else option_map (String c) (strip_underscores c r)
  end.

Definition skip_sign (s : string) : string :=
  match s with
  | String c r => if Ascii.eqb c "+" || Ascii.eqb c "-" then r else s
  | EmptyString => s
  end.

(** Leading digits: how many, and what follows them. *)
Fixpoint span_digits (s : string) : nat * string :=
  match s with
  | String c r =>
      if is_digit c then let '(n, rest) := span_digits r in (S n, rest)
      else (O, s)
  | EmptyString => (O, s)
  end.

Fixpoint c_lower (s : string) : string :=
  match s with
  | EmptyString => EmptyString
  | String c r => String (c_tolower c) (c_lower r)
  end.

Definition is_inf_or_nan (s : string) : bool :=
  let l := c_lower s in
  String.eqb l "inf" || String.eqb l "infinity" || String.eqb l "nan".

Definition is_exponent (s : string) : bool :=
  match s with
  | String c r =>
      (Ascii.eqb c "e" || Ascii.eqb c "E") &&
      (let '(n, rest) := span_digits (skip_sign r) in
       negb (Nat.eqb n 0) && String.eqb rest EmptyString)
  | EmptyString => false
  end.

Definition is_float_literal (s : string) : bool :=
  let body := skip_sign s in
  if is_inf_or_nan body then true
  else
    let '(n1, r1) := span_digits body in
    let '(n2, r2) :=
      match r1 with
      | String c r => if Ascii.eqb c "." then span_digits r else (O, r1)
      | EmptyString => (O, r1)
      end in
    negb (Nat.eqb (n1 + n2) 0) &&
    (String.eqb r2 EmptyString || is_exponent r2).

(** [true] when [float(s)] returns, [false] when it raises
    [ValueError]. *)
Definition float_parses (s : string) : bool :=
  let t := transform_decimal_and_space s in
  let t := rstrip_with c_isspace (lstrip_with c_isspace t) in
  if contains "_" t then
    match strip_underscores "000" t with
    | Some u => is_float_literal u
    | None => false
    end
  else is_float_literal t.

End Py.

(** Literal characters used below. *)
Definition TAB : string := String "009" EmptyString.
Definition NL : string := String "010" EmptyString.

(* ===================================================================== *)
(** ** Values and ordered dictionaries *)
(* ===================================================================== *)

(** A CoNLL field value: an integer ([id], [head]) or a string. *)
Inductive scalar : Type :=
| SInt (z : Z)
| SStr (s : string).

#[global] Instance scalar_eq_dec : EqDecision scalar.
Proof. solve_decision. Defined.

#[global] Instance scalar_countable : Countable scalar.
Proof.
  refine (inj_countable'
            (fun v => match v with SInt z => inl z | SStr s => inr s end)
            (fun x => match x with inl z => SInt z | inr s => SStr s end) _).
  intros []; reflexivity.
Defined.

(** [str(v)]. *)
Definition str (v : scalar) : string :=
  match v with
  | SInt z => Py.str_int z
  | SStr s => s
  end.

(** A dictionary that remembers insertion order ([dict], [OrderedDict]):
    the list of its items.  The keys of a dictionary are distinct. *)
Module OD.
Section Dict.
Context {V : Type}.

Abbreviation t := (list (string * V)).

Definition keys (d : t) : list string := map fst d.
Definition values (d : t) : list V := map snd d.

Fixpoint get (k : string) (d : t) : option V :=
  match d with
  | [] => None
  | (k', v) :: rest => if String.eqb k' k then Some v else get k rest
  end.

(** [k in d] *)
Definition mem (k : string) (d : t) : bool :=
  match get k d with Some _ => true | None => false end.

(** [d[k]] *)
Definition getitem (k : string) (d : t) : result V :=
  match get k d with
  | Some v => Ok v
  | None => Raise (KeyError k)
  end.

(** [d[k] = v]: an existing key keeps its place, a new one goes last. *)
Fixpoint set (k : string) (v : V) (d : t) : t :=
  match d with
  | [] => [(k, v)]
  | (k', v') :: rest =>
      if String.eqb k' k then (k', v) :: rest
      else (k', v') :: set k v rest
  end.

(** [dict(pairs)], [OrderedDict(pairs)] *)
Definition of_pairs (ps : list (string * V)) : t :=
  fold_left (fun d kv => set (fst kv) (snd kv) d) ps [].
End Dict.
Abbreviation t V := (list (string * V)) (only parsing).
End OD.

(** [zip(xs, ys)] *)
Fixpoint zip {A B} (xs : list A) (ys : list B) : list (A * B) :=
  match xs, ys with
  | x :: xs', y :: ys' => (x, y) :: zip xs' ys'
  | _, _ => []
  end.

(** [enumerate(xs, start)] *)
Fixpoint enumerate {A} (xs : list A) (start : Z) : list (Z * A) :=
  match xs with
  | [] => []
  | x :: rest => (start, x) :: enumerate rest (start + 1)
  end.

(** What an extension attribute can hold: [None] (the registered
    default), a string, a token's record, a list, or one of the pandas
    objects. *)
Inductive value : Type :=
| VNone
| VStr (s : string)
| VDict (d : OD.t scalar)
| VList (l : list value)
| VSeries (d : OD.t scalar)
| VFrame (index : list Z) (rows : list value).

(** [sep.join(xs)] on a list of arbitrary objects: [TypeError] unless
    every item is a string. *)
Fixpoint as_strings (xs : list value) : result (list string) :=
  match xs with
  | [] => Ok []
  | VStr s :: rest =>
      let! ss := as_strings rest in Ok (s :: ss)
  | _ :: _ => Raise TypeError
  end.

Definition join_values (sep : string) (xs : list value) : result string :=
  let! ss := as_strings xs in Ok (Py.join sep ss).

(** *** [repr] of a string and of a list of strings *)
Module Repr.
Definition quote1 : ascii := "039".
Definition quote2 : ascii := "034".
Definition backslash : ascii := "092".

Definition hex_digit (n : N) : ascii :=
  if (n <? 10)%N then Py.chr (48 + n) else Py.chr (87 + n).

Definition printable (c : ascii) : bool :=
  let n := Py.ord c in
  Py.between 32 126 n || (Py.between 161 255 n && negb (n =? 173)%N).

Definition escape (q c : ascii) : string :=
  let n := Py.ord c in
  if Ascii.eqb c q || Ascii.eqb c backslash then String backslash (String c EmptyString)
  else if (n =? 9)%N then String backslash "t"
  else if (n =? 10)%N then String backslash "n"
  else if (n =? 13)%N then String backslash "r"
  else if printable c then String c EmptyString
  else String backslash
         (String "x" (String (hex_digit (n / 16)) (String (hex_digit (n mod 16)) EmptyString))).

Fixpoint escape_all (q : ascii) (s : string) : string :=
  match s with
  | EmptyString => EmptyString
  | String c r => escape q c ++ escape_all q r
  end.

(** [repr(s)]: single quotes, unless [s] has a single quote and no
    double quote. *)
Definition of_str (s : string) : string :=
  let q := if Py.contains quote1 s && negb (Py.contains quote2 s)
           then quote2 else quote1 in
  String q (escape_all q s ++ String q EmptyString).

(** [repr(xs)] for a list of strings. *)
Definition of_list (xs : list string) : string :=
  "[" ++ Py.join ", " (map of_str xs) ++ "]".
End Repr.

(* ===================================================================== *)
(** ** The host: spaCy objects and pandas *)
(* ===================================================================== *)

(** Extension attributes.  Each of the classes [Doc], [Span] and [Token]
    has a registry of extension names; an object's values live under
    [obj._], by name.  Two attributes registered under one name share one
    slot. *)
Module Underscore.
(** [cls.has_extension(name)] *)
Definition has_extension (exts : gset string) (name : string) : bool :=
  bool_decide (name ∈ exts).

(** [cls.set_extension(name, default=None)]; registering a name twice
    is an error. *)
Definition set_extension (exts : gset string) (name : string)
  : result (gset string) :=
  if has_extension exts name then Raise ValueError
  else Ok ({[ name ]} ∪ exts).

(** [obj._.set(name, v)] *)
Definition set (exts : gset string) (data : gmap string value)
           (name : string) (v : value) : result (gmap string value) :=
  if has_extension exts name then Ok (<[ name := v ]> data)
  else Raise AttributeError.

(** [obj._.get(name)]: the stored value, or the default [None]. *)
Definition get (exts : gset string) (data : gmap string value)
           (name : string) : result value :=
  if has_extension exts name then Ok (default VNone (data !! name))
  else Raise AttributeError.
End Underscore.

(** The three class-level registries. *)
Record Registry : Type := {
  doc_extensions : gset string;
  span_extensions : gset string;
  token_extensions : gset string
}.

Module Token.
(** The attributes of a token that the formatter reads: [head_i] is
    [token.head.i], the document position of the head, and [us] is
    [token._]. *)
Record t : Type := {
  i : Z;
  text : string;
  lemma_ : string;
  pos_ : string;
  tag_ : string;
  dep_ : string;
  whitespace_ : string;
  head_i : Z;
  us : gmap string value
}.

Definition with_us (tok : t) (u : gmap string value) : t :=
  {| i := i tok; text := text tok; lemma_ := lemma_ tok; pos_ := pos_ tok;
     tag_ := tag_ tok; dep_ := dep_ tok; whitespace_ := whitespace_ tok;
     head_i := head_i tok; us := u |}.
End Token.

Module Span.
(** A sentence: its tokens in order, its raw text and [span._]. *)
Record t : Type := {
  tokens : list Token.t;
  text : string;
  us : gmap string value
}.
End Span.

Module Doc.
(** A document: [doc.sents] and [doc._]. *)
Record t : Type := {
  sents : list Span.t;
  us : gmap string value
}.
End Doc.

(** [nlp.Defaults.tag_map]: tag to features, a feature mapping being a
    dictionary from property name to value. *)
Record Language : Type := {
  tag_map : option (gmap string (OD.t scalar))
}.

Module Pd.
(** [pd.Series(d)] *)
Definition Series (d : OD.t scalar) : value := VSeries d.

Definition range_index (n : nat) : list Z := map Z.of_nat (seq 0 n).

(** [pd.DataFrame(rows)]: one row per item, indexed from 0. *)
Definition DataFrame (rows : list value) : value :=
  VFrame (range_index (length rows)) rows.

Fixpoint concat_frames (objs : list value) : result (list Z * list value) :=
  match objs with
  | [] => Ok ([], [])
  | VFrame ix rows :: rest =>
      let! r := concat_frames rest in
      Ok (ix ++ fst r, rows ++ snd r)
  | _ :: _ => Raise TypeError
  end.

(** [pd.concat(objs)]: on an empty list pandas raises [ValueError] ("No
    objects to concatenate"); on frames it returns the rows of all of
    them, each keeping its index.  The formatter only ever passes the
    frames that [_set_span_conll] has stored (lemma [stored_span_frames]);
    any other object is reported as a [TypeError]. *)
Definition concat (objs : list value) : result value :=
  match objs with
  | [] => Raise ValueError
  | _ :: _ =>
      let! r := concat_frames objs in
      Ok (VFrame (fst r) (snd r))
  end.

(** [frame.reset_index(drop=True)] *)
Definition reset_index (v : value) : result value :=
  match v with
  | VFrame _ rows => Ok (VFrame (range_index (length rows)) rows)
  | _ => Raise AttributeError
  end.
End Pd.

(* ===================================================================== *)
(** ** The formatter *)
(* ===================================================================== *)

Definition COMPONENT_NAME : string := "conll_formatter".

Definition CONLL_FIELD_NAMES : list string :=
  ["id"; "form"; "lemma"; "upostag"; "xpostag";
   "feats"; "head"; "deprel"; "deps"; "misc"].

(** The state of a [ConllFormatter] instance. *)
Record ConllFormatter : Type := {
  _tagmap : option (gmap string (OD.t scalar));
  _ext_names : OD.t string;
  _conversion_maps : option (gmap string (gmap scalar scalar));
  include_headers : bool;
  disable_pandas : bool
}.

(** Truth value of an optional dictionary: [None] and the empty
    dictionary are false. *)
Definition truthy_map {K} `{Countable K} {V} (m : option (gmap K V)) : bool :=
  match m with
  | Some d => negb (Nat.eqb (size d) 0)
  | None => false
  end.

Definition truthy_dict {V} (m : option (OD.t V)) : bool :=
  match m with
  | Some (_ :: _) => true
  | _ => false
  end.

Definition truthy_str (s : string) : bool :=
  match s with
  | EmptyString => false
  | String _ _ => true
  end.

Section Formatter.

(** Module-level flag: whether [import pandas] succeeded. *)
Variable PD_AVAILABLE : bool.

(** [_is_number(s)]: [float(s)] returns, or raises [ValueError]. *)
Definition _is_number (s : string) : bool := Py.float_parses s.

(** [_merge_dicts_strict(d1, d2)] *)
Definition key_error_message (d1 : OD.t string) : string :=
  "This key does not exist in the original dict. Valid keys are "
    ++ Repr.of_list (OD.keys d1).

Fixpoint merge_items (d1 : OD.t string) (items : list (string * string))
  : result (OD.t string) :=
  match items with
  | [] => Ok d1
  | (k, v) :: rest =>
      if negb (OD.mem k d1) then Raise (KeyError (key_error_message d1))
      else merge_items (OD.set k v d1) rest
  end.

Definition _merge_dicts_strict (d1 d2 : OD.t string) : result (OD.t string) :=
  merge_items d1 d2.

(** Whether the pandas attribute is produced. *)
Definition pandas_on (self : ConllFormatter) : bool :=
  PD_AVAILABLE && negb (disable_pandas self).

(** [_set_extensions], for one of the three classes. *)
Definition ensure_extension (exts : gset string) (name : string)
  : result (gset string) :=
  if negb (Underscore.has_extension exts name)
  then Underscore.set_extension exts name
  else Ok exts.

Definition set_extensions_of (self : ConllFormatter) (exts : gset string)
  : result (gset string) :=
  let! n_str := OD.getitem "conll_str" (_ext_names self) in
  let! exts := ensure_extension exts n_str in
  let! n_conll := OD.getitem "conll" (_ext_names self) in
  let! exts := ensure_extension exts n_conll in
  if pandas_on self then
    let! n_pd := OD.getitem "conll_pd" (_ext_names self) in
    ensure_extension exts n_pd
  else Ok exts.

Definition _set_extensions (self : ConllFormatter) (reg : Registry)
  : result Registry :=
  let! d := set_extensions_of self (doc_extensions reg) in
  let! s := set_extensions_of self (span_extensions reg) in
  let! t := set_extensions_of self (token_extensions reg) in
  Ok {| doc_extensions := d; span_extensions := s; token_extensions := t |}.

(** [__init__(nlp, conversion_maps=, ext_names=, include_headers=,
    disable_pandas=)] *)
Definition __init__ (nlp : Language)
           (conversion_maps : option (gmap string (gmap scalar scalar)))
           (ext_names : option (OD.t string))
           (include_headers_arg disable_pandas_arg : bool)
           (reg : Registry) : result (ConllFormatter * Registry) :=
  let defaults :=
    [("conll_str", "conll_str"); ("conll", "conll"); ("conll_pd", "conll_pd")] in
  let! names :=
    (if truthy_dict ext_names
     then _merge_dicts_strict defaults (default [] ext_names)
     else Ok defaults) in
  let self := {| _tagmap := tag_map nlp;
                 _ext_names := names;
                 _conversion_maps := conversion_maps;
                 include_headers := include_headers_arg;
                 disable_pandas := disable_pandas_arg |} in
  let! reg := _set_extensions self reg in
  Ok (self, reg).

(** [_get_morphology(tag)] *)
Definition feature_pair (pv : string * scalar) : string :=
  fst pv ++ "=" ++ str (snd pv).

(** The entries that pass [if not self._is_number(prop)]. *)
Definition kept_features (props : OD.t scalar) : OD.t scalar :=
  List.filter (fun pv => negb (_is_number (fst pv))) props.

Definition _get_morphology (self : ConllFormatter) (tag : string) : string :=
  if negb (truthy_map (_tagmap self)) then "_"
  else
    match default ∅ (_tagmap self) !! tag with
    | None => "_"
    | Some props =>
        let feats := map feature_pair (kept_features props) in
        match feats with
        | [] => "_"
        | _ :: _ => Py.join "|" feats
        end
    end.

(** [_map_conll(token_conll_d)]: the loop visits the items in order and
    assigns to the key it is visiting. *)
Definition convert_item (maps : gmap string (gmap scalar scalar))
           (d : OD.t scalar) (kv : string * scalar) : OD.t scalar :=
  match maps !! fst kv with
  | Some m =>
      match m !! snd kv with
      | Some v' => OD.set (fst kv) v' d
      | None => d
      end
  | None => d
  end.

Definition _map_conll (self : ConllFormatter) (token_conll_d : OD.t scalar)
  : result (OD.t scalar) :=
  match _conversion_maps self with
  | None => Raise TypeError
  | Some maps => Ok (fold_left (convert_item maps) token_conll_d token_conll_d)
  end.

(** [self._ext_names[key]] *)
Definition ext_name (self : ConllFormatter) (key : string) : result string :=
  OD.getitem key (_ext_names self).

(** The head column of [_set_token_conll]; [sent] is [token.sent]. *)
Definition head_idx (sent : Span.t) (token : Token.t) : result Z :=
  if String.eqb (Py.strip (Py.lower (Token.dep_ token))) "root" then Ok 0%Z
  else
    match Span.tokens sent with
    | [] => Raise IndexError
    | first :: _ => Ok (Token.head_i token + 1 - Token.i first)%Z
    end.

(** The ten-tuple [token_conll] of [_set_token_conll]. *)
Definition token_conll (self : ConllFormatter) (sent : Span.t)
           (token : Token.t) (token_idx : Z) : result (list scalar) :=
  let! h := head_idx sent token in
  Ok [ SInt token_idx;
       SStr (Token.text token);
       SStr (Token.lemma_ token);
       SStr (Token.pos_ token);
       SStr (Token.tag_ token);
       SStr (_get_morphology self (Token.tag_ token));
       SInt h;
       SStr (Token.dep_ token);
       SStr "_";
       SStr (if truthy_str (Token.whitespace_ token) then "_" else "SpaceAfter=No") ].

(** The record [token_conll_d], after the optional conversion. *)
Definition token_conll_d (self : ConllFormatter) (sent : Span.t)
           (token : Token.t) (token_idx : Z) : result (OD.t scalar) :=
  let! tup := token_conll self sent token token_idx in
  let d := OD.of_pairs (zip CONLL_FIELD_NAMES tup) in
  if truthy_map (_conversion_maps self) then _map_conll self d else Ok d.

(** The line [token_conll_str] of a record. *)
Definition token_conll_str (d : OD.t scalar) : string :=
  Py.join TAB (map str (OD.values d)) ++ NL.

(** [_set_token_conll(token, token_idx)] *)
Definition _set_token_conll (self : ConllFormatter) (reg : Registry)
           (sent : Span.t) (token : Token.t) (token_idx : Z) : result Token.t :=
  let exts := token_extensions reg in
  let! d := token_conll_d self sent token token_idx in
  let! n_conll := ext_name self "conll" in
  let! u := Underscore.set exts (Token.us token) n_conll (VDict d) in
  let! n_str := ext_name self "conll_str" in
  let! u := Underscore.set exts u n_str (VStr (token_conll_str d)) in
  let! u :=
    (if pandas_on self then
       let! n_pd := ext_name self "conll_pd" in
       Underscore.set exts u n_pd (Pd.Series d)
     else Ok u) in
  Ok (Token.with_us token u).

(** [[t._.get(name) for t in span]] *)
Definition token_values (reg : Registry) (name : string) (toks : list Token.t)
  : result (list value) :=
  mapM (fun t => Underscore.get (token_extensions reg) (Token.us t) name) toks.

(** The two header lines of a sentence. *)
Definition header (span_idx : Z) (span : Span.t) : string :=
  "# sent_id = " ++ Py.str_int span_idx ++ NL
    ++ "# text = " ++ Span.text span ++ NL.

(** [_set_span_conll(span, span_idx)] *)
Definition _set_span_conll (self : ConllFormatter) (reg : Registry)
           (span : Span.t) (span_idx : Z) : result Span.t :=
  let exts := span_extensions reg in
  let span_conll_str :=
    if include_headers self then header span_idx span else EmptyString in
  let! toks :=
    mapM (fun it => _set_token_conll self reg span (snd it) (fst it))
         (enumerate (Span.tokens span) 1) in
  let! n_conll := ext_name self "conll" in
  let! recs := token_values reg n_conll toks in
  let! u := Underscore.set exts (Span.us span) n_conll (VList recs) in
  let! n_str := ext_name self "conll_str" in
  let! lines := token_values reg n_str toks in
  let! body := join_values EmptyString lines in
  let span_conll_str := (span_conll_str ++ body)%string in
  let! u := Underscore.set exts u n_str (VStr span_conll_str) in
  let! u :=
    (if pandas_on self then
       let! n_pd := ext_name self "conll_pd" in
       let! rows := token_values reg n_conll toks in
       Underscore.set exts u n_pd (Pd.DataFrame rows)
     else Ok u) in
  Ok {| Span.tokens := toks; Span.text := Span.text span; Span.us := u |}.

(** [[s._.get(name) for s in doc.sents]] *)
Definition span_values (reg : Registry) (name : string) (spans : list Span.t)
  : result (list value) :=
  mapM (fun s => Underscore.get (span_extensions reg) (Span.us s) name) spans.

(** [__call__(doc)] *)
Definition __call__ (self : ConllFormatter) (reg : Registry) (doc : Doc.t)
  : result (Doc.t * Registry) :=
  let! reg := _set_extensions self reg in
  let exts := doc_extensions reg in
  let! spans :=
    mapM (fun it => _set_span_conll self reg (snd it) (fst it))
         (enumerate (Doc.sents doc) 1) in
  let! n_conll := ext_name self "conll" in
  let! recs := span_values reg n_conll spans in
  let! u := Underscore.set exts (Doc.us doc) n_conll (VList recs) in
  let! n_str := ext_name self "conll_str" in
  let! strs := span_values reg n_str spans in
  let! joined := join_values NL strs in
  let! u := Underscore.set exts u n_str (VStr joined) in
  let! u :=
    (if pandas_on self then
       let! n_pd := ext_name self "conll_pd" in
       let! frames := span_values reg n_pd spans in
       let! all := Pd.concat frames in
       let! fresh := Pd.reset_index all in
       Underscore.set exts u n_pd fresh
     else Ok u) in
  Ok ({| Doc.sents := spans; Doc.us := u |}, reg).

End Formatter.

(* ===================================================================== *)
(** ** The specification's wording of the derivations *)
(* ===================================================================== *)

(** [morphology(tag)] as the specification words it: look the tag up; if
    the table or the tag is absent the result is the placeholder;
    otherwise keep the entries whose key does not parse as a number,
    render them [key=value], join them with [|], and fall back to the
    placeholder when none is left. *)
Definition morphology_spec (table : option (gmap string (OD.t scalar)))
           (tag : string) : string :=
  match table with
  | None => "_"
  | Some t =>
      match t !! tag with
      | None => "_"
      | Some props =>
          match List.filter (fun pv : string * scalar =>
                               negb (Py.float_parses (fst pv))) props with
          | [] => "_"
          | kept =>
              Py.join "|" (map (fun pv : string * scalar =>
                                  (fst pv ++ "=" ++ str (snd pv))%string) kept)
          end
      end
  end.

(* ===================================================================== *)
(** ** Predicates used in the statements *)
(* ===================================================================== *)

(** The keys a rename map may use. *)
Definition VALID_KEYS : list string := ["conll_str"; "conll"; "conll_pd"].

Definition KEY_ERROR_TEXT : string :=
  "This key does not exist in the original dict. Valid keys are ['conll_str', 'conll', 'conll_pd']".

(** The formatter's name table has the three keys, as every constructed
    formatter's has. *)
Definition names_ok (self : ConllFormatter) : Prop :=
  OD.keys (_ext_names self) = VALID_KEYS.

(** The names of the three output attributes. *)
Definition name_of (self : ConllFormatter) (key : string) : string :=
  default EmptyString (OD.get key (_ext_names self)).

(** The attributes the formatter writes are registered on a class. *)
Definition registered_on (PD_AVAILABLE : bool) (self : ConllFormatter)
           (exts : gset string) : Prop :=
  name_of self "conll_str" ∈ exts /\ name_of self "conll" ∈ exts /\
  (pandas_on PD_AVAILABLE self = true -> name_of self "conll_pd" ∈ exts).

Definition registered (PD_AVAILABLE : bool) (self : ConllFormatter)
           (reg : Registry) : Prop :=
  registered_on PD_AVAILABLE self (doc_extensions reg) /\
  registered_on PD_AVAILABLE self (span_extensions reg) /\
  registered_on PD_AVAILABLE self (token_extensions reg).

(** What the conversion maps make of the value [v] of field [k]. *)
Definition converted (maps : gmap string (gmap scalar scalar))
           (k : string) (v : scalar) : scalar :=
  match maps !! k with
  | Some m => default v (m !! v)
  | None => v
  end.

(** The test of [_set_token_conll]: the dependency label, lowercased and
    stripped, is [root]. *)
Definition is_root (token : Token.t) : bool :=
  String.eqb (Py.strip (Py.lower (Token.dep_ token))) "root".

(** The tokens of a sentence sit at consecutive document positions. *)
Definition contiguous (sent : Span.t) : Prop :=
  forall first k t,
    hd_error (Span.tokens sent) = Some first ->
    nth_error (Span.tokens sent) k = Some t ->
    Token.i t = (Token.i first + Z.of_nat k)%Z.

(** The head of [token] is a token of [sent]. *)
Definition head_in (sent : Span.t) (token : Token.t) : Prop :=
  exists h, In h (Span.tokens sent) /\ Token.i h = Token.head_i token.

(** The raw record of a token: the ten names zipped with the tuple. *)
Definition raw_record (self : ConllFormatter) (token : Token.t)
           (token_idx h : Z) : OD.t scalar :=
  [ ("id", SInt token_idx);
    ("form", SStr (Token.text token));
    ("lemma", SStr (Token.lemma_ token));
    ("upostag", SStr (Token.pos_ token));
    ("xpostag", SStr (Token.tag_ token));
    ("feats", SStr (_get_morphology self (Token.tag_ token)));
    ("head", SInt h);
    ("deprel", SStr (Token.dep_ token));
    ("deps", SStr "_");
    ("misc", SStr (if truthy_str (Token.whitespace_ token) then "_" else "SpaceAfter=No")) ].

(** *** What the three passes leave behind

    The attribute tables after a call, written out: they are what the
    calls of [X._.set] in [_set_token_conll], [_set_span_conll] and
    [__call__] build, in the order of the calls. *)

(** The record and the line of a token ([[]] when the derivation raises). *)
Definition token_record (self : ConllFormatter) (sent : Span.t)
           (token : Token.t) (token_idx : Z) : OD.t scalar :=
  match token_conll_d self sent token token_idx with
  | Ok d => d
  | Raise _ => []
  end.

Definition token_line (self : ConllFormatter) (sent : Span.t)
           (it : Z * Token.t) : string :=
  token_conll_str (token_record self sent (snd it) (fst it)).

Definition with_pandas (PD_AVAILABLE : bool) (self : ConllFormatter)
           (v : value) (u : gmap string value) : gmap string value :=
  if pandas_on PD_AVAILABLE self then <[ name_of self "conll_pd" := v ]> u else u.

Definition token_after (PD_AVAILABLE : bool) (self : ConllFormatter)
           (sent : Span.t) (it : Z * Token.t) : Token.t :=
  let d := token_record self sent (snd it) (fst it) in
  Token.with_us (snd it)
    (with_pandas PD_AVAILABLE self (VSeries d)
       (<[ name_of self "conll_str" := VStr (token_conll_str d) ]>
          (<[ name_of self "conll" := VDict d ]> (Token.us (snd it))))).

Definition tokens_after (PD_AVAILABLE : bool) (self : ConllFormatter)
           (span : Span.t) : list Token.t :=
  map (token_after PD_AVAILABLE self span) (enumerate (Span.tokens span) 1).

(** [[t._.get(name) for t in toks]] when [name] is registered. *)
Definition stored {A} (us : A -> gmap string value) (name : string)
           (xs : list A) : list value :=
  map (fun x => default VNone (us x !! name)) xs.

(** The string of a sentence: the optional header, then the token lines. *)
Definition span_string (self : ConllFormatter) (span_idx : Z) (span : Span.t)
  : string :=
  ((if include_headers self then header span_idx span else EmptyString)
     ++ Py.join EmptyString
          (map (token_line self span) (enumerate (Span.tokens span) 1)))%string.

Definition span_after (PD_AVAILABLE : bool) (self : ConllFormatter)
           (it : Z * Span.t) : Span.t :=
  let toks := tokens_after PD_AVAILABLE self (snd it) in
  let recs := stored Token.us (name_of self "conll") toks in
  {| Span.tokens := toks;
     Span.text := Span.text (snd it);
     Span.us :=
       with_pandas PD_AVAILABLE self (Pd.DataFrame recs)
         (<[ name_of self "conll_str" := VStr (span_string self (fst it) (snd it)) ]>
            (<[ name_of self "conll" := VList recs ]> (Span.us (snd it)))) |}.

Definition spans_after (PD_AVAILABLE : bool) (self : ConllFormatter)
           (doc : Doc.t) : list Span.t :=
  map (span_after PD_AVAILABLE self) (enumerate (Doc.sents doc) 1).

(** The rows of all sentences, in order. *)
Definition all_rows (PD_AVAILABLE : bool) (self : ConllFormatter)
           (doc : Doc.t) : list value :=
  concat (map (fun s => stored Token.us (name_of self "conll") (Span.tokens s))
              (spans_after PD_AVAILABLE self doc)).

Definition doc_string (self : ConllFormatter) (doc : Doc.t) : string :=
  Py.join NL (map (fun it => span_string self (fst it) (snd it))
                  (enumerate (Doc.sents doc) 1)).

Definition doc_after (PD_AVAILABLE : bool) (self : ConllFormatter)
           (doc : Doc.t) : Doc.t :=
  let spans := spans_after PD_AVAILABLE self doc in
  let rows := all_rows PD_AVAILABLE self doc in
  {| Doc.sents := spans;
     Doc.us :=
       with_pandas PD_AVAILABLE self
         (VFrame (Pd.range_index (length rows)) rows)
         (<[ name_of self "conll_str" := VStr (doc_string self doc) ]>
            (<[ name_of self "conll" :=
                  VList (stored Span.us (name_of self "conll") spans) ]>
               (Doc.us doc))) |}.

(** A string ends with a newline. *)
Definition ends_with_newline (s : string) : Prop :=
  exists body, s = (body ++ NL)%string.

(** *** Characters of float literals *)

(** [P] holds of every character of [s]. *)
Fixpoint all_chars (P : ascii -> bool) (s : string) : bool :=
  match s with
  | EmptyString => true
  | String c r => P c && all_chars P r
  end.

(** The characters of a literal that [float] accepts, once whitespace and
    underscores are gone: digits, signs, the point, and the letters of
    [e], [inf], [infinity] and [nan] in either case. *)
Definition literal_char (c : ascii) : bool :=
  Py.is_digit (Py.c_tolower c) || Py.contains (Py.c_tolower c) "+-.einftya".

(** The characters that can occur in a string on which [float] returns. *)
Definition float_char (c : ascii) : bool :=
  literal_char c || Ascii.eqb c "_" || Py.isspace c.

(** *** Relations between an object before and after a pass *)

(** Two tokens carry the same annotation: everything but [token._]. *)
Definition same_annotation (t t' : Token.t) : Prop :=
  Token.i t' = Token.i t /\ Token.text t' = Token.text t /\
  Token.lemma_ t' = Token.lemma_ t /\ Token.pos_ t' = Token.pos_ t /\
  Token.tag_ t' = Token.tag_ t /\ Token.dep_ t' = Token.dep_ t /\
  Token.whitespace_ t' = Token.whitespace_ t /\ Token.head_i t' = Token.head_i t.

(** The attribute table [u'] agrees with [u] on every name that is not
    one of the formatter's three. *)
Definition untouched (self : ConllFormatter) (u u' : gmap string value) : Prop :=
  forall name,
    name <> name_of self "conll_str" -> name <> name_of self "conll" ->
    name <> name_of self "conll_pd" ->
    u' !! name = u !! name.

(** The records of a sentence, token by token. *)
Definition sentence_records (self : ConllFormatter) (span : Span.t)
  : list (OD.t scalar) :=
  map (fun it => token_record self span (snd it) (fst it))
      (enumerate (Span.tokens span) 1).

(* ===================================================================== *)
(** ** Sample inputs *)
(* ===================================================================== *)

Definition empty_registry : Registry :=
  {| doc_extensions := ∅; span_extensions := ∅; token_extensions := ∅ |}.

(** The tag map of the specification's morphology example. *)
Definition sample_nlp : Language :=
  {| tag_map := Some {[ "NN" := [("Number", SStr "Sing"); ("2", SStr "Noun")] ]} |}.

Definition sample_token (i : Z) (text pos tag dep : string) (head_i : Z)
           (whitespace : string) : Token.t :=
  {| Token.i := i; Token.text := text; Token.lemma_ := Py.lower text;
     Token.pos_ := pos; Token.tag_ := tag; Token.dep_ := dep;
     Token.whitespace_ := whitespace; Token.head_i := head_i; Token.us := ∅ |}.

(** "Dogs bark. Run" as two sentences. *)
Definition tok_dogs : Token.t := sample_token 0 "Dogs" "NOUN" "NN" "nsubj" 1 " ".
Definition tok_bark : Token.t := sample_token 1 "bark" "VERB" "VB" "ROOT" 1 "".
Definition tok_dot : Token.t := sample_token 2 "." "PUNCT" "." "punct" 1 " ".
Definition tok_run : Token.t := sample_token 3 "Run" "VERB" "VB" " Root " 3 "".

Definition sent_dogs : Span.t :=
  {| Span.tokens := [tok_dogs; tok_bark; tok_dot]; Span.text := "Dogs bark.";
     Span.us := ∅ |}.
Definition sent_run : Span.t :=
  {| Span.tokens := [tok_run]; Span.text := "Run"; Span.us := ∅ |}.

Definition sample_doc : Doc.t :=
  {| Doc.sents := [sent_dogs; sent_run]; Doc.us := ∅ |}.

(** The document of an empty text: no sentence. *)
Definition empty_doc : Doc.t := {| Doc.sents := []; Doc.us := ∅ |}.

(** A token whose text is a tab, as the tokenizer makes of stray
    whitespace. *)
Definition tok_tab : Token.t := sample_token 0 TAB "SPACE" "_SP" "ROOT" 0 "".
Definition sent_tab : Span.t :=
  {| Span.tokens := [tok_tab]; Span.text := TAB; Span.us := ∅ |}.

(** A formatter as [__init__] builds it from a given name table. *)
Definition formatter_with (names : OD.t string)
           (maps : option (gmap string (gmap scalar scalar)))
           (headers no_pandas : bool) : ConllFormatter :=
  {| _tagmap := tag_map sample_nlp; _ext_names := names;
     _conversion_maps := maps; include_headers := headers;
     disable_pandas := no_pandas |}.

Definition default_names : OD.t string :=
  [("conll_str", "conll_str"); ("conll", "conll"); ("conll_pd", "conll_pd")].

(** The registry after the default formatter has registered its
    attributes, with and without pandas. *)
Definition registry_of (names : list string) : Registry :=
  {| doc_extensions := list_to_set names; span_extensions := list_to_set names;
     token_extensions := list_to_set names |}.

(** The conversion map of the specification's example. *)
Definition sample_maps : gmap string (gmap scalar scalar) :=
  {[ "upostag" := {[ SStr "NOUN" := SStr "N" ]} ]}.

(** A name table in which the pandas attribute is renamed to the name of
    the string attribute: what [__init__] builds from the rename map
    [{"conll_pd": "conll_str"}]. *)
Definition pd_as_str_names : OD.t string :=
  [("conll_str", "conll_str"); ("conll", "conll"); ("conll_pd", "conll_str")].

(** A name table in which the record attribute is renamed to the name of
    the string attribute: the rename map [{"conll": "conll_str"}]. *)
Definition conll_as_str_names : OD.t string :=
  [("conll_str", "conll_str"); ("conll", "conll_str"); ("conll_pd", "conll_pd")].

Definition default_registry : Registry :=
  registry_of ["conll_str"; "conll"; "conll_pd"].

(** A name table in which the pandas attribute is renamed to the name of
    the record attribute: the rename map [{"conll_pd": "conll"}]. *)
Definition pd_as_conll_names : OD.t string :=
  [("conll_str", "conll_str"); ("conll", "conll"); ("conll_pd", "conll")].

(* ===================================================================== *)
(** ** Tactics *)
(* ===================================================================== *)

(** One step of a fallible computation whose first call has returned. *)
Ltac step := cbv beta iota zeta delta [bind].

(** A decidable fact about concrete data. *)
Ltac by_computation := apply (bool_decide_unpack _); vm_compute; exact I.

(* ===================================================================== *)
(** ** General lemmas *)
(* ===================================================================== *)

Lemma bind_ok {A B} (r : result A) (k : A -> result B) (b : B) :
  bind r k = Ok b -> exists a, r = Ok a /\ k a = Ok b.
Proof. destruct r as [a|e]; simpl; intros H; [eauto | discriminate]. Qed.

Lemma mapM_length {A B} (f : A -> result B) xs ys :
  mapM f xs = Ok ys -> length ys = length xs.
Proof.
  revert ys; induction xs as [|x xs IH]; simpl; intros ys H.
  - injection H as <-; reflexivity.
  - destruct (f x) as [y|]; [simpl in H | discriminate].
    destruct (mapM f xs) as [ys'|]; [simpl in H | discriminate].
    injection H as <-; simpl; f_equal; apply IH; reflexivity.
Qed.

(** A comprehension whose body always returns, returns. *)
Lemma mapM_total {A B} (f : A -> result B) (g : A -> B) xs :
  Forall (fun x => f x = Ok (g x)) xs -> mapM f xs = Ok (map g xs).
Proof.
  induction 1 as [|x xs Hx _ IH]; simpl; [reflexivity|].
  rewrite Hx; simpl; rewrite IH; reflexivity.
Qed.

Lemma size_zero_lookup {V} (m : gmap string V) k :
  size m = 0%nat -> m !! k = None.
Proof. intros H; apply map_size_empty_inv in H; subst; apply lookup_empty. Qed.

(* ===================================================================== *)
(** ** The built-ins on known values *)
(* ===================================================================== *)

Example lower_strip_examples :
  Py.lower "ROOT" = "root" /\
  Py.strip (NL ++ " Root" ++ TAB) = "Root" /\
  Py.strip (Py.lower "  rOoT ") = "root" /\
  Py.strip "r oot" = "r oot" /\
  Py.strip "   " = "".
Proof. repeat split; vm_compute; reflexivity. Qed.

Example join_split_examples :
  Py.join "|" ["a"; "b"; "c"] = "a|b|c" /\
  Py.join "|" ["a"] = "a" /\
  Py.join "|" [] = "" /\
  Py.split "009" ("a" ++ TAB ++ "" ++ TAB ++ "b") = ["a"; ""; "b"] /\
  Py.split "009" "" = [""] /\
  Py.split "009" TAB = [""; ""].
Proof. repeat split; vm_compute; reflexivity. Qed.

Example str_examples :
  map Py.str_int [0; 7; 10; -3; 1204]%Z = ["0"; "7"; "10"; "-3"; "1204"] /\
  Repr.of_list ["conll_str"; "conll"; "conll_pd"] = "['conll_str', 'conll', 'conll_pd']" /\
  key_error_message
    [("conll_str", "a"); ("conll", "b"); ("conll_pd", "c")] = KEY_ERROR_TEXT.
Proof. repeat split; vm_compute; reflexivity. Qed.

Example float_examples :
  map Py.float_parses
      ["0"; "12"; "-7"; "+3.25"; ".5"; "5."; "1e10"; "1E-3"; "1_000.5"; "  42  ";
       "inf"; "-Infinity"; "NaN"; "+nan"]
    = [true; true; true; true; true; true; true; true; true; true;
       true; true; true; true] /\
  map Py.float_parses
      [""; " "; "."; "e5"; "1e"; "1e+"; "--1"; "+ 1"; "1 2"; "1_"; "_1"; "1__0";
       "1_.5"; "0x1F"; "1,5"; "infinit"; "nane"; "Number"; "PronType"]
    = [false; false; false; false; false; false; false; false; false; false;
       false; false; false; false; false; false; false; false; false].
Proof. split; vm_compute; reflexivity. Qed.

(* ===================================================================== *)
(** ** Morphology *)
(* ===================================================================== *)

Lemma kept_features_In (props : OD.t scalar) k v :
  In (k, v) (kept_features props) <-> In (k, v) props /\ Py.float_parses k = false.
Proof.
  unfold kept_features, _is_number. rewrite filter_In. simpl.
  rewrite negb_true_iff. reflexivity.
Qed.

(** The feature string of a tag that the table knows. *)
Lemma get_morphology_known self t tag props :
  _tagmap self = Some t -> t !! tag = Some props ->
  _get_morphology self tag =
    match kept_features props with
    | [] => "_"
    | kept => Py.join "|" (map feature_pair kept)
    end.
Proof.
  intros Ht Hl. unfold _get_morphology. rewrite Ht. simpl.
  destruct (Nat.eqb (size t) 0) eqn:E.
  - apply Nat.eqb_eq in E. rewrite (size_zero_lookup t tag E) in Hl. discriminate.
  - simpl. rewrite Hl. destruct (kept_features props); reflexivity.
Qed.

(** C3: for every tag, [_get_morphology] returns what the specification's
    [morphology(tag)] describes: the placeholder when the table is absent
    or does not have the tag, otherwise the non-numeric entries of the
    tag's feature mapping as [key=value] joined by [|], and the
    placeholder when no entry is left. *)
Theorem get_morphology_refines_spec (self : ConllFormatter) (tag : string) :
  _get_morphology self tag = morphology_spec (_tagmap self) tag.
Proof.
  unfold morphology_spec.
  destruct (_tagmap self) as [t|] eqn:Ht.
  - destruct (t !! tag) as [props|] eqn:Hl.
    + rewrite (get_morphology_known self t tag props Ht Hl).
      unfold kept_features, _is_number, feature_pair.
      destruct (List.filter _ props); reflexivity.
    + unfold _get_morphology. rewrite Ht. simpl.
      destruct (Nat.eqb (size t) 0); simpl; [reflexivity|].
      rewrite Hl. reflexivity.
  - unfold _get_morphology. rewrite Ht. reflexivity.
Qed.

(** C10: the numeric-key test is float parsing.  An entry of a feature
    mapping is kept exactly when [float] fails on its key; [1.5], [1e3],
    [inf] and [nan] are excluded like the digit keys, and a key on which
    [float] fails stays in the feature string. *)
Theorem numeric_key_is_float_parse :
  (forall s, _is_number s = Py.float_parses s) /\
  (forall (props : OD.t scalar) k v,
      In (k, v) (kept_features props) <->
      In (k, v) props /\ Py.float_parses k = false) /\
  map _is_number ["1.5"; "1e3"; "inf"; "nan"; "2"; "74"; " -1_0.5E+3 "]
    = [true; true; true; true; true; true; true] /\
  map _is_number ["Number"; "Case"; "1,5"; "0x10"; "1e"; "1__0"; ""]
    = [false; false; false; false; false; false; false] /\
  (forall self t tag,
      _tagmap self = Some t ->
      t !! tag = Some [("1.5", SStr "a"); ("Number", SStr "Sing"); ("1e3", SStr "b");
                       ("inf", SStr "c"); ("Case", SStr "Nom"); ("nan", SStr "d");
                       ("2", SStr "Noun")] ->
      _get_morphology self tag = "Number=Sing|Case=Nom").
Proof.
  split; [reflexivity|].
  split; [apply kept_features_In|].
  split; [vm_compute; reflexivity|].
  split; [vm_compute; reflexivity|].
  intros self t tag Ht Hl.
  rewrite (get_morphology_known self t tag _ Ht Hl). vm_compute. reflexivity.
Qed.

(* ===================================================================== *)
(** ** Ordered dictionaries and the rename map *)
(* ===================================================================== *)

Lemma od_mem_In {V} k (d : OD.t V) : OD.mem k d = true <-> In k (OD.keys d).
Proof.
  unfold OD.mem. induction d as [|[k' v] d IH]; simpl.
  - split; [discriminate | tauto].
  - destruct (String.eqb k' k) eqn:E.
    + apply String.eqb_eq in E. split; auto.
    + apply String.eqb_neq in E. rewrite IH. split; [auto | intros [?|?]; [contradiction | assumption]].
Qed.

Lemma od_set_keys {V} k (v : V) (d : OD.t V) :
  In k (OD.keys d) -> OD.keys (OD.set k v d) = OD.keys d.
Proof.
  induction d as [|[k' v'] d IH]; simpl; [tauto|].
  intros H. destruct (String.eqb k' k) eqn:E; simpl; [reflexivity|].
  apply String.eqb_neq in E. f_equal. apply IH.
  destruct H as [?|?]; [contradiction | assumption].
Qed.

Lemma od_get_set_eq {V} k (v : V) (d : OD.t V) :
  OD.get k (OD.set k v d) = Some v.
Proof.
  induction d as [|[k' v'] d IH]; simpl.
  - rewrite String.eqb_refl. reflexivity.
  - destruct (String.eqb k' k) eqn:E; simpl; rewrite E; auto.
Qed.

Lemma od_get_set_ne {V} k k2 (v : V) (d : OD.t V) :
  k <> k2 -> OD.get k2 (OD.set k v d) = OD.get k2 d.
Proof.
  intros Hne. induction d as [|[k' v'] d IH]; simpl.
  - apply String.eqb_neq in Hne. rewrite Hne. reflexivity.
  - destruct (String.eqb k' k) eqn:E; simpl.
    + apply String.eqb_eq in E; subst k'.
      apply String.eqb_neq in Hne. rewrite Hne. reflexivity.
    + destruct (String.eqb k' k2); auto.
Qed.

(** Merging keeps the keys of the base dictionary, and fails at the
    first key that is not among them. *)
Lemma merge_items_accepts d1 items :
  Forall (fun kv => In (fst kv) (OD.keys d1)) items ->
  exists d, merge_items d1 items = Ok d /\ OD.keys d = OD.keys d1.
Proof.
  revert d1; induction items as [|[k v] items IH]; intros d1 H; simpl.
  - eauto.
  - inversion H as [|? ? Hk Hrest]; subst. simpl in Hk.
    rewrite (proj2 (od_mem_In k d1) Hk). simpl.
    destruct (IH (OD.set k v d1)) as (d & Hd & Hkeys).
    + rewrite od_set_keys by assumption. assumption.
    + exists d. split; [assumption|]. rewrite Hkeys. apply od_set_keys; assumption.
Qed.

Lemma merge_items_rejects d1 items :
  Exists (fun kv => ~ In (fst kv) (OD.keys d1)) items ->
  merge_items d1 items = Raise (KeyError (key_error_message d1)).
Proof.
  revert d1; induction items as [|[k v] items IH]; intros d1 H; simpl.
  - inversion H.
  - destruct (OD.mem k d1) eqn:E; simpl; [|reflexivity].
    apply od_mem_In in E.
    inversion H as [? ? Hk|? ? Hrest]; subst; [simpl in Hk; contradiction|].
    rewrite IH.
    + unfold key_error_message. rewrite od_set_keys by assumption. reflexivity.
    + rewrite od_set_keys by assumption. assumption.
Qed.

Lemma merge_items_keys d1 items d :
  merge_items d1 items = Ok d -> OD.keys d = OD.keys d1.
Proof.
  revert d1; induction items as [|[k v] items IH]; intros d1 H; simpl in H.
  - injection H as <-. reflexivity.
  - destruct (OD.mem k d1) eqn:E; simpl in H; [|discriminate].
    apply od_mem_In in E. rewrite (IH _ H). apply od_set_keys. exact E.
Qed.

Lemma names_shape self :
  names_ok self ->
  _ext_names self =
    [("conll_str", name_of self "conll_str"); ("conll", name_of self "conll");
     ("conll_pd", name_of self "conll_pd")].
Proof.
  unfold names_ok, name_of, OD.keys, VALID_KEYS.
  destruct (_ext_names self) as [|[k1 v1] [|[k2 v2] [|[k3 v3] [|? ?]]]]; simpl;
    intros H; try discriminate.
  injection H as -> -> ->. reflexivity.
Qed.

Lemma ext_name_ok self key :
  names_ok self -> In key VALID_KEYS -> ext_name self key = Ok (name_of self key).
Proof.
  intros Hn Hk. unfold ext_name, OD.getitem, name_of.
  rewrite (names_shape self Hn).
  destruct Hk as [<-|[<-|[<-|[]]]]; reflexivity.
Qed.

(** *** Registration *)

Lemma ensure_extension_ok exts name :
  ensure_extension exts name =
    Ok (if Underscore.has_extension exts name then exts else {[ name ]} ∪ exts).
Proof.
  unfold ensure_extension, Underscore.set_extension.
  destruct (Underscore.has_extension exts name); reflexivity.
Qed.

Lemma ensure_extension_spec exts name :
  exists exts', ensure_extension exts name = Ok exts' /\ name ∈ exts' /\ exts ⊆ exts'.
Proof.
  rewrite ensure_extension_ok. eexists; split; [reflexivity|].
  unfold Underscore.has_extension. case_bool_decide; set_solver.
Qed.

Lemma set_extensions_of_ok PD self exts :
  names_ok self ->
  exists exts', set_extensions_of PD self exts = Ok exts' /\
                registered_on PD self exts' /\ exts ⊆ exts'.
Proof.
  intros Hn. unfold set_extensions_of, registered_on.
  change (OD.getitem ?k (_ext_names self)) with (ext_name self k).
  rewrite !ext_name_ok by (assumption || (unfold VALID_KEYS; simpl; tauto)).
  simpl.
  destruct (ensure_extension_spec exts (name_of self "conll_str")) as (e1 & -> & H1 & S1).
  simpl.
  destruct (ensure_extension_spec e1 (name_of self "conll")) as (e2 & -> & H2 & S2).
  simpl.
  destruct (pandas_on PD self).
  - destruct (ensure_extension_spec e2 (name_of self "conll_pd")) as (e3 & -> & H3 & S3).
    exists e3. split; [reflexivity|]. set_solver.
  - exists e2. split; [reflexivity|]. split; [|set_solver].
    split; [set_solver|]. split; [set_solver | discriminate].
Qed.

(** [_set_extensions] always returns, with the formatter's attributes
    registered on the three classes. *)
Lemma set_extensions_ok PD self reg :
  names_ok self ->
  exists reg', _set_extensions PD self reg = Ok reg' /\ registered PD self reg'.
Proof.
  intros Hn. unfold _set_extensions, registered.
  destruct (set_extensions_of_ok PD self (doc_extensions reg) Hn) as (d & -> & Hd & _).
  destruct (set_extensions_of_ok PD self (span_extensions reg) Hn) as (s & -> & Hs & _).
  destruct (set_extensions_of_ok PD self (token_extensions reg) Hn) as (t & -> & Ht & _).
  simpl. eexists; split; [reflexivity|]. simpl. auto.
Qed.

(* ===================================================================== *)
(** ** Construction *)
(* ===================================================================== *)

(** Every formatter that [__init__] returns has the three keys in its
    name table, its attributes registered, and the options it was given. *)
Lemma init_ok_inv PD nlp cm names hdr dis reg self reg' :
  __init__ PD nlp cm names hdr dis reg = Ok (self, reg') ->
  names_ok self /\ registered PD self reg' /\
  _tagmap self = tag_map nlp /\ _conversion_maps self = cm /\
  include_headers self = hdr /\ disable_pandas self = dis.
Proof.
  unfold __init__. intros H.
  apply bind_ok in H as (d & Hd & H).
  apply bind_ok in H as (r & Hr & H).
  injection H as <- <-.
  assert (Hk : OD.keys d = VALID_KEYS).
  { destruct (truthy_dict names).
    - apply merge_items_keys in Hd. exact Hd.
    - injection Hd as <-. reflexivity. }
  split; [exact Hk|].
  match type of Hr with _set_extensions _ ?s _ = _ =>
    destruct (set_extensions_ok PD s reg Hk) as (r' & Hr' & Hreg) end.
  rewrite Hr' in Hr. injection Hr as <-.
  split; [exact Hreg|]. simpl. auto.
Qed.

(** C4: a rename map with a key outside [conll_str], [conll], [conll_pd]
    makes the constructor raise a [KeyError] whose message lists the
    valid keys; no formatter is returned, so no document can be given to
    one.  A rename map with recognized keys only is accepted. *)
Theorem init_checks_rename_keys PD nlp cm (names : OD.t string) hdr dis reg :
  (Exists (fun kv => ~ In (fst kv) VALID_KEYS) names ->
   __init__ PD nlp cm (Some names) hdr dis reg = Raise (KeyError KEY_ERROR_TEXT)) /\
  (Forall (fun kv => In (fst kv) VALID_KEYS) names ->
   exists self reg',
     __init__ PD nlp cm (Some names) hdr dis reg = Ok (self, reg') /\
     OD.keys (_ext_names self) = VALID_KEYS).
Proof.
  split.
  - intros He. unfold __init__.
    destruct names as [|kv names]; [inversion He|]. simpl truthy_dict. cbv iota.
    unfold _merge_dicts_strict. simpl default.
    rewrite merge_items_rejects by exact He. reflexivity.
  - intros Hall. unfold __init__.
    destruct (merge_items_accepts
                [("conll_str", "conll_str"); ("conll", "conll"); ("conll_pd", "conll_pd")]
                names Hall) as (d & Hd & Hkeys).
    assert (Hm : (if truthy_dict (Some names)
                  then _merge_dicts_strict
                         [("conll_str", "conll_str"); ("conll", "conll"); ("conll_pd", "conll_pd")]
                         (default [] (Some names))
                  else Ok [("conll_str", "conll_str"); ("conll", "conll"); ("conll_pd", "conll_pd")])
                 = Ok d).
    { destruct names; simpl in *; [injection Hd as <-; reflexivity | exact Hd]. }
    rewrite Hm. simpl bind.
    set (self := {| _tagmap := tag_map nlp; _ext_names := d; _conversion_maps := cm;
                    include_headers := hdr; disable_pandas := dis |}).
    destruct (set_extensions_ok PD self reg) as (reg' & Hr & _).
    { destruct names; simpl in Hd; [injection Hd as <-; reflexivity|exact Hkeys]. }
    rewrite Hr. simpl. exists self, reg'. split; [reflexivity|].
    destruct names; simpl in Hd; [injection Hd as <-; reflexivity|exact Hkeys].
Qed.

Lemma init_checks_rename_keys_witness :
  __init__ true sample_nlp None (Some [("bogus", "x")]) false false empty_registry
    = Raise (KeyError KEY_ERROR_TEXT) /\
  exists self reg',
    __init__ true sample_nlp None (Some [("conll", "conll_dict")]) false false
             empty_registry = Ok (self, reg') /\
    OD.keys (_ext_names self) = VALID_KEYS.
Proof.
  split.
  - apply (proj1 (init_checks_rename_keys true sample_nlp None [("bogus", "x")]
                                           false false empty_registry)).
    apply Exists_cons_hd. simpl. intros [H|[H|[H|[]]]]; discriminate.
  - apply (proj2 (init_checks_rename_keys true sample_nlp None [("conll", "conll_dict")]
                                           false false empty_registry)).
    constructor; [simpl; auto | constructor].
Defined.

(* ===================================================================== *)
(** ** The token record *)
(* ===================================================================== *)

Lemma od_set_middle {V} (pre post : OD.t V) k (v v' : V) :
  ~ In k (OD.keys pre) ->
  OD.set k v' (pre ++ (k, v) :: post) = pre ++ (k, v') :: post.
Proof.
  induction pre as [|[k0 v0] pre IH]; simpl; intros Hn.
  - rewrite String.eqb_refl. reflexivity.
  - destruct (String.eqb k0 k) eqn:E.
    + apply String.eqb_eq in E. tauto.
    + f_equal. apply IH. tauto.
Qed.

Lemma od_get_In {V} (d : OD.t V) k (v : V) :
  NoDup (OD.keys d) -> In (k, v) d -> OD.get k d = Some v.
Proof.
  induction d as [|[k0 v0] d IH]; simpl; intros Hnd Hin; [tauto|].
  apply NoDup_cons in Hnd as [Hk0 Hnd].
  destruct Hin as [Heq|Hin].
  - injection Heq as -> ->. rewrite String.eqb_refl. reflexivity.
  - destruct (String.eqb k0 k) eqn:E.
    + apply String.eqb_eq in E; subst k0. exfalso. apply Hk0.
      apply list_elem_of_In. unfold OD.keys. apply in_map_iff. exists (k, v). auto.
    + apply IH; assumption.
Qed.

(** The loop of [_map_conll] converts the values in place, one item
    after the other. *)
Lemma convert_items_pointwise maps (pre items : OD.t scalar) :
  NoDup (OD.keys (pre ++ items)) ->
  fold_left (convert_item maps) items (pre ++ items) =
    pre ++ map (fun kv => (fst kv, converted maps (fst kv) (snd kv))) items.
Proof.
  revert pre; induction items as [|[k v] items IH]; intros pre Hnd; simpl.
  - reflexivity.
  - assert (Hpre : ~ In k (OD.keys pre)).
    { unfold OD.keys in Hnd. rewrite map_app in Hnd. simpl in Hnd.
      apply NoDup_app in Hnd as (_ & Hd & _).
      intros Hin. apply (Hd k); [apply list_elem_of_In; exact Hin | set_solver]. }
    assert (Hstep : convert_item maps (pre ++ (k, v) :: items) (k, v)
                    = (pre ++ [(k, converted maps k v)]) ++ items).
    { unfold convert_item, converted. simpl. rewrite <- app_assoc. simpl.
      destruct (maps !! k) as [m|]; [|reflexivity].
      destruct (m !! v) as [v'|]; simpl; [|reflexivity].
      apply od_set_middle. exact Hpre. }
    rewrite Hstep, IH.
    + rewrite <- app_assoc. reflexivity.
    + rewrite <- app_assoc. simpl. unfold OD.keys in *.
      rewrite map_app in *. simpl in *. exact Hnd.
Qed.

Lemma map_conll_pointwise self maps (d : OD.t scalar) :
  _conversion_maps self = Some maps -> NoDup (OD.keys d) ->
  _map_conll self d =
    Ok (map (fun kv => (fst kv, converted maps (fst kv) (snd kv))) d).
Proof.
  intros Hm Hnd. unfold _map_conll. rewrite Hm. f_equal.
  apply (convert_items_pointwise maps [] d). exact Hnd.
Qed.

Lemma head_idx_ok sent token :
  In token (Span.tokens sent) ->
  exists first,
    hd_error (Span.tokens sent) = Some first /\
    head_idx sent token =
      Ok (if is_root token then 0 else Token.head_i token + 1 - Token.i first)%Z.
Proof.
  intros Hin. unfold head_idx, is_root.
  destruct (Span.tokens sent) as [|first rest]; [destruct Hin|].
  exists first. split; [reflexivity|].
  destruct (String.eqb _ "root"); reflexivity.
Qed.

Lemma raw_record_keys self token idx h :
  OD.keys (raw_record self token idx h) = CONLL_FIELD_NAMES.
Proof. reflexivity. Qed.

Lemma field_names_NoDup : NoDup CONLL_FIELD_NAMES.
Proof. apply (bool_decide_unpack _). vm_compute. exact I. Qed.

Lemma token_conll_ok self sent token idx :
  In token (Span.tokens sent) ->
  exists first h,
    hd_error (Span.tokens sent) = Some first /\
    h = (if is_root token then 0 else Token.head_i token + 1 - Token.i first)%Z /\
    head_idx sent token = Ok h /\
    token_conll self sent token idx = Ok (OD.values (raw_record self token idx h)) /\
    OD.of_pairs (zip CONLL_FIELD_NAMES (OD.values (raw_record self token idx h)))
      = raw_record self token idx h.
Proof.
  intros Hin. destruct (head_idx_ok sent token Hin) as (first & Hf & Hh).
  exists first. eexists. split; [exact Hf|]. split; [reflexivity|].
  split; [exact Hh|]. split; [|reflexivity].
  unfold token_conll. rewrite Hh. reflexivity.
Qed.

(** The record of a token: the raw record, converted when conversion
    maps are configured. *)
Lemma token_conll_d_ok self sent token idx :
  In token (Span.tokens sent) ->
  exists first h,
    hd_error (Span.tokens sent) = Some first /\
    h = (if is_root token then 0 else Token.head_i token + 1 - Token.i first)%Z /\
    token_conll_d self sent token idx =
      Ok (match _conversion_maps self with
          | Some maps =>
              if truthy_map (Some maps)
              then map (fun kv => (fst kv, converted maps (fst kv) (snd kv)))
                       (raw_record self token idx h)
              else raw_record self token idx h
          | None => raw_record self token idx h
          end).
Proof.
  intros Hin.
  destruct (token_conll_ok self sent token idx Hin) as (first & h & Hf & Hh & _ & Ht & Hz).
  exists first, h. split; [exact Hf|]. split; [exact Hh|].
  unfold token_conll_d. rewrite Ht. cbv beta iota delta [bind]. rewrite Hz.
  destruct (_conversion_maps self) as [maps|] eqn:Hm; [|reflexivity].
  destruct (truthy_map (Some maps)); [|reflexivity].
  apply map_conll_pointwise; [exact Hm|].
  rewrite raw_record_keys. apply field_names_NoDup.
Qed.

(** C8: the record of every token has exactly the ten keys [id], [form],
    [lemma], [upostag], [xpostag], [feats], [head], [deprel], [deps],
    [misc], in this order whatever the token, and each key carries an
    integer or a string, never [None]. *)
Theorem token_record_has_ten_fields self sent token idx :
  In token (Span.tokens sent) ->
  exists d,
    token_conll_d self sent token idx = Ok d /\
    OD.keys d = CONLL_FIELD_NAMES /\
    length d = 10%nat /\
    forall k, In k CONLL_FIELD_NAMES ->
              exists v : scalar, OD.get k d = Some v /\ In (k, v) d.
Proof.
  intros Hin.
  destruct (token_conll_d_ok self sent token idx Hin) as (first & h & _ & _ & Hd).
  eexists. split; [exact Hd|].
  set (raw := raw_record self token idx h).
  assert (Hshape : forall f : string -> scalar -> scalar,
             let d := map (fun kv => (fst kv, f (fst kv) (snd kv))) raw in
             OD.keys d = CONLL_FIELD_NAMES /\ length d = 10%nat /\
             forall k, In k CONLL_FIELD_NAMES ->
                       exists v : scalar, OD.get k d = Some v /\ In (k, v) d).
  { intros f d. split; [reflexivity|]. split; [reflexivity|].
    intros k Hk. unfold CONLL_FIELD_NAMES in Hk. simpl in Hk.
    repeat (destruct Hk as [<-|Hk];
            [eexists; split; [reflexivity | simpl; tauto] |]).
    destruct Hk. }
  assert (Hid : map (fun kv : string * scalar => (fst kv, snd kv)) raw = raw) by reflexivity.
  destruct (_conversion_maps self) as [maps|].
  - destruct (truthy_map (Some maps)).
    + apply (Hshape (converted maps)).
    + rewrite <- Hid. apply (Hshape (fun _ v => v)).
  - rewrite <- Hid. apply (Hshape (fun _ v => v)).
Qed.

Lemma token_record_has_ten_fields_witness :
  In tok_dogs (Span.tokens sent_dogs) /\
  exists d,
    token_conll_d (formatter_with default_names None false false)
                  sent_dogs tok_dogs 1 = Ok d /\
    OD.keys d = CONLL_FIELD_NAMES /\
    length d = 10%nat /\
    forall k, In k CONLL_FIELD_NAMES ->
              exists v : scalar, OD.get k d = Some v /\ In (k, v) d.
Proof.
  split; [simpl; auto|].
  apply (token_record_has_ten_fields
           (formatter_with default_names None false false) sent_dogs tok_dogs 1).
  simpl. auto.
Defined.

(** C6: with conversion maps configured, each of the ten fields of a
    token's record holds the mapped value when there is a map for the
    field and the raw value is one of its keys, and the raw value in
    every other case; the conversion never raises. *)
Theorem conversion_replaces_or_passes self maps sent token idx :
  _conversion_maps self = Some maps ->
  truthy_map (Some maps) = true ->
  In token (Span.tokens sent) ->
  exists raw d,
    token_conll self sent token idx = Ok raw /\
    length raw = 10%nat /\
    token_conll_d self sent token idx = Ok d /\
    _map_conll self (zip CONLL_FIELD_NAMES raw) = Ok d /\
    OD.keys d = CONLL_FIELD_NAMES /\
    forall k v, In (k, v) (zip CONLL_FIELD_NAMES raw) ->
      (forall m v', maps !! k = Some m -> m !! v = Some v' -> OD.get k d = Some v') /\
      (forall m, maps !! k = Some m -> m !! v = None -> OD.get k d = Some v) /\
      (maps !! k = None -> OD.get k d = Some v).
Proof.
  intros Hm Htr Hin.
  destruct (token_conll_ok self sent token idx Hin) as (first & h & Hf & Hh & _ & Ht & Hz).
  destruct (token_conll_d_ok self sent token idx Hin) as (first' & h' & Hf' & Hh' & Hd).
  rewrite Hm, Htr in Hd.
  assert (Hraw : zip CONLL_FIELD_NAMES (OD.values (raw_record self token idx h))
                 = raw_record self token idx h) by reflexivity.
  assert (first' = first) by congruence. subst first'.
  assert (Hhh : h' = h) by congruence. rewrite Hhh in Hd.
  eexists. eexists. split; [exact Ht|]. split; [reflexivity|]. split; [exact Hd|].
  rewrite Hraw.
  split.
  { apply map_conll_pointwise; [exact Hm|].
    rewrite raw_record_keys. apply field_names_NoDup. }
  split; [reflexivity|].
  intros k v Hkv.
  assert (Hget : OD.get k (map (fun kv => (fst kv, converted maps (fst kv) (snd kv)))
                               (raw_record self token idx h))
                 = Some (converted maps k v)).
  { apply od_get_In.
    - change (NoDup CONLL_FIELD_NAMES). apply field_names_NoDup.
    - apply in_map_iff. exists (k, v). split; [reflexivity | exact Hkv]. }
  rewrite Hget. unfold converted.
  split; [|split].
  - intros m v' -> ->. reflexivity.
  - intros m -> ->. reflexivity.
  - intros ->. reflexivity.
Qed.

Lemma conversion_replaces_or_passes_witness :
  _conversion_maps (formatter_with default_names (Some sample_maps) false false)
    = Some sample_maps /\
  truthy_map (Some sample_maps) = true /\
  In tok_dogs (Span.tokens sent_dogs) /\
  exists raw d,
    token_conll (formatter_with default_names (Some sample_maps) false false)
                sent_dogs tok_dogs 1 = Ok raw /\
    length raw = 10%nat /\
    token_conll_d (formatter_with default_names (Some sample_maps) false false)
                  sent_dogs tok_dogs 1 = Ok d /\
    _map_conll (formatter_with default_names (Some sample_maps) false false)
               (zip CONLL_FIELD_NAMES raw) = Ok d /\
    OD.keys d = CONLL_FIELD_NAMES /\
    forall k v, In (k, v) (zip CONLL_FIELD_NAMES raw) ->
      (forall m v', sample_maps !! k = Some m -> m !! v = Some v' ->
                    OD.get k d = Some v') /\
      (forall m, sample_maps !! k = Some m -> m !! v = None -> OD.get k d = Some v) /\
      (sample_maps !! k = None -> OD.get k d = Some v).
Proof.
  split; [reflexivity|]. split; [vm_compute; reflexivity|]. split; [simpl; auto|].
  apply (conversion_replaces_or_passes
           (formatter_with default_names (Some sample_maps) false false)
           sample_maps sent_dogs tok_dogs 1).
  - reflexivity.
  - vm_compute; reflexivity.
  - simpl; auto.
Defined.

(** The specification's example: [NOUN] becomes [N], [VERB] stays. *)
Example conversion_example :
  (let! d := token_conll_d (formatter_with default_names (Some sample_maps) false false)
                           sent_dogs tok_dogs 1 in Ok (OD.get "upostag" d))
    = Ok (Some (SStr "N")) /\
  (let! d := token_conll_d (formatter_with default_names (Some sample_maps) false false)
                           sent_dogs tok_bark 2 in Ok (OD.get "upostag" d))
    = Ok (Some (SStr "VERB")).
Proof. split; vm_compute; reflexivity. Qed.

(* ===================================================================== *)
(** ** The head column *)
(* ===================================================================== *)

Lemma is_root_spec token :
  is_root token = true <-> Py.strip (Py.lower (Token.dep_ token)) = "root".
Proof. unfold is_root. apply String.eqb_eq. Qed.

Lemma head_within_sentence sent token first :
  contiguous sent -> head_in sent token ->
  hd_error (Span.tokens sent) = Some first ->
  (1 <= Token.head_i token + 1 - Token.i first
     <= Z.of_nat (length (Span.tokens sent)))%Z.
Proof.
  intros Hc (h & Hin & Hi) Hf.
  apply In_nth_error in Hin as (k & Hk).
  assert (Hlt : (k < length (Span.tokens sent))%nat).
  { apply nth_error_Some. rewrite Hk. discriminate. }
  rewrite <- Hi, (Hc first k h Hf Hk). lia.
Qed.

(** C1: the head column of every token of a sentence is 0 when the
    dependency label, lowercased and stripped, is [root]; otherwise it is
    1 + (position of the head - position of the sentence's first token),
    and when the head is a token of the same sentence this lies between 1
    and the number of tokens of the sentence.  The record carries this
    value in its [head] field unless a conversion map replaces it. *)
Theorem head_field_derivation self sent token idx :
  In token (Span.tokens sent) ->
  exists first tup h,
    hd_error (Span.tokens sent) = Some first /\
    token_conll self sent token idx = Ok tup /\
    OD.get "head" (zip CONLL_FIELD_NAMES tup) = Some (SInt h) /\
    (Py.strip (Py.lower (Token.dep_ token)) = "root" -> h = 0%Z) /\
    (Py.strip (Py.lower (Token.dep_ token)) <> "root" ->
     h = (1 + (Token.head_i token - Token.i first))%Z /\
     (contiguous sent -> head_in sent token ->
      (1 <= h <= Z.of_nat (length (Span.tokens sent)))%Z)) /\
    ((forall maps, _conversion_maps self = Some maps ->
                   converted maps "head" (SInt h) = SInt h) ->
     exists d, token_conll_d self sent token idx = Ok d /\
               OD.get "head" d = Some (SInt h)).
Proof.
  intros Hin.
  destruct (token_conll_ok self sent token idx Hin) as (first & h & Hf & Hh & _ & Ht & _).
  destruct (token_conll_d_ok self sent token idx Hin) as (first' & h' & Hf' & Hh' & Hd).
  assert (first' = first) by congruence. subst first'.
  assert (Hhh : h' = h) by congruence. rewrite Hhh in Hd. clear Hhh Hh' Hf'.
  exists first, (OD.values (raw_record self token idx h)), h.
  split; [exact Hf|]. split; [exact Ht|]. split; [reflexivity|].
  split; [|split].
  - intros Hroot. apply is_root_spec in Hroot. rewrite Hroot in Hh. exact Hh.
  - intros Hroot.
    assert (Hr : is_root token = false).
    { destruct (is_root token) eqn:E; [|reflexivity].
      apply is_root_spec in E. contradiction. }
    rewrite Hr in Hh. split; [lia|].
    intros Hc Hhead. pose proof (head_within_sentence sent token first Hc Hhead Hf). lia.
  - intros Hconv. eexists. split; [exact Hd|].
    destruct (_conversion_maps self) as [maps|]; [|reflexivity].
    destruct (truthy_map (Some maps)); [|reflexivity].
    simpl. rewrite (Hconv maps eq_refl). reflexivity.
Qed.

Lemma sent_dogs_contiguous : contiguous sent_dogs.
Proof.
  intros first k t Hf Hk. simpl in Hf. injection Hf as <-.
  destruct k as [|[|[|k]]]; simpl in Hk; try (injection Hk as <-; reflexivity).
  destruct k; discriminate.
Defined.

Lemma head_field_derivation_witness :
  In tok_dogs (Span.tokens sent_dogs) /\
  contiguous sent_dogs /\
  head_in sent_dogs tok_dogs /\
  exists first tup h,
    hd_error (Span.tokens sent_dogs) = Some first /\
    token_conll (formatter_with default_names None false false)
                sent_dogs tok_dogs 1 = Ok tup /\
    OD.get "head" (zip CONLL_FIELD_NAMES tup) = Some (SInt h) /\
    (Py.strip (Py.lower (Token.dep_ tok_dogs)) = "root" -> h = 0%Z) /\
    (Py.strip (Py.lower (Token.dep_ tok_dogs)) <> "root" ->
     h = (1 + (Token.head_i tok_dogs - Token.i first))%Z /\
     (contiguous sent_dogs -> head_in sent_dogs tok_dogs ->
      (1 <= h <= Z.of_nat (length (Span.tokens sent_dogs)))%Z)) /\
    ((forall maps,
         _conversion_maps (formatter_with default_names None false false) = Some maps ->
         converted maps "head" (SInt h) = SInt h) ->
     exists d, token_conll_d (formatter_with default_names None false false)
                             sent_dogs tok_dogs 1 = Ok d /\
               OD.get "head" d = Some (SInt h)).
Proof.
  split; [simpl; auto|].
  split; [exact sent_dogs_contiguous|].
  split; [exists tok_bark; split; [simpl; auto | reflexivity]|].
  apply (head_field_derivation (formatter_with default_names None false false)
                               sent_dogs tok_dogs 1).
  simpl; auto.
Defined.

(** The sample sentences: a non-root token, a root and a label that
    needs lowercasing and stripping. *)
Example head_examples :
  head_idx sent_dogs tok_dogs = Ok 2%Z /\
  head_idx sent_dogs tok_bark = Ok 0%Z /\
  head_idx sent_dogs tok_dot = Ok 2%Z /\
  head_idx sent_run tok_run = Ok 0%Z.
Proof. repeat split; vm_compute; reflexivity. Qed.

(* ===================================================================== *)
(** ** Strings: joining and splitting *)
(* ===================================================================== *)

Lemma str_app_cons x (a b : string) : (String x a ++ b)%string = String x (a ++ b).
Proof. reflexivity. Qed.

Lemma str_app_nil_l (b : string) : ("" ++ b)%string = b.
Proof. reflexivity. Qed.

Lemma str_app_assoc (a b c : string) : ((a ++ b) ++ c = a ++ (b ++ c))%string.
Proof.
  induction a as [|x a IH]; [reflexivity|].
  rewrite !str_app_cons. f_equal. exact IH.
Qed.

Lemma str_app_nil_r (a : string) : (a ++ "")%string = a.
Proof.
  induction a as [|x a IH]; [reflexivity|].
  rewrite str_app_cons. f_equal. exact IH.
Qed.

Lemma split_length_pos sep s : (0 < length (Py.split sep s))%nat.
Proof.
  induction s as [|c r IH]; simpl; [lia|].
  destruct (Ascii.eqb c sep); simpl; [lia|].
  destruct (Py.split sep r); simpl in *; lia.
Qed.

(** A string without the separator is one field. *)
Lemma split_no_sep sep s : Py.contains sep s = false -> Py.split sep s = [s].
Proof.
  induction s as [|c r IH]; simpl; [reflexivity|].
  intros H. apply orb_false_iff in H as [Hc Hr].
  rewrite Hc, (IH Hr). reflexivity.
Qed.

Lemma split_app_sep sep f rest :
  Py.contains sep f = false ->
  Py.split sep (f ++ String sep rest) = f :: Py.split sep rest.
Proof.
  induction f as [|c r IH].
  - intros _. rewrite str_app_nil_l. simpl. rewrite Ascii.eqb_refl. reflexivity.
  - intros H. simpl in H. apply orb_false_iff in H as [Hc Hr].
    rewrite str_app_cons. simpl. rewrite Hc, (IH Hr). reflexivity.
Qed.

Lemma join_cons2 sep f g (fields : list string) :
  Py.join sep (f :: g :: fields) = (f ++ sep ++ Py.join sep (g :: fields))%string.
Proof. reflexivity. Qed.

(** Splitting undoes joining when no field contains the separator. *)
Lemma split_join sep (fields : list string) :
  fields <> [] ->
  Forall (fun f => Py.contains sep f = false) fields ->
  Py.split sep (Py.join (String sep EmptyString) fields) = fields.
Proof.
  induction fields as [|f fields IH]; [congruence|].
  intros _ Hall. apply Forall_cons in Hall as [Hf Hrest].
  destruct fields as [|g fields].
  - simpl. apply split_no_sep. exact Hf.
  - rewrite join_cons2, str_app_cons, str_app_nil_l.
    rewrite split_app_sep by exact Hf.
    rewrite IH; [reflexivity | congruence | exact Hrest].
Qed.

(** Text after the last separator does not change the number of fields. *)
Lemma split_app_length sep s y :
  Py.contains sep y = false ->
  length (Py.split sep (s ++ y)) = length (Py.split sep s).
Proof.
  intros Hy. induction s as [|c r IH].
  - rewrite str_app_nil_l, (split_no_sep sep y Hy). reflexivity.
  - rewrite str_app_cons. simpl.
    destruct (Ascii.eqb c sep); simpl; [rewrite IH; reflexivity|].
    pose proof (split_length_pos sep (r ++ y)).
    pose proof (split_length_pos sep r).
    destruct (Py.split sep (r ++ y)), (Py.split sep r); simpl in *; lia.
Qed.

(** A field with the separator in it makes one field more. *)
Lemma split_app_sep_length sep f rest :
  (S (length (Py.split sep rest)) <= length (Py.split sep (f ++ String sep rest)))%nat.
Proof.
  induction f as [|c r IH].
  - rewrite str_app_nil_l. simpl. rewrite Ascii.eqb_refl. simpl. lia.
  - rewrite str_app_cons. simpl.
    destruct (Ascii.eqb c sep); simpl; [lia|].
    destruct (Py.split sep (r ++ String sep rest)); simpl in *; lia.
Qed.

Lemma split_length_join sep (fields : list string) :
  fields <> [] ->
  (length fields <= length (Py.split sep (Py.join (String sep EmptyString) fields)))%nat.
Proof.
  induction fields as [|f fields IH]; [congruence|]. intros _.
  destruct fields as [|g fields].
  - simpl. pose proof (split_length_pos sep f). lia.
  - rewrite join_cons2, str_app_cons, str_app_nil_l.
    assert (Hg : g :: fields <> []) by congruence. specialize (IH Hg).
    pose proof (split_app_sep_length sep f (Py.join (String sep EmptyString) (g :: fields))).
    simpl length in *. lia.
Qed.

(* ===================================================================== *)
(** ** The token line *)
(* ===================================================================== *)

Lemma token_conll_d_keys self sent token idx :
  In token (Span.tokens sent) ->
  exists d, token_conll_d self sent token idx = Ok d /\
            OD.keys d = CONLL_FIELD_NAMES.
Proof.
  intros Hin.
  destruct (token_conll_d_ok self sent token idx Hin) as (first & h & _ & _ & Hd).
  eexists. split; [exact Hd|].
  destruct (_conversion_maps self) as [maps|]; [|reflexivity].
  destruct (truthy_map (Some maps)); reflexivity.
Qed.

Lemma token_line_ends_with_newline d :
  token_conll_str d = (Py.join TAB (map str (OD.values d)) ++ NL)%string.
Proof. reflexivity. Qed.

(** C5, as amended: for a token none of whose record values has a tab in
    its string form, the token's line is ten tab-separated fields and a
    final newline; split on tabs, the text before the newline gives
    exactly the string forms of the record's values in the order [id],
    [form], [lemma], [upostag], [xpostag], [feats], [head], [deprel],
    [deps], [misc]. *)
Theorem token_line_round_trip self sent token idx :
  In token (Span.tokens sent) ->
  exists d,
    token_conll_d self sent token idx = Ok d /\
    OD.keys d = CONLL_FIELD_NAMES /\
    (Forall (fun v => Py.contains "009" (str v) = false) (OD.values d) ->
     exists body,
       token_conll_str d = (body ++ NL)%string /\
       Py.split "009" body = map str (OD.values d) /\
       length (Py.split "009" body) = 10%nat /\
       length (Py.split "009" (token_conll_str d)) = 10%nat).
Proof.
  intros Hin.
  destruct (token_conll_d_keys self sent token idx Hin) as (d & Hd & Hk).
  exists d. split; [exact Hd|]. split; [exact Hk|].
  intros Hnt.
  assert (Hlen : length (map str (OD.values d)) = 10%nat).
  { unfold OD.values. rewrite !length_map. rewrite <- (length_map fst d).
    change (map fst d) with (OD.keys d). rewrite Hk. reflexivity. }
  assert (Hsplit : Py.split "009" (Py.join TAB (map str (OD.values d)))
                   = map str (OD.values d)).
  { apply split_join.
    - intros E. rewrite E in Hlen. discriminate.
    - apply Forall_map. exact Hnt. }
  exists (Py.join TAB (map str (OD.values d))).
  split; [reflexivity|]. split; [exact Hsplit|].
  split; [rewrite Hsplit; exact Hlen|].
  rewrite token_line_ends_with_newline, split_app_length by reflexivity.
  rewrite Hsplit. exact Hlen.
Qed.

Lemma token_line_round_trip_witness :
  In tok_dogs (Span.tokens sent_dogs) /\
  exists d,
    token_conll_d (formatter_with default_names None false false)
                  sent_dogs tok_dogs 1 = Ok d /\
    Forall (fun v => Py.contains "009" (str v) = false) (OD.values d) /\
    Py.split "009" (Py.join TAB (map str (OD.values d)))
      = ["1"; "Dogs"; "dogs"; "NOUN"; "NN"; "Number=Sing"; "2"; "nsubj"; "_"; "_"] /\
    exists body,
      token_conll_str d = (body ++ NL)%string /\
      Py.split "009" body = map str (OD.values d) /\
      length (Py.split "009" body) = 10%nat /\
      length (Py.split "009" (token_conll_str d)) = 10%nat.
Proof.
  split; [simpl; auto|].
  destruct (token_line_round_trip (formatter_with default_names None false false)
                                  sent_dogs tok_dogs 1) as (d & Hd & Hk & H);
    [simpl; auto|].
  exists d. split; [exact Hd|].
  vm_compute in Hd. injection Hd as Hd. rewrite <- Hd in H |- *.
  assert (Hnt : Forall (fun v => Py.contains "009" (str v) = false)
                       (OD.values
                          [("id", SInt 1); ("form", SStr "Dogs"); ("lemma", SStr "dogs");
                           ("upostag", SStr "NOUN"); ("xpostag", SStr "NN");
                           ("feats", SStr "Number=Sing"); ("head", SInt 2);
                           ("deprel", SStr "nsubj"); ("deps", SStr "_");
                           ("misc", SStr "_")])).
  { repeat constructor. }
  split; [exact Hnt|]. split; [vm_compute; reflexivity|]. exact (H Hnt).
Defined.

(** C5 as stated fails on a token whose text is a tab character: its
    line has twelve tab-separated fields, not ten. *)
Lemma tab_token_breaks_round_trip :
  exists d,
    token_conll_d (formatter_with default_names None false false)
                  sent_tab tok_tab 1 = Ok d /\
    OD.get "form" d = Some (SStr TAB) /\
    length (Py.split "009" (token_conll_str d)) = 12%nat /\
    length (Py.split "009" (Py.join TAB (map str (OD.values d)))) = 12%nat /\
    Py.split "009" (Py.join TAB (map str (OD.values d))) <> map str (OD.values d).
Proof.
  eexists. split; [vm_compute; reflexivity|].
  split; [reflexivity|]. split; [vm_compute; reflexivity|].
  split; [vm_compute; reflexivity|]. vm_compute. discriminate.
Qed.

(* ===================================================================== *)
(** ** Extension attributes after the token pass *)
(* ===================================================================== *)

Lemma underscore_set_ok exts u name v :
  name ∈ exts -> Underscore.set exts u name v = Ok (<[ name := v ]> u).
Proof.
  intros H. unfold Underscore.set, Underscore.has_extension.
  rewrite bool_decide_eq_true_2 by exact H. reflexivity.
Qed.

Lemma underscore_get_ok exts u name :
  name ∈ exts -> Underscore.get exts u name = Ok (default VNone (u !! name)).
Proof.
  intros H. unfold Underscore.get, Underscore.has_extension.
  rewrite bool_decide_eq_true_2 by exact H. reflexivity.
Qed.

Lemma valid_conll : In "conll" VALID_KEYS.
Proof. unfold VALID_KEYS; simpl; auto. Qed.
Lemma valid_conll_str : In "conll_str" VALID_KEYS.
Proof. unfold VALID_KEYS; simpl; auto. Qed.
Lemma valid_conll_pd : In "conll_pd" VALID_KEYS.
Proof. unfold VALID_KEYS; simpl; auto. Qed.

Lemma enumerate_In {A} (xs : list A) start k x :
  In (k, x) (enumerate xs start) -> In x xs.
Proof.
  revert start; induction xs as [|y xs IH]; simpl; intros start H; [exact H|].
  destruct H as [H|H]; [injection H as _ ->; auto | eauto].
Qed.

Lemma enumerate_length {A} (xs : list A) start :
  length (enumerate xs start) = length xs.
Proof. revert start; induction xs; simpl; intros; [reflexivity | f_equal; auto]. Qed.

(** [_set_token_conll] on a token of the sentence returns, and leaves the
    record, the line and (with pandas) the series under the three names. *)
Lemma set_token_conll_ok PD self reg sent token idx :
  names_ok self -> registered PD self reg -> In token (Span.tokens sent) ->
  _set_token_conll PD self reg sent token idx
    = Ok (token_after PD self sent (idx, token)).
Proof.
  intros Hn (_ & _ & Hs & Hc & Hp) Hin.
  destruct (token_conll_d_keys self sent token idx Hin) as (d & Hd & _).
  unfold _set_token_conll, token_after, token_record, with_pandas. simpl fst. simpl snd.
  rewrite Hd. cbv beta iota delta [bind].
  rewrite (ext_name_ok self "conll" Hn valid_conll).
  rewrite underscore_set_ok by exact Hc.
  rewrite (ext_name_ok self "conll_str" Hn valid_conll_str).
  rewrite underscore_set_ok by exact Hs.
  destruct (pandas_on PD self) eqn:Hon; [|reflexivity].
  rewrite (ext_name_ok self "conll_pd" Hn valid_conll_pd).
  rewrite underscore_set_ok by (apply Hp; reflexivity).
  reflexivity.
Qed.

Lemma set_tokens_ok PD self reg span :
  names_ok self -> registered PD self reg ->
  mapM (fun it => _set_token_conll PD self reg span (snd it) (fst it))
       (enumerate (Span.tokens span) 1)
    = Ok (tokens_after PD self span).
Proof.
  intros Hn Hr. apply mapM_total. apply Forall_forall. intros [k t] Hin.
  apply list_elem_of_In, enumerate_In in Hin.
  apply set_token_conll_ok; assumption.
Qed.

Lemma token_values_ok reg name toks :
  name ∈ token_extensions reg ->
  token_values reg name toks = Ok (stored Token.us name toks).
Proof.
  intros H. unfold token_values, stored. apply mapM_total.
  apply Forall_forall. intros t _. apply underscore_get_ok. exact H.
Qed.

Lemma span_values_ok reg name spans :
  name ∈ span_extensions reg ->
  span_values reg name spans = Ok (stored Span.us name spans).
Proof.
  intros H. unfold span_values, stored. apply mapM_total.
  apply Forall_forall. intros t _. apply underscore_get_ok. exact H.
Qed.

(** The line is read back under the string attribute's name, unless the
    pandas attribute has the same name. *)
Lemma token_after_line PD self sent it :
  (pandas_on PD self = true -> name_of self "conll_pd" <> name_of self "conll_str") ->
  Token.us (token_after PD self sent it) !! name_of self "conll_str"
    = Some (VStr (token_line self sent it)).
Proof.
  intros Hne. unfold token_after, with_pandas, token_line. simpl.
  destruct (pandas_on PD self).
  - rewrite lookup_insert_ne by (apply Hne; reflexivity). apply lookup_insert_eq.
  - apply lookup_insert_eq.
Qed.

Lemma token_after_record PD self sent it :
  name_of self "conll" <> name_of self "conll_str" ->
  (pandas_on PD self = true -> name_of self "conll_pd" <> name_of self "conll") ->
  Token.us (token_after PD self sent it) !! name_of self "conll"
    = Some (VDict (token_record self sent (snd it) (fst it))).
Proof.
  intros Hcs Hne. unfold token_after, with_pandas. simpl.
  destruct (pandas_on PD self).
  - rewrite lookup_insert_ne by (apply Hne; reflexivity).
    rewrite lookup_insert_ne by congruence. apply lookup_insert_eq.
  - rewrite lookup_insert_ne by congruence. apply lookup_insert_eq.
Qed.


Lemma stored_lines PD self span :
  (pandas_on PD self = true -> name_of self "conll_pd" <> name_of self "conll_str") ->
  stored Token.us (name_of self "conll_str") (tokens_after PD self span)
    = map VStr (map (token_line self span) (enumerate (Span.tokens span) 1)).
Proof.
  intros Hne. unfold stored, tokens_after. rewrite !map_map.
  apply map_ext. intros it. rewrite (token_after_line PD self span it Hne). reflexivity.
Qed.

Lemma as_strings_VStr (ss : list string) : as_strings (map VStr ss) = Ok ss.
Proof. induction ss as [|s ss IH]; simpl; [reflexivity | rewrite IH; reflexivity]. Qed.

Lemma join_values_VStr sep (ss : list string) :
  join_values sep (map VStr ss) = Ok (Py.join sep ss).
Proof. unfold join_values. rewrite as_strings_VStr. reflexivity. Qed.

(* ===================================================================== *)
(** ** The sentence pass *)
(* ===================================================================== *)

(** [_set_span_conll] returns, and leaves the list of records, the
    string and (with pandas) the frame under the three names. *)
Lemma set_span_conll_ok PD self reg it :
  names_ok self -> registered PD self reg ->
  (pandas_on PD self = true -> name_of self "conll_pd" <> name_of self "conll_str") ->
  _set_span_conll PD self reg (snd it) (fst it) = Ok (span_after PD self it).
Proof.
  intros Hn Hr Hne.
  pose proof Hr as (_ & (Hs & Hc & Hp) & (Hts & Htc & _)).
  unfold _set_span_conll, span_after, with_pandas, span_string.
  rewrite (set_tokens_ok PD self reg (snd it) Hn Hr). step.
  rewrite (ext_name_ok self "conll" Hn valid_conll). step.
  rewrite (token_values_ok reg _ _ Htc). step.
  rewrite underscore_set_ok by exact Hc. step.
  rewrite (ext_name_ok self "conll_str" Hn valid_conll_str). step.
  rewrite (token_values_ok reg _ _ Hts). step.
  rewrite (stored_lines PD self (snd it) Hne), join_values_VStr. step.
  rewrite underscore_set_ok by exact Hs. step.
  destruct (pandas_on PD self) eqn:Hon; [|reflexivity].
  rewrite (ext_name_ok self "conll_pd" Hn valid_conll_pd). step.
  rewrite underscore_set_ok by (apply Hp; reflexivity). reflexivity.
Qed.

Lemma span_after_string PD self it :
  (pandas_on PD self = true -> name_of self "conll_pd" <> name_of self "conll_str") ->
  Span.us (span_after PD self it) !! name_of self "conll_str"
    = Some (VStr (span_string self (fst it) (snd it))).
Proof.
  intros Hne. unfold span_after, with_pandas. simpl.
  destruct (pandas_on PD self).
  - rewrite lookup_insert_ne by (apply Hne; reflexivity). apply lookup_insert_eq.
  - apply lookup_insert_eq.
Qed.

Lemma token_lines_are_lines self span :
  Forall2 (fun it line =>
             exists d, token_conll_d self span (snd it) (fst it) = Ok d /\
                       line = token_conll_str d)
          (enumerate (Span.tokens span) 1)
          (map (token_line self span) (enumerate (Span.tokens span) 1)).
Proof.
  assert (H : forall its : list (Z * Token.t),
             Forall (fun it => In (snd it) (Span.tokens span)) its ->
             Forall2 (fun it line =>
                        exists d, token_conll_d self span (snd it) (fst it) = Ok d /\
                                  line = token_conll_str d)
                     its (map (token_line self span) its)).
  { induction 1 as [|it its Hit _ IH]; simpl; constructor; [|exact IH].
    destruct (token_conll_d_keys self span (snd it) (fst it) Hit) as (d & Hd & _).
    exists d. split; [exact Hd|]. unfold token_line, token_record. rewrite Hd. reflexivity. }
  apply H. apply Forall_forall. intros [k t] Hin.
  apply list_elem_of_In, enumerate_In in Hin. exact Hin.
Qed.

(** [''.join(xs)] is the concatenation of [xs]. *)
Lemma join_empty (xs : list string) :
  Py.join EmptyString xs = fold_right String.append EmptyString xs.
Proof.
  induction xs as [|x [|y xs] IH]; [reflexivity | |].
  - simpl. rewrite str_app_nil_r. reflexivity.
  - rewrite join_cons2, str_app_nil_l, IH. reflexivity.
Qed.

(** C7, as amended: when the pandas attribute is off or does not share
    its name with the string attribute, the string of every sentence is,
    with headers, the line [# sent_id = idx], the line [# text = ...] and
    then its tokens' lines in order; without headers, its tokens' lines
    alone. *)
Theorem sentence_string_layout PD self reg span idx :
  names_ok self -> registered PD self reg ->
  (pandas_on PD self = true -> name_of self "conll_pd" <> name_of self "conll_str") ->
  exists span' lines,
    _set_span_conll PD self reg span idx = Ok span' /\
    token_values reg (name_of self "conll_str") (Span.tokens span')
      = Ok (map VStr lines) /\
    Forall2 (fun it line =>
               exists d, token_conll_d self span (snd it) (fst it) = Ok d /\
                         line = token_conll_str d)
            (enumerate (Span.tokens span) 1) lines /\
    (include_headers self = true ->
     Underscore.get (span_extensions reg) (Span.us span') (name_of self "conll_str")
       = Ok (VStr ("# sent_id = " ++ Py.str_int idx ++ NL
                     ++ "# text = " ++ Span.text span ++ NL
                     ++ fold_right String.append EmptyString lines))) /\
    (include_headers self = false ->
     Underscore.get (span_extensions reg) (Span.us span') (name_of self "conll_str")
       = Ok (VStr (fold_right String.append EmptyString lines))).
Proof.
  intros Hn Hr Hne.
  pose proof Hr as (_ & (Hs & _ & _) & (Hts & _ & _)).
  exists (span_after PD self (idx, span)),
         (map (token_line self span) (enumerate (Span.tokens span) 1)).
  split; [exact (set_span_conll_ok PD self reg (idx, span) Hn Hr Hne)|].
  split.
  { rewrite (token_values_ok reg _ _ Hts). f_equal.
    exact (stored_lines PD self span Hne). }
  split; [apply token_lines_are_lines|].
  rewrite (underscore_get_ok _ _ _ Hs), (span_after_string PD self (idx, span) Hne).
  unfold span_string, header. simpl fst. simpl snd. rewrite join_empty.
  split; intros ->.
  - simpl default. rewrite !str_app_assoc. reflexivity.
  - reflexivity.
Qed.

Lemma default_registry_registered PD no_pandas maps headers :
  registered PD (formatter_with default_names maps headers no_pandas) default_registry.
Proof.
  unfold registered, registered_on.
  repeat split; try intros _; by_computation.
Defined.

Lemma sentence_string_layout_witness :
  names_ok (formatter_with default_names None true false) /\
  registered true (formatter_with default_names None true false) default_registry /\
  (pandas_on true (formatter_with default_names None true false) = true ->
   name_of (formatter_with default_names None true false) "conll_pd"
     <> name_of (formatter_with default_names None true false) "conll_str") /\
  exists span' lines,
    _set_span_conll true (formatter_with default_names None true false)
                    default_registry sent_dogs 1 = Ok span' /\
    token_values default_registry
                 (name_of (formatter_with default_names None true false) "conll_str")
                 (Span.tokens span') = Ok (map VStr lines) /\
    Forall2 (fun it line =>
               exists d,
                 token_conll_d (formatter_with default_names None true false)
                               sent_dogs (snd it) (fst it) = Ok d /\
                 line = token_conll_str d)
            (enumerate (Span.tokens sent_dogs) 1) lines /\
    (include_headers (formatter_with default_names None true false) = true ->
     Underscore.get (span_extensions default_registry) (Span.us span')
                    (name_of (formatter_with default_names None true false) "conll_str")
       = Ok (VStr ("# sent_id = " ++ Py.str_int 1 ++ NL
                     ++ "# text = " ++ Span.text sent_dogs ++ NL
                     ++ fold_right String.append EmptyString lines))) /\
    (include_headers (formatter_with default_names None true false) = false ->
     Underscore.get (span_extensions default_registry) (Span.us span')
                    (name_of (formatter_with default_names None true false) "conll_str")
       = Ok (VStr (fold_right String.append EmptyString lines))).
Proof.
  split; [reflexivity|].
  split; [apply default_registry_registered|].
  split; [intros _; vm_compute; discriminate|].
  apply (sentence_string_layout true (formatter_with default_names None true false)
                                default_registry sent_dogs 1).
  - reflexivity.
  - apply default_registry_registered.
  - intros _; vm_compute; discriminate.
Defined.

(** C7 as stated fails when the rename map gives the pandas attribute the
    name of the string attribute and pandas is in use: the constructor
    accepts the map, the token pass then leaves a series where the line
    is read back, and the sentence pass raises [TypeError] on joining:
    the sentence gets no string at all. *)
Lemma aliased_pandas_name_breaks_sentence_string :
  __init__ true sample_nlp None (Some [("conll_pd", "conll_str")]) true false
           empty_registry
    = Ok (formatter_with pd_as_str_names None true false,
          registry_of ["conll_str"; "conll"]) /\
  _set_span_conll true (formatter_with pd_as_str_names None true false)
                  (registry_of ["conll_str"; "conll"]) sent_run 1
    = Raise TypeError /\
  (let! t := _set_token_conll true (formatter_with pd_as_str_names None true false)
                              (registry_of ["conll_str"; "conll"]) sent_run tok_run 1 in
   Underscore.get (token_extensions (registry_of ["conll_str"; "conll"]))
                  (Token.us t) "conll_str")
    = Ok (VSeries (token_record (formatter_with pd_as_str_names None true false)
                                sent_run tok_run 1)).
Proof. repeat split; vm_compute; reflexivity. Qed.

(** The layout on the sample sentence, with and without headers. *)
Example sentence_string_example :
  (let! s := _set_span_conll false (formatter_with default_names None true false)
                             default_registry sent_run 2 in
   Ok (Span.us s !! "conll_str"))
    = Ok (Some (VStr ("# sent_id = 2" ++ NL ++ "# text = Run" ++ NL
                        ++ "1" ++ TAB ++ "Run" ++ TAB ++ "run" ++ TAB ++ "VERB"
                        ++ TAB ++ "VB" ++ TAB ++ "_" ++ TAB ++ "0" ++ TAB
                        ++ " Root " ++ TAB ++ "_" ++ TAB ++ "SpaceAfter=No" ++ NL))) /\
  (let! s := _set_span_conll false (formatter_with default_names None false false)
                             default_registry sent_run 2 in
   Ok (Span.us s !! "conll_str"))
    = Ok (Some (VStr ("1" ++ TAB ++ "Run" ++ TAB ++ "run" ++ TAB ++ "VERB"
                        ++ TAB ++ "VB" ++ TAB ++ "_" ++ TAB ++ "0" ++ TAB
                        ++ " Root " ++ TAB ++ "_" ++ TAB ++ "SpaceAfter=No" ++ NL))).
Proof. split; vm_compute; reflexivity. Qed.

(* ===================================================================== *)
(** ** The document pass *)
(* ===================================================================== *)

Lemma set_spans_ok PD self reg doc :
  names_ok self -> registered PD self reg ->
  (pandas_on PD self = true -> name_of self "conll_pd" <> name_of self "conll_str") ->
  mapM (fun it => _set_span_conll PD self reg (snd it) (fst it))
       (enumerate (Doc.sents doc) 1)
    = Ok (spans_after PD self doc).
Proof.
  intros Hn Hr Hne. apply mapM_total. apply Forall_forall. intros it _.
  apply set_span_conll_ok; assumption.
Qed.

Lemma stored_span_strings PD self doc :
  (pandas_on PD self = true -> name_of self "conll_pd" <> name_of self "conll_str") ->
  stored Span.us (name_of self "conll_str") (spans_after PD self doc)
    = map VStr (map (fun it => span_string self (fst it) (snd it))
                    (enumerate (Doc.sents doc) 1)).
Proof.
  intros Hne. unfold stored, spans_after. rewrite !map_map.
  apply map_ext. intros it. rewrite (span_after_string PD self it Hne). reflexivity.
Qed.

Lemma span_after_frame PD self it :
  pandas_on PD self = true ->
  Span.us (span_after PD self it) !! name_of self "conll_pd"
    = Some (Pd.DataFrame (stored Token.us (name_of self "conll")
                                 (Span.tokens (span_after PD self it)))).
Proof.
  intros Hon. unfold span_after, with_pandas. simpl. rewrite Hon.
  apply lookup_insert_eq.
Qed.

Lemma span_after_records PD self it :
  name_of self "conll" <> name_of self "conll_str" ->
  (pandas_on PD self = true -> name_of self "conll_pd" <> name_of self "conll") ->
  Span.us (span_after PD self it) !! name_of self "conll"
    = Some (VList (stored Token.us (name_of self "conll")
                          (Span.tokens (span_after PD self it)))).
Proof.
  intros Hcs Hne. unfold span_after, with_pandas. simpl.
  destruct (pandas_on PD self).
  - rewrite lookup_insert_ne by (apply Hne; reflexivity).
    rewrite lookup_insert_ne by congruence. apply lookup_insert_eq.
  - rewrite lookup_insert_ne by congruence. apply lookup_insert_eq.
Qed.

(** Concatenating the frames of the sentences gives the rows of all of
    them. *)
Lemma concat_frames_of_frames (rows : list (list value)) :
  exists ix, Pd.concat_frames (map Pd.DataFrame rows) = Ok (ix, concat rows).
Proof.
  induction rows as [|r rows (ix & IH)]; simpl.
  - eexists; reflexivity.
  - rewrite IH. simpl. eexists; reflexivity.
Qed.

Lemma concat_reset_index (rows : list (list value)) :
  rows <> [] ->
  (let! all := Pd.concat (map Pd.DataFrame rows) in Pd.reset_index all)
    = Ok (VFrame (Pd.range_index (length (concat rows))) (concat rows)).
Proof.
  intros Hne. destruct (concat_frames_of_frames rows) as (ix & Hix).
  unfold Pd.concat. destruct rows as [|r rows]; [congruence|].
  change (map Pd.DataFrame (r :: rows)) with (Pd.DataFrame r :: map Pd.DataFrame rows) in *.
  cbv beta iota. rewrite Hix. reflexivity.
Qed.

Lemma stored_span_frames PD self doc :
  pandas_on PD self = true ->
  stored Span.us (name_of self "conll_pd") (spans_after PD self doc)
    = map Pd.DataFrame
          (map (fun s => stored Token.us (name_of self "conll") (Span.tokens s))
               (spans_after PD self doc)).
Proof.
  intros Hon. unfold stored at 1, spans_after. rewrite !map_map.
  apply map_ext. intros it. rewrite (span_after_frame PD self it Hon). reflexivity.
Qed.

(** [__call__] returns, and leaves the list of lists of records, the
    joined string and (with pandas) the concatenated frame under the
    three names. *)
Lemma call_ok PD self reg doc :
  names_ok self ->
  (pandas_on PD self = true ->
   name_of self "conll_pd" <> name_of self "conll_str" /\ Doc.sents doc <> []) ->
  exists reg',
    _set_extensions PD self reg = Ok reg' /\ registered PD self reg' /\
    __call__ PD self reg doc = Ok (doc_after PD self doc, reg').
Proof.
  intros Hn Hpd.
  destruct (set_extensions_ok PD self reg Hn) as (reg' & Hreg & Hr).
  exists reg'. split; [exact Hreg|]. split; [exact Hr|].
  pose proof Hr as ((Hs & Hc & Hp) & (Hss & Hsc & Hsp) & _).
  assert (Hne : pandas_on PD self = true ->
                name_of self "conll_pd" <> name_of self "conll_str")
    by (intros Hon; apply Hpd; exact Hon).
  unfold __call__, doc_after, with_pandas, doc_string, all_rows.
  rewrite Hreg. step.
  rewrite (set_spans_ok PD self reg' doc Hn Hr Hne). step.
  rewrite (ext_name_ok self "conll" Hn valid_conll). step.
  rewrite (span_values_ok reg' _ _ Hsc). step.
  rewrite underscore_set_ok by exact Hc. step.
  rewrite (ext_name_ok self "conll_str" Hn valid_conll_str). step.
  rewrite (span_values_ok reg' _ _ Hss). step.
  rewrite (stored_span_strings PD self doc Hne), join_values_VStr. step.
  rewrite underscore_set_ok by exact Hs. step.
  destruct (pandas_on PD self) eqn:Hon; [|reflexivity].
  rewrite (ext_name_ok self "conll_pd" Hn valid_conll_pd). step.
  rewrite (span_values_ok reg' _ _ (Hsp eq_refl)). step.
  rewrite (stored_span_frames PD self doc Hon).
  assert (Hrows : map (fun s => stored Token.us (name_of self "conll") (Span.tokens s))
                      (spans_after PD self doc) <> []).
  { destruct (Hpd eq_refl) as [_ Hd]. unfold spans_after.
    destruct (Doc.sents doc); [congruence | discriminate]. }
  pose proof (concat_reset_index _ Hrows) as Hcat. unfold bind in Hcat.
  destruct (Pd.concat _) as [all|]; [|discriminate].
  rewrite Hcat. step.
  rewrite underscore_set_ok by (apply Hp; reflexivity). reflexivity.
Qed.

Lemma ends_with_newline_app (a s : string) :
  ends_with_newline s -> ends_with_newline (a ++ s).
Proof. intros (b & ->). exists (a ++ b)%string. symmetry. apply str_app_assoc. Qed.

Lemma concat_ends_with_newline (xs : list string) :
  xs <> [] -> Forall ends_with_newline xs ->
  ends_with_newline (fold_right String.append EmptyString xs).
Proof.
  induction xs as [|x [|y xs] IH]; [congruence | |]; intros _ Hall.
  - simpl. rewrite str_app_nil_r. apply Forall_cons in Hall as [Hx _]. exact Hx.
  - apply Forall_cons in Hall as [_ Hrest].
    change (fold_right String.append EmptyString (x :: y :: xs))
      with (x ++ fold_right String.append EmptyString (y :: xs))%string.
    apply ends_with_newline_app. apply IH; [congruence | exact Hrest].
Qed.

Lemma header_ends_with_newline idx span : ends_with_newline (header idx span).
Proof.
  unfold header. repeat apply ends_with_newline_app.
  exists EmptyString. reflexivity.
Qed.

(** The string of a sentence that has a token, or a header, ends with a
    newline. *)
Lemma span_string_ends_with_newline self idx span :
  Span.tokens span <> [] \/ include_headers self = true ->
  ends_with_newline (span_string self idx span).
Proof.
  intros H. unfold span_string. rewrite join_empty.
  destruct (Span.tokens span) as [|t ts] eqn:Et.
  - destruct H as [H| ->]; [congruence|]. simpl.
    rewrite str_app_nil_r. apply header_ends_with_newline.
  - apply ends_with_newline_app. apply concat_ends_with_newline.
    + simpl. discriminate.
    + apply Forall_forall. intros line Hline.
      apply list_elem_of_In, in_map_iff in Hline as (it & <- & _).
      unfold token_line. rewrite token_line_ends_with_newline.
      eexists; reflexivity.
Qed.

(** Two neighbours in a join are one separator apart. *)
Lemma join_neighbours sep (l1 : list string) s1 s2 (l2 : list string) :
  exists pre post,
    Py.join sep (l1 ++ s1 :: s2 :: l2) = (pre ++ s1 ++ sep ++ s2 ++ post)%string.
Proof.
  induction l1 as [|x l1 (pre & post & IH)].
  - destruct l2 as [|y l2].
    + exists EmptyString, EmptyString. simpl app.
      rewrite join_cons2. simpl Py.join. rewrite str_app_nil_r. reflexivity.
    + exists EmptyString, (sep ++ Py.join sep (y :: l2))%string. simpl app.
      rewrite !join_cons2. reflexivity.
  - exists (x ++ sep ++ pre)%string, post.
    destruct l1 as [|z l1]; simpl app in *.
    + rewrite join_cons2, IH, !str_app_assoc. reflexivity.
    + rewrite join_cons2, IH, !str_app_assoc. reflexivity.
Qed.

Lemma Forall2_enumerate_map {A B} (P : A -> B -> Prop) (g : Z * A -> B)
      (xs : list A) start :
  (forall k x, P x (g (k, x))) ->
  Forall2 P xs (map g (enumerate xs start)).
Proof.
  intros H. revert start. induction xs as [|x xs IH]; intros start; simpl;
    constructor; auto.
Qed.

(** C9, as amended: when the record and string attributes have different
    names and, with pandas in use, the pandas attribute shares its name
    with neither and the document has a sentence, [__call__] returns;
    the document's string attribute is the sentences' strings joined by
    one newline, so that two consecutive sentences, each ending in a
    newline, are one blank line apart; and the document's record
    attribute is the list of the sentences' record attributes, one per
    sentence, each as long as its sentence. *)
Theorem document_aggregates PD self reg doc :
  names_ok self ->
  name_of self "conll" <> name_of self "conll_str" ->
  (pandas_on PD self = true ->
   name_of self "conll_pd" <> name_of self "conll_str" /\
   name_of self "conll_pd" <> name_of self "conll" /\
   Doc.sents doc <> []) ->
  exists doc' reg' strs recs,
    __call__ PD self reg doc = Ok (doc', reg') /\
    span_values reg' (name_of self "conll_str") (Doc.sents doc') = Ok (map VStr strs) /\
    span_values reg' (name_of self "conll") (Doc.sents doc') = Ok recs /\
    Underscore.get (doc_extensions reg') (Doc.us doc') (name_of self "conll_str")
      = Ok (VStr (Py.join NL strs)) /\
    Underscore.get (doc_extensions reg') (Doc.us doc') (name_of self "conll")
      = Ok (VList recs) /\
    length recs = length (Doc.sents doc) /\
    Forall2 (fun s r => exists l, r = VList l /\ length l = length (Span.tokens s))
            (Doc.sents doc) recs /\
    (Forall (fun s => Span.tokens s <> []) (Doc.sents doc) ->
     Forall ends_with_newline strs /\
     forall l1 s1 s2 l2, strs = l1 ++ s1 :: s2 :: l2 ->
       exists pre b1 post,
         s1 = (b1 ++ NL)%string /\
         Py.join NL strs = (pre ++ b1 ++ NL ++ NL ++ s2 ++ post)%string).
Proof.
  intros Hn Hcs Hpd.
  assert (Hne : pandas_on PD self = true ->
                name_of self "conll_pd" <> name_of self "conll_str")
    by (intros Hon; apply Hpd; exact Hon).
  assert (Hnc : pandas_on PD self = true ->
                name_of self "conll_pd" <> name_of self "conll")
    by (intros Hon; apply Hpd; exact Hon).
  destruct (call_ok PD self reg doc Hn) as (reg' & _ & Hr & Hcall).
  { intros Hon. destruct (Hpd Hon) as (? & _ & ?). auto. }
  pose proof Hr as ((Hs & Hc & _) & (Hss & Hsc & _) & _).
  exists (doc_after PD self doc), reg',
         (map (fun it => span_string self (fst it) (snd it))
              (enumerate (Doc.sents doc) 1)),
         (stored Span.us (name_of self "conll") (spans_after PD self doc)).
  split; [exact Hcall|].
  split.
  { simpl. rewrite (span_values_ok reg' _ _ Hss). f_equal.
    apply stored_span_strings. exact Hne. }
  split; [simpl; apply span_values_ok; exact Hsc|].
  split.
  { rewrite (underscore_get_ok _ _ _ Hs). unfold doc_after, with_pandas. simpl.
    destruct (pandas_on PD self).
    - rewrite lookup_insert_ne by (apply Hne; reflexivity).
      rewrite lookup_insert_eq. reflexivity.
    - rewrite lookup_insert_eq. reflexivity. }
  split.
  { rewrite (underscore_get_ok _ _ _ Hc). unfold doc_after, with_pandas. simpl.
    destruct (pandas_on PD self).
    - rewrite lookup_insert_ne by (apply Hnc; reflexivity).
      rewrite lookup_insert_ne by congruence.
      rewrite lookup_insert_eq. reflexivity.
    - rewrite lookup_insert_ne by congruence.
      rewrite lookup_insert_eq. reflexivity. }
  split.
  { unfold stored, spans_after. rewrite !length_map. apply enumerate_length. }
  split.
  { unfold stored, spans_after. rewrite map_map.
    apply Forall2_enumerate_map. intros k s.
    rewrite (span_after_records PD self (k, s) Hcs Hnc). simpl.
    eexists. split; [reflexivity|].
    unfold stored, tokens_after. rewrite !length_map. apply enumerate_length. }
  intros Hnonempty.
  assert (Hends : Forall ends_with_newline
                         (map (fun it => span_string self (fst it) (snd it))
                              (enumerate (Doc.sents doc) 1))).
  { apply Forall_forall. intros s Hin.
    apply list_elem_of_In, in_map_iff in Hin as ([k sp] & <- & Hin).
    apply span_string_ends_with_newline. left. simpl.
    apply enumerate_In in Hin.
    rewrite Forall_forall in Hnonempty. apply Hnonempty.
    apply list_elem_of_In. exact Hin. }
  split; [exact Hends|].
  intros l1 s1 s2 l2 Heq. rewrite Heq in Hends |- *.
  apply Forall_app in Hends as [_ Hends].
  apply Forall_cons in Hends as [(b1 & Hb1) _].
  destruct (join_neighbours NL l1 s1 s2 l2) as (pre & post & Hj).
  exists pre, b1, post. split; [exact Hb1|].
  rewrite Hj, Hb1, !str_app_assoc. reflexivity.
Qed.

Lemma document_aggregates_witness :
  names_ok (formatter_with default_names None false false) /\
  name_of (formatter_with default_names None false false) "conll"
    <> name_of (formatter_with default_names None false false) "conll_str" /\
  (pandas_on true (formatter_with default_names None false false) = true ->
   name_of (formatter_with default_names None false false) "conll_pd"
     <> name_of (formatter_with default_names None false false) "conll_str" /\
   name_of (formatter_with default_names None false false) "conll_pd"
     <> name_of (formatter_with default_names None false false) "conll" /\
   Doc.sents sample_doc <> []) /\
  exists doc' reg' strs recs,
    __call__ true (formatter_with default_names None false false)
             empty_registry sample_doc = Ok (doc', reg') /\
    span_values reg' (name_of (formatter_with default_names None false false) "conll_str")
                (Doc.sents doc') = Ok (map VStr strs) /\
    span_values reg' (name_of (formatter_with default_names None false false) "conll")
                (Doc.sents doc') = Ok recs /\
    Underscore.get (doc_extensions reg') (Doc.us doc')
                   (name_of (formatter_with default_names None false false) "conll_str")
      = Ok (VStr (Py.join NL strs)) /\
    Underscore.get (doc_extensions reg') (Doc.us doc')
                   (name_of (formatter_with default_names None false false) "conll")
      = Ok (VList recs) /\
    length recs = length (Doc.sents sample_doc) /\
    Forall2 (fun s r => exists l, r = VList l /\ length l = length (Span.tokens s))
            (Doc.sents sample_doc) recs /\
    (Forall (fun s => Span.tokens s <> []) (Doc.sents sample_doc) ->
     Forall ends_with_newline strs /\
     forall l1 s1 s2 l2, strs = l1 ++ s1 :: s2 :: l2 ->
       exists pre b1 post,
         s1 = (b1 ++ NL)%string /\
         Py.join NL strs = (pre ++ b1 ++ NL ++ NL ++ s2 ++ post)%string).
Proof.
  split; [reflexivity|].
  split; [vm_compute; discriminate|].
  split; [intros _; repeat split; vm_compute; discriminate|].
  apply (document_aggregates true (formatter_with default_names None false false)
                             empty_registry sample_doc).
  - reflexivity.
  - vm_compute; discriminate.
  - intros _; repeat split; vm_compute; discriminate.
Defined.

(** C9 as stated fails when the rename map gives the record attribute
    the name of the string attribute: the constructor accepts the map,
    and after the call the document's record attribute holds the joined
    string, not the list of the sentences' record attributes. *)
Lemma aliased_record_name_breaks_document_list :
  __init__ false sample_nlp None (Some [("conll", "conll_str")]) false false
           empty_registry
    = Ok (formatter_with conll_as_str_names None false false,
          registry_of ["conll_str"]) /\
  exists doc' recs joined,
    __call__ false (formatter_with conll_as_str_names None false false)
             (registry_of ["conll_str"]) sample_doc
      = Ok (doc', registry_of ["conll_str"]) /\
    span_values (registry_of ["conll_str"])
                (name_of (formatter_with conll_as_str_names None false false) "conll")
                (Doc.sents doc') = Ok recs /\
    Underscore.get (doc_extensions (registry_of ["conll_str"])) (Doc.us doc')
                   (name_of (formatter_with conll_as_str_names None false false) "conll")
      = Ok (VStr joined) /\
    Underscore.get (doc_extensions (registry_of ["conll_str"])) (Doc.us doc')
                   (name_of (formatter_with conll_as_str_names None false false) "conll")
      <> Ok (VList recs).
Proof.
  split; [vm_compute; reflexivity|].
  exists (doc_after false (formatter_with conll_as_str_names None false false) sample_doc),
         (stored Span.us "conll_str"
                 (spans_after false (formatter_with conll_as_str_names None false false)
                              sample_doc)),
         (doc_string (formatter_with conll_as_str_names None false false) sample_doc).
  split; [vm_compute; reflexivity|].
  split; [vm_compute; reflexivity|].
  assert (H : Underscore.get (doc_extensions (registry_of ["conll_str"]))
                (Doc.us (doc_after false
                           (formatter_with conll_as_str_names None false false)
                           sample_doc))
                (name_of (formatter_with conll_as_str_names None false false) "conll")
              = Ok (VStr (doc_string
                            (formatter_with conll_as_str_names None false false)
                            sample_doc)))
    by (vm_compute; reflexivity).
  split; [exact H|]. rewrite H. discriminate.
Qed.

(** The other two conditions of the amended statement are needed as
    well: with pandas in use, a pandas attribute named like the record
    attribute leaves the frame where the list is expected, and one named
    like the string attribute makes the call raise. *)
Lemma aliased_pandas_name_breaks_document :
  __init__ true sample_nlp None (Some [("conll_pd", "conll")]) false false
           empty_registry
    = Ok (formatter_with pd_as_conll_names None false false,
          registry_of ["conll_str"; "conll"]) /\
  (let! r := __call__ true (formatter_with pd_as_conll_names None false false)
                      (registry_of ["conll_str"; "conll"]) sample_doc in
   Underscore.get (doc_extensions (snd r)) (Doc.us (fst r)) "conll")
    = Ok (VFrame (Pd.range_index 4)
                 (all_rows true (formatter_with pd_as_conll_names None false false)
                           sample_doc)) /\
  __init__ true sample_nlp None (Some [("conll_pd", "conll_str")]) false false
           empty_registry
    = Ok (formatter_with pd_as_str_names None false false,
          registry_of ["conll_str"; "conll"]) /\
  __call__ true (formatter_with pd_as_str_names None false false)
           (registry_of ["conll_str"; "conll"]) sample_doc
    = Raise TypeError.
Proof. repeat split; vm_compute; reflexivity. Qed.

(** The document string of the sample: the two sentences one blank line
    apart. *)
Example document_string_example :
  (let! r := __call__ false (formatter_with default_names None false false)
                      empty_registry sample_doc in
   Ok (Doc.us (fst r) !! "conll_str"))
    = Ok (Some (VStr (
        "1" ++ TAB ++ "Dogs" ++ TAB ++ "dogs" ++ TAB ++ "NOUN" ++ TAB ++ "NN" ++ TAB
          ++ "Number=Sing" ++ TAB ++ "2" ++ TAB ++ "nsubj" ++ TAB ++ "_" ++ TAB ++ "_" ++ NL
        ++ "2" ++ TAB ++ "bark" ++ TAB ++ "bark" ++ TAB ++ "VERB" ++ TAB ++ "VB" ++ TAB
          ++ "_" ++ TAB ++ "0" ++ TAB ++ "ROOT" ++ TAB ++ "_" ++ TAB ++ "SpaceAfter=No" ++ NL
        ++ "3" ++ TAB ++ "." ++ TAB ++ "." ++ TAB ++ "PUNCT" ++ TAB ++ "." ++ TAB
          ++ "_" ++ TAB ++ "2" ++ TAB ++ "punct" ++ TAB ++ "_" ++ TAB ++ "_" ++ NL
        ++ NL
        ++ "1" ++ TAB ++ "Run" ++ TAB ++ "run" ++ TAB ++ "VERB" ++ TAB ++ "VB" ++ TAB
          ++ "_" ++ TAB ++ "0" ++ TAB ++ " Root " ++ TAB ++ "_" ++ TAB
          ++ "SpaceAfter=No" ++ NL))).
Proof. vm_compute. reflexivity. Qed.

(* ===================================================================== *)
(** ** Documents without a sentence *)
(* ===================================================================== *)

(** Without pandas, a document with no sentence gets the empty list and
    the empty string. *)
Lemma call_no_sentence_without_pandas PD self reg doc :
  names_ok self -> pandas_on PD self = false ->
  name_of self "conll" <> name_of self "conll_str" ->
  Doc.sents doc = [] ->
  exists doc' reg',
    __call__ PD self reg doc = Ok (doc', reg') /\
    Doc.sents doc' = [] /\
    Underscore.get (doc_extensions reg') (Doc.us doc') (name_of self "conll")
      = Ok (VList []) /\
    Underscore.get (doc_extensions reg') (Doc.us doc') (name_of self "conll_str")
      = Ok (VStr EmptyString).
Proof.
  intros Hn Hoff Hcs Hempty.
  destruct (call_ok PD self reg doc Hn) as (reg' & _ & Hr & Hcall).
  { rewrite Hoff. discriminate. }
  pose proof Hr as ((Hs & Hc & _) & _).
  exists (doc_after PD self doc), reg'. split; [exact Hcall|].
  unfold doc_after, with_pandas, spans_after, doc_string.
  rewrite Hoff, Hempty. simpl.
  split; [reflexivity|].
  rewrite (underscore_get_ok _ _ _ Hc), (underscore_get_ok _ _ _ Hs).
  rewrite lookup_insert_ne by congruence. rewrite !lookup_insert_eq.
  split; reflexivity.
Qed.

(** With pandas, a document with no sentence makes [__call__] raise:
    [pd.concat] is given an empty list. *)
Lemma call_no_sentence_with_pandas PD self reg doc :
  names_ok self -> pandas_on PD self = true -> Doc.sents doc = [] ->
  __call__ PD self reg doc = Raise ValueError.
Proof.
  intros Hn Hon Hempty.
  destruct (set_extensions_ok PD self reg Hn) as (reg' & Hreg & Hr).
  pose proof Hr as ((Hs & Hc & Hp) & _).
  unfold __call__. rewrite Hreg, Hempty. step. simpl mapM. step.
  rewrite (ext_name_ok self "conll" Hn valid_conll). step.
  unfold span_values. simpl mapM. step.
  rewrite underscore_set_ok by exact Hc. step.
  rewrite (ext_name_ok self "conll_str" Hn valid_conll_str). step.
  unfold join_values. simpl as_strings. step.
  rewrite underscore_set_ok by exact Hs. step.
  rewrite Hon, (ext_name_ok self "conll_pd" Hn valid_conll_pd). reflexivity.
Qed.

(** C2 fails on the code: with pandas installed and not disabled, the
    formatter built with the default options raises [ValueError] on the
    document of an empty text instead of setting empty aggregates. *)
Theorem empty_document_with_pandas_raises :
  __init__ true sample_nlp None None false false empty_registry
    = Ok (formatter_with default_names None false false, default_registry) /\
  Doc.sents empty_doc = [] /\
  __call__ true (formatter_with default_names None false false) default_registry
           empty_doc
    = Raise ValueError.
Proof. repeat split; vm_compute; reflexivity. Qed.

(** With pandas disabled the same document is processed as the
    specification says. *)
Example empty_document_without_pandas :
  (let! r := __call__ true (formatter_with default_names None false true)
                      empty_registry empty_doc in
   Ok (Doc.us (fst r) !! "conll", Doc.us (fst r) !! "conll_str",
       Doc.us (fst r) !! "conll_pd"))
    = Ok (Some (VList []), Some (VStr EmptyString), None).
Proof. vm_compute. reflexivity. Qed.

(* ===================================================================== *)
(** ** More on [_merge_dicts_strict] *)
(* ===================================================================== *)

Lemma od_get_None {V} k (d : OD.t V) : ~ In k (OD.keys d) -> OD.get k d = None.
Proof.
  induction d as [|[k' v] d IH]; simpl; intros H; [reflexivity|].
  destruct (String.eqb k' k) eqn:E.
  - apply String.eqb_eq in E. tauto.
  - apply IH. tauto.
Qed.

Lemma merge_items_values d1 items d :
  NoDup (OD.keys items) ->
  merge_items d1 items = Ok d ->
  forall k, OD.get k d =
            match OD.get k items with
            | Some v => Some v
            | None => OD.get k d1
            end.
Proof.
  revert d1; induction items as [|[k v] items IH]; intros d1 Hnd H k'; simpl in H.
  - injection H as <-. reflexivity.
  - destruct (OD.mem k d1) eqn:E; simpl in H; [|discriminate].
    simpl in Hnd. apply NoDup_cons in Hnd as [Hk Hnd].
    rewrite (IH _ Hnd H k'). simpl.
    destruct (String.eqb k k') eqn:Ek.
    + apply String.eqb_eq in Ek; subst k'.
      rewrite od_get_None by (intros Hin; apply Hk, list_elem_of_In; exact Hin).
      apply od_get_set_eq.
    + apply String.eqb_neq in Ek.
      destruct (OD.get k' items); [reflexivity|].
      apply od_get_set_ne. exact Ek.
Qed.

(** The contract of [_merge_dicts_strict] for any base dictionary: it
    returns exactly when every key of [d2] is a key of [d1]; the result
    then has the keys of [d1] in their order, the values of [d2] where
    [d2] has the key and those of [d1] elsewhere.  Otherwise it raises a
    [KeyError] whose message lists the keys of [d1]. *)
Theorem merge_dicts_strict_contract (d1 d2 : OD.t string) :
  (Forall (fun kv => In (fst kv) (OD.keys d1)) d2 ->
   exists d,
     _merge_dicts_strict d1 d2 = Ok d /\
     OD.keys d = OD.keys d1 /\
     (NoDup (OD.keys d2) ->
      forall k, OD.get k d =
                match OD.get k d2 with
                | Some v => Some v
                | None => OD.get k d1
                end)) /\
  (Exists (fun kv => ~ In (fst kv) (OD.keys d1)) d2 ->
   _merge_dicts_strict d1 d2
     = Raise (KeyError
                ("This key does not exist in the original dict. Valid keys are "
                   ++ Repr.of_list (OD.keys d1)))).
Proof.
  unfold _merge_dicts_strict. split.
  - intros Hall. destruct (merge_items_accepts d1 d2 Hall) as (d & Hd & Hk).
    exists d. split; [exact Hd|]. split; [exact Hk|].
    intros Hnd. apply merge_items_values; assumption.
  - intros He. apply merge_items_rejects. exact He.
Qed.

Lemma merge_dicts_strict_contract_witness :
  (exists d,
     _merge_dicts_strict default_names [("conll", "conll_dict"); ("conll_pd", "frame")]
       = Ok d /\
     OD.keys d = OD.keys default_names /\
     (NoDup (OD.keys [("conll", "conll_dict"); ("conll_pd", "frame")]) ->
      forall k, OD.get k d =
                match OD.get k [("conll", "conll_dict"); ("conll_pd", "frame")] with
                | Some v => Some v
                | None => OD.get k default_names
                end)) /\
  NoDup (OD.keys [("conll", "conll_dict"); ("conll_pd", "frame")]) /\
  _merge_dicts_strict default_names [("conll", "x"); ("bogus", "y")]
    = Raise (KeyError
               ("This key does not exist in the original dict. Valid keys are "
                  ++ Repr.of_list (OD.keys default_names))).
Proof.
  split; [|split].
  - apply (proj1 (merge_dicts_strict_contract
                    default_names [("conll", "conll_dict"); ("conll_pd", "frame")])).
    constructor; [cbv; auto 10 | constructor; [cbv; auto 10 | constructor]].
  - by_computation.
  - apply (proj2 (merge_dicts_strict_contract default_names
                                              [("conll", "x"); ("bogus", "y")])).
    apply Exists_cons_tl, Exists_cons_hd. simpl.
    intros [H|[H|[H|[]]]]; discriminate.
Defined.

(* ===================================================================== *)
(** ** More on [_set_extensions] *)
(* ===================================================================== *)

Lemma set_extensions_of_registered PD self exts :
  names_ok self -> registered_on PD self exts ->
  set_extensions_of PD self exts = Ok exts.
Proof.
  intros Hn (Hs & Hc & Hp). unfold set_extensions_of.
  change (OD.getitem ?k (_ext_names self)) with (ext_name self k).
  rewrite (ext_name_ok self "conll_str" Hn valid_conll_str). step.
  rewrite ensure_extension_ok. unfold Underscore.has_extension.
  rewrite bool_decide_eq_true_2 by exact Hs. step.
  rewrite (ext_name_ok self "conll" Hn valid_conll). step.
  rewrite ensure_extension_ok. unfold Underscore.has_extension.
  rewrite bool_decide_eq_true_2 by exact Hc. step.
  destruct (pandas_on PD self); [|reflexivity].
  rewrite (ext_name_ok self "conll_pd" Hn valid_conll_pd). step.
  rewrite ensure_extension_ok. unfold Underscore.has_extension.
  rewrite bool_decide_eq_true_2 by (apply Hp; reflexivity). reflexivity.
Qed.

(** [_set_extensions] always returns for a formatter with its three
    names; it only adds to the registries, and calling it again changes
    nothing: re-registration is guarded by [has_extension]. *)
Theorem set_extensions_idempotent PD self reg :
  names_ok self ->
  exists reg',
    _set_extensions PD self reg = Ok reg' /\
    _set_extensions PD self reg' = Ok reg' /\
    doc_extensions reg ⊆ doc_extensions reg' /\
    span_extensions reg ⊆ span_extensions reg' /\
    token_extensions reg ⊆ token_extensions reg'.
Proof.
  intros Hn. unfold _set_extensions.
  destruct (set_extensions_of_ok PD self (doc_extensions reg) Hn) as (d & Hd & Rd & Sd).
  destruct (set_extensions_of_ok PD self (span_extensions reg) Hn) as (s & Hs & Rs & Ss).
  destruct (set_extensions_of_ok PD self (token_extensions reg) Hn) as (t & Ht & Rt & St).
  rewrite Hd, Hs, Ht. step.
  eexists. split; [reflexivity|]. simpl.
  rewrite !set_extensions_of_registered by assumption.
  step. auto.
Qed.

Lemma set_extensions_idempotent_witness :
  names_ok (formatter_with default_names None false false) /\
  exists reg',
    _set_extensions true (formatter_with default_names None false false)
                    (registry_of ["other"]) = Ok reg' /\
    _set_extensions true (formatter_with default_names None false false) reg' = Ok reg' /\
    doc_extensions (registry_of ["other"]) ⊆ doc_extensions reg' /\
    span_extensions (registry_of ["other"]) ⊆ span_extensions reg' /\
    token_extensions (registry_of ["other"]) ⊆ token_extensions reg'.
Proof.
  split; [reflexivity|].
  apply (set_extensions_idempotent true (formatter_with default_names None false false)
                                   (registry_of ["other"])).
  reflexivity.
Defined.

(* ===================================================================== *)
(** ** More on the conversion maps *)
(* ===================================================================== *)

(** Conversion maps that are absent, empty or keyed by names that are not
    CoNLL field names leave every record as derived; a misnamed field is
    ignored without an error. *)
Theorem conversion_maps_without_effect self sent token idx :
  In token (Span.tokens sent) ->
  (truthy_map (_conversion_maps self) = false \/
   forall maps k, _conversion_maps self = Some maps ->
                  In k CONLL_FIELD_NAMES -> maps !! k = None) ->
  exists raw,
    token_conll self sent token idx = Ok raw /\
    token_conll_d self sent token idx = Ok (zip CONLL_FIELD_NAMES raw).
Proof.
  intros Hin Hno.
  destruct (token_conll_ok self sent token idx Hin) as (first & h & Hf & Hh & _ & Ht & _).
  destruct (token_conll_d_ok self sent token idx Hin) as (first' & h' & Hf' & Hh' & Hd).
  assert (first' = first) by congruence. subst first'.
  assert (Hhh : h' = h) by congruence. rewrite Hhh in Hd. clear Hhh Hh' Hf'.
  eexists. split; [exact Ht|]. rewrite Hd. f_equal.
  change (zip CONLL_FIELD_NAMES (OD.values (raw_record self token idx h)))
    with (raw_record self token idx h).
  destruct (_conversion_maps self) as [maps|] eqn:Hm; [|reflexivity].
  destruct (truthy_map (Some maps)) eqn:Htr; [|reflexivity].
  destruct Hno as [Hno|Hno]; [discriminate|].
  assert (Hk : forall k, In k CONLL_FIELD_NAMES -> forall v, converted maps k v = v).
  { intros k Hk v. unfold converted. rewrite (Hno maps k eq_refl Hk). reflexivity. }
  unfold raw_record. simpl map.
  rewrite !Hk by (unfold CONLL_FIELD_NAMES; simpl; tauto). reflexivity.
Qed.

Lemma conversion_maps_without_effect_witness :
  In tok_dogs (Span.tokens sent_dogs) /\
  (forall maps k,
      _conversion_maps
        (formatter_with default_names (Some {[ "pos" := {[ SStr "NOUN" := SStr "N" ]} ]})
                        false false) = Some maps ->
      In k CONLL_FIELD_NAMES -> maps !! k = None) /\
  exists raw,
    token_conll
      (formatter_with default_names (Some {[ "pos" := {[ SStr "NOUN" := SStr "N" ]} ]})
                      false false) sent_dogs tok_dogs 1 = Ok raw /\
    token_conll_d
      (formatter_with default_names (Some {[ "pos" := {[ SStr "NOUN" := SStr "N" ]} ]})
                      false false) sent_dogs tok_dogs 1
      = Ok (zip CONLL_FIELD_NAMES raw).
Proof.
  assert (H : forall maps k,
             _conversion_maps
               (formatter_with default_names
                               (Some {[ "pos" := {[ SStr "NOUN" := SStr "N" ]} ]})
                               false false) = Some maps ->
             In k CONLL_FIELD_NAMES -> maps !! k = None).
  { intros maps k Hm Hk. simpl in Hm. injection Hm as <-.
    unfold CONLL_FIELD_NAMES in Hk. simpl in Hk.
    repeat (destruct Hk as [<-|Hk]; [vm_compute; reflexivity|]). destruct Hk. }
  split; [simpl; auto|]. split; [exact H|].
  apply (conversion_maps_without_effect
           (formatter_with default_names
                           (Some {[ "pos" := {[ SStr "NOUN" := SStr "N" ]} ]})
                           false false) sent_dogs tok_dogs 1).
  - simpl; auto.
  - right. exact H.
Defined.

(* ===================================================================== *)
(** ** More on the feature string *)
(* ===================================================================== *)

Lemma contains_app_r c (a b : string) :
  Py.contains c b = true -> Py.contains c (a ++ b) = true.
Proof.
  intros H. induction a as [|x a IH]; [exact H|].
  rewrite str_app_cons. simpl. rewrite IH. apply orb_true_r.
Qed.

Lemma contains_app_l c (a b : string) :
  Py.contains c a = true -> Py.contains c (a ++ b) = true.
Proof.
  induction a as [|x a IH]; [discriminate|].
  intros H. rewrite str_app_cons. simpl in *.
  apply orb_true_iff in H as [H|H]; [rewrite H; reflexivity|].
  rewrite (IH H). apply orb_true_r.
Qed.

Lemma feature_pair_has_equals pv : Py.contains "=" (feature_pair pv) = true.
Proof. unfold feature_pair. apply contains_app_r. reflexivity. Qed.

Lemma join_contains_head c sep x (xs : list string) :
  Py.contains c x = true -> Py.contains c (Py.join sep (x :: xs)) = true.
Proof.
  intros H. destruct xs as [|y xs]; [exact H|].
  rewrite join_cons2. apply contains_app_l. exact H.
Qed.

(** The feature string is never empty: it is the placeholder [_] or it
    holds at least one [key=value] pair. *)
Theorem morphology_placeholder_or_pairs (self : ConllFormatter) (tag : string) :
  (_get_morphology self tag = "_" \/
   Py.contains "=" (_get_morphology self tag) = true) /\
  _get_morphology self tag <> "".
Proof.
  assert (H : _get_morphology self tag = "_" \/
              Py.contains "=" (_get_morphology self tag) = true).
  { unfold _get_morphology.
    destruct (negb (truthy_map (_tagmap self))); [left; reflexivity|].
    destruct (default ∅ (_tagmap self) !! tag) as [props|]; [|left; reflexivity].
    destruct (kept_features props) as [|pv kept]; [left; reflexivity|].
    right. change (map feature_pair (pv :: kept))
             with (feature_pair pv :: map feature_pair kept).
    cbv iota. apply join_contains_head. apply feature_pair_has_equals. }
  split; [exact H|].
  destruct H as [-> | H]; [discriminate|].
  intros E. rewrite E in H. discriminate.
Qed.

(** Splitting the feature string of a known tag on [|] gives back the
    kept entries, rendered [key=value] in the order of the tag's feature
    mapping, when none of them contains the separator. *)
Theorem morphology_split_round_trip self t tag props :
  _tagmap self = Some t -> t !! tag = Some props ->
  kept_features props <> [] ->
  Forall (fun pv => Py.contains "|" (feature_pair pv) = false) (kept_features props) ->
  Py.split "|" (_get_morphology self tag) = map feature_pair (kept_features props) /\
  Forall (fun pv => In pv props /\ _is_number (fst pv) = false) (kept_features props).
Proof.
  intros Ht Hl Hne Hsep.
  rewrite (get_morphology_known self t tag props Ht Hl).
  split.
  - destruct (kept_features props) as [|pv kept] eqn:E; [congruence|].
    apply (split_join "|").
    + discriminate.
    + apply Forall_map. exact Hsep.
  - apply Forall_forall. intros [k v] Hin. apply list_elem_of_In in Hin.
    apply kept_features_In in Hin. exact Hin.
Qed.

Lemma morphology_split_round_trip_witness :
  _tagmap (formatter_with default_names None false false)
    = Some {[ "NN" := [("Number", SStr "Sing"); ("2", SStr "Noun")] ]} /\
  ({[ "NN" := [("Number", SStr "Sing"); ("2", SStr "Noun")] ]}
     : gmap string (OD.t scalar)) !! "NN"
    = Some [("Number", SStr "Sing"); ("2", SStr "Noun")] /\
  kept_features [("Number", SStr "Sing"); ("2", SStr "Noun")] <> [] /\
  Forall (fun pv => Py.contains "|" (feature_pair pv) = false)
         (kept_features [("Number", SStr "Sing"); ("2", SStr "Noun")]) /\
  Py.split "|" (_get_morphology (formatter_with default_names None false false) "NN")
    = map feature_pair (kept_features [("Number", SStr "Sing"); ("2", SStr "Noun")]) /\
  Forall (fun pv => In pv [("Number", SStr "Sing"); ("2", SStr "Noun")] /\
                    _is_number (fst pv) = false)
         (kept_features [("Number", SStr "Sing"); ("2", SStr "Noun")]).
Proof.
  split; [reflexivity|]. split; [vm_compute; reflexivity|].
  split; [vm_compute; discriminate|].
  split; [vm_compute; repeat constructor|].
  apply (morphology_split_round_trip
           (formatter_with default_names None false false)
           {[ "NN" := [("Number", SStr "Sing"); ("2", SStr "Noun")] ]} "NN"
           [("Number", SStr "Sing"); ("2", SStr "Noun")]).
  - reflexivity.
  - vm_compute; reflexivity.
  - vm_compute; discriminate.
  - vm_compute; repeat constructor.
Defined.

(* ===================================================================== *)
(** ** More on [_is_number] *)
(* ===================================================================== *)

Ltac each_char c := destruct c as [[] [] [] [] [] [] [] []]; vm_compute.

Lemma digit_facts c :
  Py.is_digit c = true ->
  (Py.ord c <? 128)%N = true /\ Py.c_isspace c = false /\
  Ascii.eqb c "_" = false /\ Ascii.eqb c "+" = false /\ Ascii.eqb c "-" = false /\
  Py.c_tolower c = c /\ Ascii.eqb c "i" = false /\ Ascii.eqb c "n" = false /\
  literal_char c = true.
Proof. each_char c; intros H; try discriminate H; repeat split. Qed.

Lemma c_isspace_float_char c : Py.c_isspace c = true -> float_char c = true.
Proof. each_char c; intros H; try discriminate H; reflexivity. Qed.

Lemma literal_float_char c : literal_char c = true -> float_char c = true.
Proof. unfold float_char. intros ->. reflexivity. Qed.

Lemma sign_literal_char c :
  Ascii.eqb c "+" || Ascii.eqb c "-" = true -> literal_char c = true.
Proof. each_char c; intros H; try discriminate H; reflexivity. Qed.

Lemma point_literal_char c : Ascii.eqb c "." = true -> literal_char c = true.
Proof. each_char c; intros H; try discriminate H; reflexivity. Qed.

Lemma e_literal_char c :
  Ascii.eqb c "e" || Ascii.eqb c "E" = true -> literal_char c = true.
Proof. each_char c; intros H; try discriminate H; reflexivity. Qed.

Lemma all_chars_app P (a b : string) :
  all_chars P (a ++ b) = all_chars P a && all_chars P b.
Proof.
  induction a as [|x a IH]; [reflexivity|].
  rewrite str_app_cons. simpl. rewrite IH. apply andb_assoc.
Qed.

Lemma all_chars_impl (P Q : ascii -> bool) s :
  (forall c, P c = true -> Q c = true) ->
  all_chars P s = true -> all_chars Q s = true.
Proof.
  intros HPQ. induction s as [|c r IH]; simpl; [reflexivity|].
  intros H. apply andb_true_iff in H as [Hc Hr].
  rewrite (HPQ c Hc), (IH Hr). reflexivity.
Qed.

(** Leading digits, counted and split off. *)
Lemma span_digits_spec s n r :
  Py.span_digits s = (n, r) ->
  exists ds, s = (ds ++ r)%string /\ all_chars Py.is_digit ds = true /\
             String.length ds = n.
Proof.
  revert n r; induction s as [|c s IH]; simpl; intros n r H.
  - injection H as <- <-. exists EmptyString. auto.
  - destruct (Py.is_digit c) eqn:Ed.
    + destruct (Py.span_digits s) as [m rest] eqn:Es.
      injection H as <- <-.
      destruct (IH m rest eq_refl) as (ds & -> & Hds & Hlen).
      exists (String c ds). rewrite str_app_cons. simpl. rewrite Ed, Hds, Hlen. auto.
    + injection H as <- <-. exists EmptyString. auto.
Qed.

Lemma span_digits_all s :
  all_chars Py.is_digit s = true ->
  Py.span_digits s = (String.length s, EmptyString).
Proof.
  induction s as [|c s IH]; simpl; [reflexivity|].
  intros H. apply andb_true_iff in H as [Hc Hs].
  rewrite Hc, (IH Hs). reflexivity.
Qed.

Lemma digits_is_ascii s : all_chars Py.is_digit s = true -> Py.is_ascii s = true.
Proof.
  induction s as [|c s IH]; simpl; [reflexivity|].
  intros H. apply andb_true_iff in H as [Hc Hs].
  destruct (digit_facts c Hc) as (-> & _). rewrite (IH Hs). reflexivity.
Qed.

Lemma digits_no_underscore s :
  all_chars Py.is_digit s = true -> Py.contains "_" s = false.
Proof.
  induction s as [|c s IH]; simpl; [reflexivity|].
  intros H. apply andb_true_iff in H as [Hc Hs].
  destruct (digit_facts c Hc) as (_ & _ & -> & _). rewrite (IH Hs). reflexivity.
Qed.

Lemma digits_rstrip s :
  all_chars Py.is_digit s = true -> Py.rstrip_with Py.c_isspace s = s.
Proof.
  induction s as [|c s IH]; simpl; [reflexivity|].
  intros H. apply andb_true_iff in H as [Hc Hs].
  rewrite (IH Hs). destruct (digit_facts c Hc) as (_ & -> & _).
  destruct s; reflexivity.
Qed.

(** Every non-empty string of decimal digits is a number for
    [_is_number]: integer-named keys are always left out of the feature
    string. *)
Theorem digit_strings_are_numbers (s : string) :
  s <> "" -> all_chars Py.is_digit s = true -> _is_number s = true.
Proof.
  intros Hne Hd. unfold _is_number, Py.float_parses, Py.transform_decimal_and_space.
  rewrite (digits_is_ascii s Hd).
  destruct s as [|c r]; [congruence|].
  pose proof Hd as Hd'. simpl in Hd'. apply andb_true_iff in Hd' as [Hc Hr].
  destruct (digit_facts c Hc) as (_ & Hsp & _ & Hplus & Hminus & Hlow & Hi & Hn & _).
  assert (Hl : Py.lstrip_with Py.c_isspace (String c r) = String c r)
    by (simpl; rewrite Hsp; reflexivity).
  rewrite Hl, (digits_rstrip _ Hd), (digits_no_underscore _ Hd).
  unfold Py.is_float_literal, Py.skip_sign. rewrite Hplus, Hminus. simpl orb. cbv iota.
  assert (Hinf : Py.is_inf_or_nan (String c r) = false).
  { unfold Py.is_inf_or_nan. simpl Py.c_lower. rewrite Hlow.
    simpl. rewrite Hi, Hn. reflexivity. }
  rewrite Hinf, (span_digits_all _ Hd). reflexivity.
Qed.

Lemma digit_strings_are_numbers_witness :
  "2024" <> "" /\ all_chars Py.is_digit "2024" = true /\ _is_number "2024" = true.
Proof.
  split; [discriminate|]. split; [reflexivity|].
  apply (digit_strings_are_numbers "2024"); [discriminate | reflexivity].
Defined.

Lemma c_lower_literal s :
  all_chars (fun x => Py.is_digit x || Py.contains x "+-.einftya") (Py.c_lower s)
    = all_chars literal_char s.
Proof.
  induction s as [|c s IH]; [reflexivity|].
  cbn [all_chars Py.c_lower]. rewrite IH. reflexivity.
Qed.

Lemma inf_or_nan_literal body :
  Py.is_inf_or_nan body = true -> all_chars literal_char body = true.
Proof.
  unfold Py.is_inf_or_nan. intros H. rewrite <- c_lower_literal.
  apply orb_true_iff in H as [H|H]; [apply orb_true_iff in H as [H|H]|];
    apply String.eqb_eq in H; rewrite H; reflexivity.
Qed.

Lemma digits_literal ds :
  all_chars Py.is_digit ds = true -> all_chars literal_char ds = true.
Proof. apply all_chars_impl. intros c Hc. apply (digit_facts c Hc). Qed.

Lemma skip_sign_literal u :
  all_chars literal_char (Py.skip_sign u) = true -> all_chars literal_char u = true.
Proof.
  destruct u as [|c r]; [auto|]. unfold Py.skip_sign.
  destruct (Ascii.eqb c "+" || Ascii.eqb c "-") eqn:E; [|auto].
  intros H. simpl. rewrite (sign_literal_char c E), H. reflexivity.
Qed.

Lemma exponent_literal r2 :
  Py.is_exponent r2 = true -> all_chars literal_char r2 = true.
Proof.
  destruct r2 as [|c r]; [discriminate|]. unfold Py.is_exponent.
  intros H. apply andb_true_iff in H as [He H].
  destruct (Py.span_digits (Py.skip_sign r)) as [n rest] eqn:Es.
  apply andb_true_iff in H as [_ Hrest]. apply String.eqb_eq in Hrest. subst rest.
  destruct (span_digits_spec _ _ _ Es) as (ds & Hds & Hd & _).
  simpl. rewrite (e_literal_char c He). simpl.
  apply skip_sign_literal. rewrite Hds, str_app_nil_r. apply digits_literal. exact Hd.
Qed.

(** An accepted literal is made of literal characters. *)
Lemma float_literal_chars u :
  Py.is_float_literal u = true -> all_chars literal_char u = true.
Proof.
  unfold Py.is_float_literal. intros H. apply skip_sign_literal.
  destruct (Py.is_inf_or_nan (Py.skip_sign u)) eqn:Einf;
    [apply inf_or_nan_literal; exact Einf|].
  destruct (Py.span_digits (Py.skip_sign u)) as [n1 r1] eqn:E1.
  destruct (span_digits_spec _ _ _ E1) as (ds1 & -> & Hd1 & _).
  rewrite all_chars_app, (digits_literal _ Hd1). simpl andb.
  assert (Htail : forall r2, String.eqb r2 EmptyString || Py.is_exponent r2 = true ->
                             all_chars literal_char r2 = true).
  { intros r2 Hr2. apply orb_true_iff in Hr2 as [Hr2|Hr2].
    - apply String.eqb_eq in Hr2. subst r2. reflexivity.
    - apply exponent_literal. exact Hr2. }
  destruct r1 as [|c r].
  - reflexivity.
  - destruct (Ascii.eqb c ".") eqn:Ep.
    + destruct (Py.span_digits r) as [n2 r2] eqn:E2.
      apply andb_true_iff in H as [_ H].
      destruct (span_digits_spec _ _ _ E2) as (ds2 & -> & Hd2 & _).
      simpl. rewrite (point_literal_char c Ep). simpl.
      rewrite all_chars_app, (digits_literal _ Hd2). simpl. apply Htail. exact H.
    + apply andb_true_iff in H as [_ H]. apply Htail. exact H.
Qed.

Lemma strip_underscores_chars prev t u :
  Py.strip_underscores prev t = Some u ->
  all_chars literal_char u = true -> all_chars float_char t = true.
Proof.
  revert prev u; induction t as [|c r IH]; intros prev u H Hu; [reflexivity|].
  simpl in H. destruct (Ascii.eqb c "_") eqn:Eu.
  - destruct (Py.is_digit prev); [|discriminate].
    simpl. unfold float_char at 1. rewrite Eu, orb_true_r. simpl.
    exact (IH c u H Hu).
  - destruct (Ascii.eqb prev "_" && negb (Py.is_digit c)); [discriminate|].
    destruct (Py.strip_underscores c r) as [u'|] eqn:Er; [|discriminate].
    injection H as <-. simpl in Hu. apply andb_true_iff in Hu as [Hc Hu'].
    simpl. rewrite (literal_float_char c Hc). simpl. exact (IH c u' Er Hu').
Qed.

Lemma lstrip_chars (sp P : ascii -> bool) s :
  (forall c, sp c = true -> P c = true) ->
  all_chars P (Py.lstrip_with sp s) = true -> all_chars P s = true.
Proof.
  intros Hsp. induction s as [|c r IH]; simpl; [auto|].
  destruct (sp c) eqn:E; [|auto].
  intros H. rewrite (Hsp c E), (IH H). reflexivity.
Qed.

Lemma rstrip_chars (sp P : ascii -> bool) s :
  (forall c, sp c = true -> P c = true) ->
  all_chars P (Py.rstrip_with sp s) = true -> all_chars P s = true.
Proof.
  intros Hsp. induction s as [|c r IH]; simpl; [auto|].
  destruct (Py.rstrip_with sp r) as [|c' r'] eqn:Er.
  - destruct (sp c) eqn:E; intros H.
    + rewrite (Hsp c E), (IH eq_refl). reflexivity.
    + simpl in H. apply andb_true_iff in H as [Hc _].
      rewrite Hc, (IH eq_refl). reflexivity.
  - intros H. simpl in H. apply andb_true_iff in H as [Hc Hr].
    rewrite Hc. simpl. apply IH. simpl. exact Hr.
Qed.

Lemma transform_non_ascii_chars s :
  all_chars float_char (Py.transform_non_ascii s) = true ->
  all_chars float_char s = true.
Proof.
  induction s as [|c r IH]; [auto|].
  cbn [Py.transform_non_ascii all_chars].
  destruct (Py.ord c <? 127)%N.
  - cbn [all_chars]. intros H. apply andb_true_iff in H as [Hc Hr].
    rewrite Hc, (IH Hr). reflexivity.
  - destruct (Py.isspace c) eqn:Es.
    + cbn [all_chars]. intros H. apply andb_true_iff in H as [_ Hr].
      unfold float_char at 1. rewrite Es, orb_true_r, (IH Hr). reflexivity.
    + intros H. vm_compute in H. discriminate.
Qed.

(** [float] returns only on strings made of digits, signs, the point, the
    underscore, whitespace and the letters a, e, f, i, n, t, y. *)
Lemma float_parses_chars s :
  Py.float_parses s = true -> all_chars float_char s = true.
Proof.
  unfold Py.float_parses. intros H.
  assert (Ht : all_chars float_char (Py.transform_decimal_and_space s) = true).
  { apply (lstrip_chars Py.c_isspace); [apply c_isspace_float_char|].
    apply (rstrip_chars Py.c_isspace); [apply c_isspace_float_char|].
    destruct (Py.contains "_" _).
    - destruct (Py.strip_underscores "000" _) as [u|] eqn:Eu; [|discriminate].
      apply (strip_underscores_chars _ _ _ Eu). apply float_literal_chars. exact H.
    - apply (all_chars_impl literal_char); [apply literal_float_char|].
      apply float_literal_chars. exact H. }
  unfold Py.transform_decimal_and_space in Ht.
  destruct (Py.is_ascii s); [exact Ht|]. apply transform_non_ascii_chars. exact Ht.
Qed.

(** A key with a character outside the digits, [+ - . _], whitespace and
    the letters a, e, f, i, n, t, y (in either case) is never taken for a
    number: its entry always stays in the feature string. *)
Theorem keys_with_other_characters_are_kept (s : string) :
  all_chars float_char s = false ->
  _is_number s = false /\
  forall (props : OD.t scalar) v, In (s, v) props -> In (s, v) (kept_features props).
Proof.
  intros Hc.
  assert (Hn : Py.float_parses s = false).
  { destruct (Py.float_parses s) eqn:E; [|reflexivity].
    rewrite (float_parses_chars s E) in Hc. discriminate. }
  split; [exact Hn|].
  intros props v Hin. apply kept_features_In. auto.
Qed.

Lemma keys_with_other_characters_are_kept_witness :
  all_chars float_char "PronType" = false /\
  _is_number "PronType" = false /\
  forall (props : OD.t scalar) v,
    In ("PronType", v) props -> In ("PronType", v) (kept_features props).
Proof.
  split; [reflexivity|].
  apply (keys_with_other_characters_are_kept "PronType"). reflexivity.
Defined.

(* ===================================================================== *)
(** ** Processing a document again *)
(* ===================================================================== *)

Lemma set_extensions_registered PD self reg :
  names_ok self -> registered PD self reg -> _set_extensions PD self reg = Ok reg.
Proof.
  intros Hn (Hd & Hs & Ht). unfold _set_extensions.
  rewrite !set_extensions_of_registered by assumption. step.
  destruct reg; reflexivity.
Qed.

Lemma enumerate_map {A B} (f : A -> B) (xs : list A) start :
  enumerate (map f xs) start
    = map (fun it => (fst it, f (snd it))) (enumerate xs start).
Proof.
  revert start; induction xs as [|x xs IH]; intros start; simpl;
    [reflexivity | rewrite IH; reflexivity].
Qed.

Lemma enumerate_map_enumerate {A B} (f : Z * A -> B) (xs : list A) start :
  enumerate (map f (enumerate xs start)) start
    = map (fun it => (fst it, f it)) (enumerate xs start).
Proof.
  revert start; induction xs as [|x xs IH]; intros start; simpl;
    [reflexivity | rewrite IH; reflexivity].
Qed.

Lemma enumerate_nth {A} (xs : list A) start k :
  nth_error (enumerate xs start) k
    = option_map (fun x => ((start + Z.of_nat k)%Z, x)) (nth_error xs k).
Proof.
  revert start k; induction xs as [|x xs IH]; intros start k.
  - destruct k; reflexivity.
  - destruct k as [|k]; simpl.
    + rewrite Z.add_0_r. reflexivity.
    + rewrite IH. destruct (nth_error xs k); simpl; [|reflexivity].
      do 2 f_equal. lia.
Qed.

(** Writing the three attributes a second time changes nothing. *)
Lemma writes_twice PD self a b c (u : gmap string value) :
  with_pandas PD self c
    (<[ name_of self "conll_str" := a ]>
       (<[ name_of self "conll" := b ]>
          (with_pandas PD self c
             (<[ name_of self "conll_str" := a ]>
                (<[ name_of self "conll" := b ]> u)))))
  = with_pandas PD self c
      (<[ name_of self "conll_str" := a ]> (<[ name_of self "conll" := b ]> u)).
Proof.
  unfold with_pandas. destruct (pandas_on PD self);
    apply map_eq; intros i; rewrite !lookup_insert;
    repeat case_decide; try reflexivity; congruence.
Qed.

Lemma writes_untouched PD self a b c (u : gmap string value) :
  untouched self u
    (with_pandas PD self c
       (<[ name_of self "conll_str" := a ]> (<[ name_of self "conll" := b ]> u))).
Proof.
  intros name Hs Hc Hp. unfold with_pandas.
  destruct (pandas_on PD self); rewrite !lookup_insert_ne by congruence; reflexivity.
Qed.

(** The record of a token depends on the sentence through the position
    of its first token only, and on the token through its annotation. *)
Lemma token_conll_d_ext self sent sent' tok tok' idx :
  option_map Token.i (hd_error (Span.tokens sent'))
    = option_map Token.i (hd_error (Span.tokens sent)) ->
  same_annotation tok tok' ->
  token_conll_d self sent' tok' idx = token_conll_d self sent tok idx.
Proof.
  intros Hhd (Hi & Htext & Hlemma & Hpos & Htag & Hdep & Hws & Hhead).
  assert (Hh : head_idx sent' tok' = head_idx sent tok).
  { unfold head_idx. rewrite Hdep, Hhead.
    destruct (String.eqb _ "root"); [reflexivity|].
    destruct (Span.tokens sent') as [|f' ?], (Span.tokens sent) as [|f ?];
      simpl in Hhd; try discriminate; [reflexivity|].
    injection Hhd as ->. reflexivity. }
  unfold token_conll_d, token_conll.
  rewrite Hh, Htext, Hlemma, Hpos, Htag, Hdep, Hws. reflexivity.
Qed.

Lemma token_after_same_annotation PD self sent it :
  same_annotation (snd it) (token_after PD self sent it).
Proof. unfold same_annotation, token_after. simpl. repeat split. Qed.

Lemma tokens_after_hd PD self span :
  option_map Token.i (hd_error (tokens_after PD self span))
    = option_map Token.i (hd_error (Span.tokens span)).
Proof. unfold tokens_after. destruct (Span.tokens span); reflexivity. Qed.

Lemma token_record_after PD self k span j tok :
  token_record self (span_after PD self (k, span))
               (token_after PD self span (j, tok)) j
    = token_record self span tok j.
Proof.
  unfold token_record. rewrite (token_conll_d_ext self span _ tok _ j); [reflexivity| |].
  - apply tokens_after_hd.
  - apply (token_after_same_annotation PD self span (j, tok)).
Qed.

Lemma token_after_twice PD self k span j tok :
  token_after PD self (span_after PD self (k, span))
              (j, token_after PD self span (j, tok))
    = token_after PD self span (j, tok).
Proof.
  unfold token_after at 1. simpl fst. simpl snd.
  rewrite token_record_after. unfold token_after. simpl.
  unfold Token.with_us. simpl. f_equal. apply writes_twice.
Qed.

Lemma tokens_after_twice PD self k span :
  tokens_after PD self (span_after PD self (k, span)) = tokens_after PD self span.
Proof.
  unfold tokens_after at 1. simpl Span.tokens. unfold tokens_after at 1.
  rewrite enumerate_map_enumerate, map_map. unfold tokens_after.
  apply map_ext. intros [j tok]. simpl. apply token_after_twice.
Qed.

Lemma span_string_after PD self k span :
  span_string self k (span_after PD self (k, span)) = span_string self k span.
Proof.
  unfold span_string, header. simpl Span.text. simpl Span.tokens. f_equal. f_equal.
  unfold tokens_after. rewrite enumerate_map_enumerate, map_map.
  apply map_ext. intros [j tok]. unfold token_line. simpl.
  rewrite token_record_after. reflexivity.
Qed.

Lemma span_after_twice PD self k span :
  span_after PD self (k, span_after PD self (k, span)) = span_after PD self (k, span).
Proof.
  unfold span_after at 1. simpl fst. simpl snd.
  rewrite tokens_after_twice, span_string_after.
  unfold span_after. simpl. f_equal. apply writes_twice.
Qed.

Lemma spans_after_twice PD self doc :
  spans_after PD self (doc_after PD self doc) = spans_after PD self doc.
Proof.
  unfold spans_after at 1. simpl Doc.sents. unfold spans_after at 1.
  rewrite enumerate_map_enumerate, map_map. unfold spans_after.
  apply map_ext. intros [k span]. simpl. apply span_after_twice.
Qed.

Lemma doc_after_twice PD self doc :
  doc_after PD self (doc_after PD self doc) = doc_after PD self doc.
Proof.
  assert (Hstr : doc_string self (doc_after PD self doc) = doc_string self doc).
  { unfold doc_string. simpl Doc.sents. unfold spans_after.
    rewrite enumerate_map_enumerate, map_map. f_equal.
    apply map_ext. intros [k span]. simpl. apply span_string_after. }
  assert (Hrows : all_rows PD self (doc_after PD self doc) = all_rows PD self doc).
  { unfold all_rows. rewrite spans_after_twice. reflexivity. }
  unfold doc_after at 1. rewrite spans_after_twice, Hstr, Hrows.
  unfold doc_after. simpl. f_equal. apply writes_twice.
Qed.

(** Processing is idempotent per call: a document that has been
    processed comes out unchanged when it is processed again, with the
    registry the first call left; every attribute is recomputed and
    overwritten with the same value. *)
Theorem call_twice PD self reg doc :
  names_ok self ->
  (pandas_on PD self = true ->
   name_of self "conll_pd" <> name_of self "conll_str" /\ Doc.sents doc <> []) ->
  exists doc' reg',
    __call__ PD self reg doc = Ok (doc', reg') /\
    __call__ PD self reg' doc' = Ok (doc', reg').
Proof.
  intros Hn Hpd.
  destruct (call_ok PD self reg doc Hn Hpd) as (reg' & _ & Hr & Hcall).
  exists (doc_after PD self doc), reg'. split; [exact Hcall|].
  destruct (call_ok PD self reg' (doc_after PD self doc) Hn) as (reg'' & Hreg & _ & Hcall').
  { intros Hon. destruct (Hpd Hon) as [Hne Hs]. split; [exact Hne|].
    simpl. unfold spans_after. destruct (Doc.sents doc); [congruence | discriminate]. }
  rewrite (set_extensions_registered PD self reg' Hn Hr) in Hreg.
  injection Hreg as <-. rewrite Hcall', doc_after_twice. reflexivity.
Qed.

Lemma call_twice_witness :
  names_ok (formatter_with default_names None true false) /\
  (pandas_on true (formatter_with default_names None true false) = true ->
   name_of (formatter_with default_names None true false) "conll_pd"
     <> name_of (formatter_with default_names None true false) "conll_str" /\
   Doc.sents sample_doc <> []) /\
  exists doc' reg',
    __call__ true (formatter_with default_names None true false)
             empty_registry sample_doc = Ok (doc', reg') /\
    __call__ true (formatter_with default_names None true false) reg' doc'
      = Ok (doc', reg').
Proof.
  split; [reflexivity|].
  split; [intros _; split; vm_compute; discriminate|].
  apply (call_twice true (formatter_with default_names None true false)
                    empty_registry sample_doc).
  - reflexivity.
  - intros _; split; vm_compute; discriminate.
Defined.

(* ===================================================================== *)
(** ** What a call leaves alone, and what it stores *)
(* ===================================================================== *)

(** [__call__] changes nothing but the three attributes: the document
    keeps its sentences, their texts and their tokens with all their
    annotation, and every extension attribute under another name keeps
    its value on the document, the sentences and the tokens. *)
Theorem call_preserves_annotation PD self reg doc :
  names_ok self ->
  (pandas_on PD self = true ->
   name_of self "conll_pd" <> name_of self "conll_str" /\ Doc.sents doc <> []) ->
  exists doc' reg',
    __call__ PD self reg doc = Ok (doc', reg') /\
    untouched self (Doc.us doc) (Doc.us doc') /\
    Forall2 (fun s s' =>
               Span.text s' = Span.text s /\
               untouched self (Span.us s) (Span.us s') /\
               Forall2 (fun t t' =>
                          same_annotation t t' /\
                          untouched self (Token.us t) (Token.us t'))
                       (Span.tokens s) (Span.tokens s'))
            (Doc.sents doc) (Doc.sents doc').
Proof.
  intros Hn Hpd.
  destruct (call_ok PD self reg doc Hn Hpd) as (reg' & _ & _ & Hcall).
  exists (doc_after PD self doc), reg'. split; [exact Hcall|].
  split; [apply writes_untouched|].
  simpl. unfold spans_after. apply Forall2_enumerate_map. intros k s.
  split; [reflexivity|]. split; [apply writes_untouched|].
  simpl. unfold tokens_after. apply Forall2_enumerate_map. intros j t.
  split; [apply (token_after_same_annotation PD self s (j, t))|].
  apply writes_untouched.
Qed.

Lemma call_preserves_annotation_witness :
  names_ok (formatter_with default_names None false true) /\
  (pandas_on true (formatter_with default_names None false true) = true ->
   name_of (formatter_with default_names None false true) "conll_pd"
     <> name_of (formatter_with default_names None false true) "conll_str" /\
   Doc.sents sample_doc <> []) /\
  exists doc' reg',
    __call__ true (formatter_with default_names None false true)
             empty_registry sample_doc = Ok (doc', reg') /\
    untouched (formatter_with default_names None false true)
              (Doc.us sample_doc) (Doc.us doc') /\
    Forall2 (fun s s' =>
               Span.text s' = Span.text s /\
               untouched (formatter_with default_names None false true)
                         (Span.us s) (Span.us s') /\
               Forall2 (fun t t' =>
                          same_annotation t t' /\
                          untouched (formatter_with default_names None false true)
                                    (Token.us t) (Token.us t'))
                       (Span.tokens s) (Span.tokens s'))
            (Doc.sents sample_doc) (Doc.sents doc').
Proof.
  split; [reflexivity|].
  split; [intros H; vm_compute in H; discriminate|].
  apply (call_preserves_annotation true (formatter_with default_names None false true)
                                   empty_registry sample_doc).
  - reflexivity.
  - intros H; vm_compute in H; discriminate.
Defined.

Lemma sentence_records_ok self span :
  Forall2 (fun it d => token_conll_d self span (snd it) (fst it) = Ok d)
          (enumerate (Span.tokens span) 1) (sentence_records self span).
Proof.
  assert (H : forall its : list (Z * Token.t),
             Forall (fun it => In (snd it) (Span.tokens span)) its ->
             Forall2 (fun it d => token_conll_d self span (snd it) (fst it) = Ok d)
                     its (map (fun it => token_record self span (snd it) (fst it)) its)).
  { induction 1 as [|it its Hit _ IH]; simpl; constructor; [|exact IH].
    destruct (token_conll_d_keys self span (snd it) (fst it) Hit) as (d & Hd & _).
    unfold token_record. rewrite Hd. reflexivity. }
  apply H. apply Forall_forall. intros [k t] Hin.
  apply list_elem_of_In, enumerate_In in Hin. exact Hin.
Qed.

Lemma stored_records PD self span :
  name_of self "conll" <> name_of self "conll_str" ->
  (pandas_on PD self = true -> name_of self "conll_pd" <> name_of self "conll") ->
  stored Token.us (name_of self "conll") (tokens_after PD self span)
    = map VDict (sentence_records self span).
Proof.
  intros Hcs Hne. unfold stored, tokens_after, sentence_records. rewrite !map_map.
  apply map_ext. intros it.
  rewrite (token_after_record PD self span it Hcs Hne). reflexivity.
Qed.

Lemma stored_span_records PD self doc :
  name_of self "conll" <> name_of self "conll_str" ->
  (pandas_on PD self = true -> name_of self "conll_pd" <> name_of self "conll") ->
  stored Span.us (name_of self "conll") (spans_after PD self doc)
    = map (fun s => VList (map VDict (sentence_records self s))) (Doc.sents doc).
Proof.
  intros Hcs Hne. unfold stored, spans_after. rewrite map_map.
  assert (H : forall (xs : list Span.t) start,
             map (fun it => default VNone
                              (Span.us (span_after PD self it) !! name_of self "conll"))
                 (enumerate xs start)
             = map (fun s => VList (map VDict (sentence_records self s))) xs).
  { induction xs as [|s xs IH]; intros start; [reflexivity|].
    cbn [enumerate map]. rewrite IH, (span_after_records PD self (start, s) Hcs Hne).
    cbn [default]. change (Span.tokens (span_after PD self (start, s)))
      with (tokens_after PD self s).
    rewrite (stored_records PD self s Hcs Hne). reflexivity. }
  apply H.
Qed.

(** With three different attribute names, the record attribute of a
    processed document is a list with one list per sentence, holding the
    records of the sentence's tokens in order: a list of lists of
    dictionaries. *)
Theorem document_records_nested PD self reg doc :
  names_ok self ->
  name_of self "conll" <> name_of self "conll_str" ->
  (pandas_on PD self = true ->
   name_of self "conll_pd" <> name_of self "conll_str" /\
   name_of self "conll_pd" <> name_of self "conll" /\
   Doc.sents doc <> []) ->
  exists doc' reg' (recss : list (list (OD.t scalar))),
    __call__ PD self reg doc = Ok (doc', reg') /\
    Underscore.get (doc_extensions reg') (Doc.us doc') (name_of self "conll")
      = Ok (VList (map (fun recs => VList (map VDict recs)) recss)) /\
    Forall2 (fun s recs =>
               Forall2 (fun it d => token_conll_d self s (snd it) (fst it) = Ok d)
                       (enumerate (Span.tokens s) 1) recs)
            (Doc.sents doc) recss.
Proof.
  intros Hn Hcs Hpd.
  assert (Hnc : pandas_on PD self = true ->
                name_of self "conll_pd" <> name_of self "conll")
    by (intros Hon; apply Hpd; exact Hon).
  destruct (call_ok PD self reg doc Hn) as (reg' & _ & Hr & Hcall).
  { intros Hon. destruct (Hpd Hon) as (? & _ & ?). auto. }
  pose proof Hr as ((_ & Hc & _) & _).
  exists (doc_after PD self doc), reg', (map (sentence_records self) (Doc.sents doc)).
  split; [exact Hcall|]. split.
  - rewrite (underscore_get_ok _ _ _ Hc). unfold doc_after, with_pandas. simpl.
    rewrite (stored_span_records PD self doc Hcs Hnc), map_map.
    destruct (pandas_on PD self).
    + rewrite lookup_insert_ne by (apply Hnc; reflexivity).
      rewrite lookup_insert_ne by congruence. rewrite lookup_insert_eq. reflexivity.
    + rewrite lookup_insert_ne by congruence. rewrite lookup_insert_eq. reflexivity.
  - apply Forall2_fmap_r. apply Forall_Forall2_diag.
    apply Forall_forall. intros s _. apply sentence_records_ok.
Qed.

Lemma document_records_nested_witness :
  names_ok (formatter_with default_names None false false) /\
  name_of (formatter_with default_names None false false) "conll"
    <> name_of (formatter_with default_names None false false) "conll_str" /\
  (pandas_on true (formatter_with default_names None false false) = true ->
   name_of (formatter_with default_names None false false) "conll_pd"
     <> name_of (formatter_with default_names None false false) "conll_str" /\
   name_of (formatter_with default_names None false false) "conll_pd"
     <> name_of (formatter_with default_names None false false) "conll" /\
   Doc.sents sample_doc <> []) /\
  exists doc' reg' (recss : list (list (OD.t scalar))),
    __call__ true (formatter_with default_names None false false)
             empty_registry sample_doc = Ok (doc', reg') /\
    Underscore.get (doc_extensions reg') (Doc.us doc')
                   (name_of (formatter_with default_names None false false) "conll")
      = Ok (VList (map (fun recs => VList (map VDict recs)) recss)) /\
    Forall2 (fun s recs =>
               Forall2 (fun it d =>
                          token_conll_d (formatter_with default_names None false false)
                                        s (snd it) (fst it) = Ok d)
                       (enumerate (Span.tokens s) 1) recs)
            (Doc.sents sample_doc) recss.
Proof.
  split; [reflexivity|].
  split; [vm_compute; discriminate|].
  split; [intros _; repeat split; vm_compute; discriminate|].
  apply (document_records_nested true (formatter_with default_names None false false)
                                 empty_registry sample_doc).
  - reflexivity.
  - vm_compute; discriminate.
  - intros _; repeat split; vm_compute; discriminate.
Defined.

Lemma all_rows_length PD self doc :
  length (all_rows PD self doc)
    = length (concat (map Span.tokens (Doc.sents doc))).
Proof.
  unfold all_rows, spans_after. rewrite map_map.
  generalize 1%Z. induction (Doc.sents doc) as [|s xs IH]; intros start; [reflexivity|].
  cbn [enumerate map concat]. rewrite !length_app, IH. f_equal.
  unfold stored, span_after, tokens_after. simpl.
  rewrite !length_map. apply enumerate_length.
Qed.

Lemma all_rows_records PD self doc :
  name_of self "conll" <> name_of self "conll_str" ->
  (pandas_on PD self = true -> name_of self "conll_pd" <> name_of self "conll") ->
  all_rows PD self doc
    = map VDict (concat (map (sentence_records self) (Doc.sents doc))).
Proof.
  intros Hcs Hne. unfold all_rows, spans_after. rewrite map_map.
  generalize 1%Z. induction (Doc.sents doc) as [|s xs IH]; intros start; [reflexivity|].
  cbn [enumerate map concat]. rewrite map_app, IH. f_equal.
  change (Span.tokens (span_after PD self (start, s))) with (tokens_after PD self s).
  apply stored_records; assumption.
Qed.

(** With pandas in use, the table of a processed document has one row
    per token of the document, in order, under a fresh index 0, 1, 2,
    ...; with three different attribute names the rows are the tokens'
    records. *)
Theorem document_table_rows PD self reg doc :
  names_ok self ->
  pandas_on PD self = true ->
  name_of self "conll_pd" <> name_of self "conll_str" ->
  Doc.sents doc <> [] ->
  exists doc' reg' rows,
    __call__ PD self reg doc = Ok (doc', reg') /\
    Underscore.get (doc_extensions reg') (Doc.us doc') (name_of self "conll_pd")
      = Ok (VFrame (map Z.of_nat (seq 0 (length rows))) rows) /\
    length rows = length (concat (map Span.tokens (Doc.sents doc))) /\
    (name_of self "conll" <> name_of self "conll_str" ->
     name_of self "conll_pd" <> name_of self "conll" ->
     rows = map VDict (concat (map (sentence_records self) (Doc.sents doc)))).
Proof.
  intros Hn Hon Hne Hs.
  destruct (call_ok PD self reg doc Hn) as (reg' & _ & Hr & Hcall); [auto|].
  pose proof Hr as ((_ & _ & Hp) & _).
  exists (doc_after PD self doc), reg', (all_rows PD self doc).
  split; [exact Hcall|]. split; [|split].
  - rewrite (underscore_get_ok _ _ _ (Hp Hon)). unfold doc_after, with_pandas. simpl.
    rewrite Hon, lookup_insert_eq. reflexivity.
  - apply all_rows_length.
  - intros Hcs Hnc. apply all_rows_records; auto.
Qed.

Lemma document_table_rows_witness :
  names_ok (formatter_with default_names None false false) /\
  pandas_on true (formatter_with default_names None false false) = true /\
  name_of (formatter_with default_names None false false) "conll_pd"
    <> name_of (formatter_with default_names None false false) "conll_str" /\
  Doc.sents sample_doc <> [] /\
  exists doc' reg' rows,
    __call__ true (formatter_with default_names None false false)
             empty_registry sample_doc = Ok (doc', reg') /\
    Underscore.get (doc_extensions reg') (Doc.us doc')
                   (name_of (formatter_with default_names None false false) "conll_pd")
      = Ok (VFrame (map Z.of_nat (seq 0 (length rows))) rows) /\
    length rows = length (concat (map Span.tokens (Doc.sents sample_doc))) /\
    (name_of (formatter_with default_names None false false) "conll"
       <> name_of (formatter_with default_names None false false) "conll_str" ->
     name_of (formatter_with default_names None false false) "conll_pd"
       <> name_of (formatter_with default_names None false false) "conll" ->
     rows = map VDict
                (concat (map (sentence_records
                                (formatter_with default_names None false false))
                             (Doc.sents sample_doc)))).
Proof.
  split; [reflexivity|]. split; [reflexivity|].
  split; [vm_compute; discriminate|]. split; [discriminate|].
  apply (document_table_rows true (formatter_with default_names None false false)
                             empty_registry sample_doc).
  - reflexivity.
  - reflexivity.
  - vm_compute; discriminate.
  - discriminate.
Defined.

(* ===================================================================== *)
(** ** Token numbers and heads *)
(* ===================================================================== *)

(** In a sentence of consecutive positions, the token at place [k] is
    numbered [k + 1], and the head column of a non-root token is the
    number its head token gets: the head column points at the [id]
    column of the head's line. *)
Theorem head_is_id_of_head_token self sent k tok j hd :
  contiguous sent ->
  nth_error (Span.tokens sent) k = Some tok ->
  nth_error (Span.tokens sent) j = Some hd ->
  Token.i hd = Token.head_i tok ->
  is_root tok = false ->
  nth_error (enumerate (Span.tokens sent) 1) k = Some (Z.of_nat k + 1, tok)%Z /\
  nth_error (enumerate (Span.tokens sent) 1) j = Some (Z.of_nat j + 1, hd)%Z /\
  exists raw raw_hd,
    token_conll self sent tok (Z.of_nat k + 1) = Ok raw /\
    token_conll self sent hd (Z.of_nat j + 1) = Ok raw_hd /\
    OD.get "id" (zip CONLL_FIELD_NAMES raw) = Some (SInt (Z.of_nat k + 1)) /\
    OD.get "head" (zip CONLL_FIELD_NAMES raw) = Some (SInt (Z.of_nat j + 1)) /\
    OD.get "id" (zip CONLL_FIELD_NAMES raw_hd) = Some (SInt (Z.of_nat j + 1)).
Proof.
  intros Hc Hk Hj Hi Hroot.
  split; [rewrite enumerate_nth, Hk; simpl; do 2 f_equal; lia|].
  split; [rewrite enumerate_nth, Hj; simpl; do 2 f_equal; lia|].
  pose proof (nth_error_In _ _ Hk) as Hin.
  pose proof (nth_error_In _ _ Hj) as Hin'.
  destruct (token_conll_ok self sent tok (Z.of_nat k + 1) Hin)
    as (first & h & Hf & Hh & _ & Ht & _).
  destruct (token_conll_ok self sent hd (Z.of_nat j + 1) Hin')
    as (first' & h' & _ & _ & _ & Ht' & _).
  eexists. eexists. split; [exact Ht|]. split; [exact Ht'|].
  split; [reflexivity|]. split; [|reflexivity].
  rewrite Hroot in Hh. rewrite <- Hi, (Hc first j hd Hf Hj) in Hh.
  simpl. do 2 f_equal. lia.
Qed.

Lemma head_is_id_of_head_token_witness :
  contiguous sent_dogs /\
  nth_error (Span.tokens sent_dogs) 2 = Some tok_dot /\
  nth_error (Span.tokens sent_dogs) 1 = Some tok_bark /\
  Token.i tok_bark = Token.head_i tok_dot /\
  is_root tok_dot = false /\
  nth_error (enumerate (Span.tokens sent_dogs) 1) 2 = Some (Z.of_nat 2 + 1, tok_dot)%Z /\
  nth_error (enumerate (Span.tokens sent_dogs) 1) 1 = Some (Z.of_nat 1 + 1, tok_bark)%Z /\
  exists raw raw_hd,
    token_conll (formatter_with default_names None false false)
                sent_dogs tok_dot (Z.of_nat 2 + 1) = Ok raw /\
    token_conll (formatter_with default_names None false false)
                sent_dogs tok_bark (Z.of_nat 1 + 1) = Ok raw_hd /\
    OD.get "id" (zip CONLL_FIELD_NAMES raw) = Some (SInt (Z.of_nat 2 + 1)) /\
    OD.get "head" (zip CONLL_FIELD_NAMES raw) = Some (SInt (Z.of_nat 1 + 1)) /\
    OD.get "id" (zip CONLL_FIELD_NAMES raw_hd) = Some (SInt (Z.of_nat 1 + 1)).
Proof.
  split; [exact sent_dogs_contiguous|].
  split; [reflexivity|]. split; [reflexivity|]. split; [reflexivity|].
  split; [reflexivity|].
  apply (head_is_id_of_head_token (formatter_with default_names None false false)
                                  sent_dogs 2 tok_dot 1 tok_bark).
  - exact sent_dogs_contiguous.
  - reflexivity.
  - reflexivity.
  - reflexivity.
  - reflexivity.
Defined.

(* ===================================================================== *)
(** ** Reading a sentence string back *)
(* ===================================================================== *)

Lemma contains_app c (a b : string) :
  Py.contains c (a ++ b) = Py.contains c a || Py.contains c b.
Proof.
  induction a as [|x a IH]; [reflexivity|].
  rewrite str_app_cons. cbn [Py.contains]. rewrite IH. apply orb_assoc.
Qed.

Lemma contains_join c sep (xs : list string) :
  Py.contains c sep = false ->
  Forall (fun x => Py.contains c x = false) xs ->
  Py.contains c (Py.join sep xs) = false.
Proof.
  intros Hsep. induction xs as [|x [|y xs] IH]; intros Hall.
  - reflexivity.
  - apply Forall_cons in Hall as [Hx _]. exact Hx.
  - apply Forall_cons in Hall as [Hx Hrest].
    rewrite join_cons2, !contains_app, Hx, Hsep, (IH Hrest). reflexivity.
Qed.

Lemma all_chars_contains P c s :
  all_chars P s = true -> P c = false -> Py.contains c s = false.
Proof.
  intros Hs Hc. induction s as [|x s IH]; [reflexivity|].
  cbn [all_chars] in Hs. apply andb_true_iff in Hs as [Hx Hs].
  cbn [Py.contains]. rewrite (IH Hs), orb_false_r.
  destruct (Ascii.eqb x c) eqn:E; [|reflexivity].
  apply Ascii.eqb_eq in E; subst x. congruence.
Qed.

(** [str] of an integer is made of digits and, in front, a minus sign. *)
Lemma str_int_chars z :
  all_chars (fun c => Py.is_digit c || Ascii.eqb c "-") (Py.str_int z) = true.
Proof.
  assert (Hu : forall d, all_chars (fun c => Py.is_digit c || Ascii.eqb c "-")
                                   (NilEmpty.string_of_uint d) = true).
  { induction d; simpl; try reflexivity; exact IHd. }
  assert (Hz : forall d, all_chars (fun c => Py.is_digit c || Ascii.eqb c "-")
                                   (NilZero.string_of_uint d) = true).
  { intros d. destruct d; try reflexivity; apply (Hu (_ d)). }
  unfold Py.str_int. destruct (Z.to_int z) as [d|d]; simpl; apply Hz.
Qed.

Lemma str_int_no_newline z : Py.contains "010" (Py.str_int z) = false.
Proof. apply (all_chars_contains _ _ _ (str_int_chars z)). reflexivity. Qed.

(** Lines that end with the separator split into the lines and a final
    empty string. *)
Lemma split_terminated sep (bodies : list string) :
  Forall (fun b => Py.contains sep b = false) bodies ->
  Py.split sep (fold_right String.append EmptyString
                           (map (fun b => (b ++ String sep EmptyString)%string) bodies))
    = bodies ++ [EmptyString].
Proof.
  induction 1 as [|b bodies Hb _ IH]; [reflexivity|].
  cbn [map fold_right]. rewrite str_app_assoc, str_app_cons, str_app_nil_l.
  rewrite (split_app_sep sep b _ Hb), IH. reflexivity.
Qed.

Lemma span_string_lines self idx span :
  span_string self idx span =
    fold_right String.append EmptyString
      (map (fun b => (b ++ NL)%string)
           ((if include_headers self
             then ["# sent_id = " ++ Py.str_int idx; "# text = " ++ Span.text span]%string
             else [])
              ++ map (fun d => Py.join TAB (map str (OD.values d)))
                     (sentence_records self span))).
Proof.
  unfold span_string, sentence_records. rewrite join_empty, map_app, fold_right_app.
  rewrite !map_map.
  assert (Hlines : map (token_line self span) (enumerate (Span.tokens span) 1)
                   = map (fun it => (Py.join TAB
                                       (map str (OD.values
                                                   (token_record self span (snd it) (fst it))))
                                       ++ NL)%string)
                         (enumerate (Span.tokens span) 1)) by reflexivity.
  rewrite Hlines.
  set (rest := fold_right String.append EmptyString _).
  destruct (include_headers self); [|reflexivity].
  unfold header. cbn [map fold_right]. rewrite !str_app_assoc. reflexivity.
Qed.

(** A sentence string reads back: when no record value has a tab or a
    newline in its string form (and, with headers, the sentence text has
    no newline), splitting the string on newlines gives the header
    lines, one line per token and a final empty string, and splitting a
    token's line on tabs gives the string forms of its record's
    values. *)
Theorem sentence_string_reads_back PD self reg span idx :
  names_ok self -> registered PD self reg ->
  (pandas_on PD self = true -> name_of self "conll_pd" <> name_of self "conll_str") ->
  (include_headers self = true -> Py.contains "010" (Span.text span) = false) ->
  Forall (fun d => Forall (fun v => Py.contains "009" (str v) = false /\
                                    Py.contains "010" (str v) = false)
                          (OD.values d))
         (sentence_records self span) ->
  exists span' s,
    _set_span_conll PD self reg span idx = Ok span' /\
    Underscore.get (span_extensions reg) (Span.us span') (name_of self "conll_str")
      = Ok (VStr s) /\
    Forall2 (fun it d => token_conll_d self span (snd it) (fst it) = Ok d)
            (enumerate (Span.tokens span) 1) (sentence_records self span) /\
    Py.split "010" s
      = (if include_headers self
         then ["# sent_id = " ++ Py.str_int idx; "# text = " ++ Span.text span]%string
         else [])
          ++ map (fun d => Py.join TAB (map str (OD.values d)))
                 (sentence_records self span)
          ++ [EmptyString] /\
    Forall (fun d => Py.split "009" (Py.join TAB (map str (OD.values d)))
                     = map str (OD.values d))
           (sentence_records self span).
Proof.
  intros Hn Hr Hne Htext Hclean.
  pose proof Hr as (_ & (Hs & _ & _) & _).
  exists (span_after PD self (idx, span)), (span_string self idx span).
  split; [exact (set_span_conll_ok PD self reg (idx, span) Hn Hr Hne)|].
  split.
  { rewrite (underscore_get_ok _ _ _ Hs), (span_after_string PD self (idx, span) Hne).
    reflexivity. }
  split; [apply sentence_records_ok|].
  split.
  - rewrite span_string_lines. change NL with (String "010" EmptyString).
    rewrite split_terminated; [rewrite <- app_assoc; reflexivity|].
    apply Forall_app. split.
    + destruct (include_headers self); [|constructor].
      constructor; [|constructor; [|constructor]].
      * rewrite contains_app, str_int_no_newline. reflexivity.
      * rewrite contains_app, (Htext eq_refl). reflexivity.
    + apply Forall_map. eapply Forall_impl; [exact Hclean|].
      intros d Hd. apply contains_join; [reflexivity|].
      apply Forall_map. eapply Forall_impl; [exact Hd|]. intros v [_ Hv]. exact Hv.
  - assert (Hkeys : Forall (fun d => OD.keys d = CONLL_FIELD_NAMES)
                           (sentence_records self span)).
    { unfold sentence_records. apply Forall_map. apply Forall_forall. intros [k t] Hin.
      apply list_elem_of_In, enumerate_In in Hin. simpl.
      destruct (token_conll_d_keys self span t k Hin) as (d & Hd & Hk).
      unfold token_record. rewrite Hd. exact Hk. }
    rewrite Forall_forall in Hclean, Hkeys |- *. intros d Hd.
    apply split_join.
    + intros E. apply (f_equal (@length string)) in E.
      rewrite length_map in E. unfold OD.values in E. rewrite length_map in E.
      rewrite <- (length_map fst d) in E.
      change (map fst d) with (OD.keys d) in E. rewrite (Hkeys d Hd) in E. discriminate.
    + apply Forall_map. eapply Forall_impl; [exact (Hclean d Hd)|].
      intros v [Hv _]. exact Hv.
Qed.

Lemma sentence_string_reads_back_witness :
  names_ok (formatter_with default_names None true false) /\
  registered false (formatter_with default_names None true false) default_registry /\
  (include_headers (formatter_with default_names None true false) = true ->
   Py.contains "010" (Span.text sent_dogs) = false) /\
  Forall (fun d => Forall (fun v => Py.contains "009" (str v) = false /\
                                    Py.contains "010" (str v) = false)
                          (OD.values d))
         (sentence_records (formatter_with default_names None true false) sent_dogs) /\
  exists span' s,
    _set_span_conll false (formatter_with default_names None true false)
                    default_registry sent_dogs 1 = Ok span' /\
    Underscore.get (span_extensions default_registry) (Span.us span')
                   (name_of (formatter_with default_names None true false) "conll_str")
      = Ok (VStr s) /\
    Forall2 (fun it d =>
               token_conll_d (formatter_with default_names None true false)
                             sent_dogs (snd it) (fst it) = Ok d)
            (enumerate (Span.tokens sent_dogs) 1)
            (sentence_records (formatter_with default_names None true false) sent_dogs) /\
    Py.split "010" s
      = (if include_headers (formatter_with default_names None true false)
         then ["# sent_id = " ++ Py.str_int 1; "# text = " ++ Span.text sent_dogs]%string
         else [])
          ++ map (fun d => Py.join TAB (map str (OD.values d)))
                 (sentence_records (formatter_with default_names None true false)
                                   sent_dogs)
          ++ [EmptyString] /\
    Forall (fun d => Py.split "009" (Py.join TAB (map str (OD.values d)))
                     = map str (OD.values d))
           (sentence_records (formatter_with default_names None true false) sent_dogs).
Proof.
  split; [reflexivity|].
  split; [apply default_registry_registered|].
  split; [intros _; reflexivity|].
  split; [vm_compute; repeat constructor|].
  apply (sentence_string_reads_back false (formatter_with default_names None true false)
                                    default_registry sent_dogs 1).
  - reflexivity.
  - apply default_registry_registered.
  - intros H. vm_compute in H. discriminate.
  - intros _; reflexivity.
  - vm_compute; repeat constructor.
Defined.

(* ===================================================================== *)
(** ** More on the constructor *)
(* ===================================================================== *)

Lemma set_extensions_grows PD self reg reg' :
  names_ok self -> _set_extensions PD self reg = Ok reg' ->
  doc_extensions reg ⊆ doc_extensions reg' /\
  span_extensions reg ⊆ span_extensions reg' /\
  token_extensions reg ⊆ token_extensions reg'.
Proof.
  intros Hn H. unfold _set_extensions in H.
  destruct (set_extensions_of_ok PD self (doc_extensions reg) Hn) as (d & Hd & _ & Sd).
  destruct (set_extensions_of_ok PD self (span_extensions reg) Hn) as (s & Hs & _ & Ss).
  destruct (set_extensions_of_ok PD self (token_extensions reg) Hn) as (t & Ht & _ & St).
  rewrite Hd, Hs, Ht in H. injection H as <-. simpl. auto.
Qed.

(** A constructed formatter names each output attribute as the rename
    map says and, where the map is silent (or absent, or empty), by the
    attribute's own key; the names it uses are registered on [Doc],
    [Span] and [Token], and no registered extension is lost. *)
Theorem init_applies_renames PD nlp cm names hdr dis reg self reg' :
  __init__ PD nlp cm names hdr dis reg = Ok (self, reg') ->
  NoDup (OD.keys (default [] names)) ->
  (forall key, In key VALID_KEYS ->
               name_of self key = default key (OD.get key (default [] names))) /\
  registered PD self reg' /\
  doc_extensions reg ⊆ doc_extensions reg' /\
  span_extensions reg ⊆ span_extensions reg' /\
  token_extensions reg ⊆ token_extensions reg'.
Proof.
  intros Hinit Hnd.
  destruct (init_ok_inv _ _ _ _ _ _ _ _ _ Hinit) as (Hn & Hreg & _).
  unfold __init__ in Hinit.
  apply bind_ok in Hinit as (d & Hd & Hinit).
  apply bind_ok in Hinit as (r & Hr & Hinit).
  injection Hinit as <- <-.
  split; [|split; [exact Hreg|]].
  - intros key Hkey. unfold name_of. simpl _ext_names.
    destruct (truthy_dict names) eqn:Et.
    + rewrite (merge_items_values _ _ _ Hnd Hd key).
      destruct (OD.get key (default [] names)); [reflexivity|].
      unfold VALID_KEYS in Hkey. simpl in Hkey.
      destruct Hkey as [<-|[<-|[<-|[]]]]; reflexivity.
    + injection Hd as <-.
      assert (He : default [] names = []).
      { destruct names as [[|? ?]|]; try reflexivity. discriminate. }
      rewrite He. unfold VALID_KEYS in Hkey. simpl in Hkey.
      destruct Hkey as [<-|[<-|[<-|[]]]]; reflexivity.
  - eapply set_extensions_grows; [|exact Hr]. exact Hn.
Qed.

Lemma init_applies_renames_witness :
  __init__ true sample_nlp None (Some [("conll", "conll_dict")]) false false
           (registry_of ["other"])
    = Ok (formatter_with [("conll_str", "conll_str"); ("conll", "conll_dict");
                          ("conll_pd", "conll_pd")] None false false,
          registry_of ["other"; "conll_str"; "conll_dict"; "conll_pd"]) /\
  NoDup (OD.keys (default [] (Some [("conll", "conll_dict")]))) /\
  (forall key, In key VALID_KEYS ->
               name_of (formatter_with [("conll_str", "conll_str");
                                        ("conll", "conll_dict");
                                        ("conll_pd", "conll_pd")] None false false) key
               = default key (OD.get key (default [] (Some [("conll", "conll_dict")])))) /\
  registered true
             (formatter_with [("conll_str", "conll_str"); ("conll", "conll_dict");
                              ("conll_pd", "conll_pd")] None false false)
             (registry_of ["other"; "conll_str"; "conll_dict"; "conll_pd"]) /\
  doc_extensions (registry_of ["other"])
    ⊆ doc_extensions (registry_of ["other"; "conll_str"; "conll_dict"; "conll_pd"]) /\
  span_extensions (registry_of ["other"])
    ⊆ span_extensions (registry_of ["other"; "conll_str"; "conll_dict"; "conll_pd"]) /\
  token_extensions (registry_of ["other"])
    ⊆ token_extensions (registry_of ["other"; "conll_str"; "conll_dict"; "conll_pd"]).
Proof.
  assert (Hinit : __init__ true sample_nlp None (Some [("conll", "conll_dict")])
                           false false (registry_of ["other"])
                  = Ok (formatter_with [("conll_str", "conll_str");
                                        ("conll", "conll_dict");
                                        ("conll_pd", "conll_pd")] None false false,
                        registry_of ["other"; "conll_str"; "conll_dict"; "conll_pd"]))
    by (vm_compute; reflexivity).
  assert (Hnd : NoDup (OD.keys (default [] (Some [("conll", "conll_dict")]))))
    by by_computation.
  split; [exact Hinit|]. split; [exact Hnd|].
  exact (init_applies_renames true sample_nlp None (Some [("conll", "conll_dict")])
                              false false (registry_of ["other"]) _ _ Hinit Hnd).
Defined.

(* ===================================================================== *)
(** ** Attributes of a token and of a sentence *)
(* ===================================================================== *)


(** With pandas in use, the table of a processed sentence has one row
    per token under the index 0, 1, 2, ...; with three different
    attribute names the rows are the tokens' records. *)
Theorem sentence_table_rows PD self reg span idx :
  names_ok self -> registered PD self reg ->
  pandas_on PD self = true ->
  name_of self "conll_pd" <> name_of self "conll_str" ->
  exists span' rows,
    _set_span_conll PD self reg span idx = Ok span' /\
    Underscore.get (span_extensions reg) (Span.us span') (name_of self "conll_pd")
      = Ok (VFrame (map Z.of_nat (seq 0 (length rows))) rows) /\
    length rows = length (Span.tokens span) /\
    (name_of self "conll" <> name_of self "conll_str" ->
     name_of self "conll_pd" <> name_of self "conll" ->
     rows = map VDict (sentence_records self span)).
Proof.
  intros Hn Hr Hon Hne.
  pose proof Hr as (_ & (_ & _ & Hp) & _).
  exists (span_after PD self (idx, span)),
         (stored Token.us (name_of self "conll") (tokens_after PD self span)).
  split; [apply (set_span_conll_ok PD self reg (idx, span)); auto|].
  split; [|split].
  - rewrite (underscore_get_ok _ _ _ (Hp Hon)),
            (span_after_frame PD self (idx, span) Hon). reflexivity.
  - unfold stored, tokens_after. rewrite !length_map. apply enumerate_length.
  - intros Hcs Hnc. apply stored_records; auto.
Qed.

Lemma sentence_table_rows_witness :
  names_ok (formatter_with default_names None false false) /\
  registered true (formatter_with default_names None false false) default_registry /\
  pandas_on true (formatter_with default_names None false false) = true /\
  name_of (formatter_with default_names None false false) "conll_pd"
    <> name_of (formatter_with default_names None false false) "conll_str" /\
  exists span' rows,
    _set_span_conll true (formatter_with default_names None false false)
                    default_registry sent_dogs 1 = Ok span' /\
    Underscore.get (span_extensions default_registry) (Span.us span')
                   (name_of (formatter_with default_names None false false) "conll_pd")
      = Ok (VFrame (map Z.of_nat (seq 0 (length rows))) rows) /\
    length rows = length (Span.tokens sent_dogs) /\
    (name_of (formatter_with default_names None false false) "conll"
       <> name_of (formatter_with default_names None false false) "conll_str" ->
     name_of (formatter_with default_names None false false) "conll_pd"
       <> name_of (formatter_with default_names None false false) "conll" ->
     rows = map VDict
                (sentence_records (formatter_with default_names None false false)
                                  sent_dogs)).
Proof.
  split; [reflexivity|].
  split; [apply default_registry_registered|].
  split; [reflexivity|]. split; [vm_compute; discriminate|].
  apply (sentence_table_rows true (formatter_with default_names None false false)
                             default_registry sent_dogs 1).
  - reflexivity.
  - apply default_registry_registered.
  - reflexivity.
  - vm_compute; discriminate.
Defined.

(* ===================================================================== *)
(** ** Documents without a sentence, in general *)
(* ===================================================================== *)

Lemma call_no_sentence_without_pandas_witness :
  names_ok (formatter_with default_names None false true) /\
  pandas_on true (formatter_with default_names None false true) = false /\
  name_of (formatter_with default_names None false true) "conll"
    <> name_of (formatter_with default_names None false true) "conll_str" /\
  Doc.sents empty_doc = [] /\
  exists doc' reg',
    __call__ true (formatter_with default_names None false true)
             empty_registry empty_doc = Ok (doc', reg') /\
    Doc.sents doc' = [] /\
    Underscore.get (doc_extensions reg') (Doc.us doc')
                   (name_of (formatter_with default_names None false true) "conll")
      = Ok (VList []) /\
    Underscore.get (doc_extensions reg') (Doc.us doc')
                   (name_of (formatter_with default_names None false true) "conll_str")
      = Ok (VStr EmptyString).
Proof.
  split; [reflexivity|]. split; [reflexivity|].
  split; [vm_compute; discriminate|]. split; [reflexivity|].
  apply (call_no_sentence_without_pandas
           true (formatter_with default_names None false true) empty_registry empty_doc).
  - reflexivity.
  - reflexivity.
  - vm_compute; discriminate.
  - reflexivity.
Defined.

Lemma call_no_sentence_with_pandas_witness :
  names_ok (formatter_with default_names None true false) /\
  pandas_on true (formatter_with default_names None true false) = true /\
  Doc.sents empty_doc = [] /\
  __call__ true (formatter_with default_names None true false)
           (registry_of ["other"]) empty_doc = Raise ValueError.
Proof.
  split; [reflexivity|]. split; [reflexivity|]. split; [reflexivity|].
  apply (call_no_sentence_with_pandas
           true (formatter_with default_names None true false)
           (registry_of ["other"]) empty_doc); reflexivity.
Defined.

(* ===================================================================== *)
(** ** A pandas attribute named like the string attribute *)
(* ===================================================================== *)

Lemma set_span_conll_shared_name PD self reg it :
  names_ok self -> registered PD self reg ->
  pandas_on PD self = true ->
  name_of self "conll_pd" = name_of self "conll_str" ->
  (Span.tokens (snd it) <> [] ->
   _set_span_conll PD self reg (snd it) (fst it) = Raise TypeError) /\
  (Span.tokens (snd it) = [] ->
   exists span', _set_span_conll PD self reg (snd it) (fst it) = Ok span').
Proof.
  intros Hn Hr Hon Heq.
  pose proof Hr as (_ & (Hs & Hc & Hp) & (Hts & Htc & _)).
  unfold _set_span_conll.
  rewrite (set_tokens_ok PD self reg (snd it) Hn Hr). step.
  rewrite (ext_name_ok self "conll" Hn valid_conll). step.
  rewrite (token_values_ok reg _ _ Htc). step.
  rewrite underscore_set_ok by exact Hc. step.
  rewrite (ext_name_ok self "conll_str" Hn valid_conll_str). step.
  rewrite (token_values_ok reg _ _ Hts). step.
  unfold tokens_after. split.
  - intros Hne. destruct (Span.tokens (snd it)) as [|t ts]; [congruence|].
    cbn [enumerate map stored]. unfold stored.
    cbn [map]. unfold token_after at 1, with_pandas.
    rewrite Hon, Heq. cbn [Token.us Token.with_us]. rewrite lookup_insert_eq.
    reflexivity.
  - intros ->. cbn [enumerate map stored]. unfold stored, join_values. cbn [map as_strings].
    step. rewrite underscore_set_ok by exact Hs. step.
    rewrite Hon, (ext_name_ok self "conll_pd" Hn valid_conll_pd). step.
    rewrite underscore_set_ok by exact (Hp Hon). step.
    eexists; reflexivity.
Qed.

(** When the rename map gives the pandas attribute the name of the string
    attribute and pandas is in use, processing any document that has a
    token raises [TypeError]: each token's line is overwritten by its
    series before the sentence joins the lines. *)
Theorem shared_pandas_string_name_raises PD self reg doc :
  names_ok self ->
  pandas_on PD self = true ->
  name_of self "conll_pd" = name_of self "conll_str" ->
  Exists (fun s => Span.tokens s <> []) (Doc.sents doc) ->
  __call__ PD self reg doc = Raise TypeError.
Proof.
  intros Hn Hon Heq Hex.
  destruct (set_extensions_ok PD self reg Hn) as (reg' & Hreg & Hr).
  unfold __call__. rewrite Hreg. step.
  assert (Hloop : forall xs start,
             Exists (fun s => Span.tokens s <> []) xs ->
             mapM (fun it => _set_span_conll PD self reg' (snd it) (fst it))
                  (enumerate xs start) = Raise TypeError).
  { induction xs as [|s xs IH]; intros start Hx; [inversion Hx|].
    cbn [enumerate mapM].
    destruct (set_span_conll_shared_name PD self reg' (start, s) Hn Hr Hon Heq)
      as [Hfull Hempty].
    simpl fst in *. simpl snd in *.
    destruct (Span.tokens s) as [|t ts] eqn:Et.
    - destruct (Hempty eq_refl) as (s' & ->). step.
      rewrite IH; [reflexivity|].
      inversion Hx as [? ? Hs|? ? Hrest]; subst; [congruence | exact Hrest].
    - rewrite Hfull by discriminate. reflexivity. }
  rewrite (Hloop _ _ Hex). reflexivity.
Qed.

Lemma shared_pandas_string_name_raises_witness :
  names_ok (formatter_with pd_as_str_names None false false) /\
  pandas_on true (formatter_with pd_as_str_names None false false) = true /\
  name_of (formatter_with pd_as_str_names None false false) "conll_pd"
    = name_of (formatter_with pd_as_str_names None false false) "conll_str" /\
  Exists (fun s => Span.tokens s <> []) (Doc.sents sample_doc) /\
  __call__ true (formatter_with pd_as_str_names None false false)
           empty_registry sample_doc = Raise TypeError.
Proof.
  split; [reflexivity|]. split; [reflexivity|]. split; [reflexivity|].
  split; [apply Exists_cons_hd; discriminate|].
  apply (shared_pandas_string_name_raises
           true (formatter_with pd_as_str_names None false false)
           empty_registry sample_doc).
  - reflexivity.
  - reflexivity.
  - reflexivity.
  - apply Exists_cons_hd; discriminate.
Defined.

(* ===================================================================== *)
(** ** Sentence numbers *)
(* ===================================================================== *)


